(** * nlp-search-videos: scene sampling, embedding indexing and text search

    A shallow embedding of the Python pipeline
    ([modules/scene_utils.py], [modules/clip_embeddings.py],
    [modules/chromadb_manager.py], [modules/text_search.py], [main.py])
    together with the properties its specification states about it.

    Conventions of the embedding.
    - Python [int] is [Z]; Python [float] is a binary64 [PrimFloat.float].
    - A Python computation that may raise is an [outcome]; one that also
      touches mutable state (the vector store, the output directory) is a
      [Py.M S] computation, a function from the state to an outcome and
      the new state.  The state survives a raised exception, as in Python.
    - The external collaborators (scenedetect, OpenCV, CLIP, ChromaDB) are
      not part of the repository.  They are the fields of the records
      [VideoEnv] and [Store], and the general theorems quantify over them.
    - [print] changes no value.  It is left out of the functions of the
      modules and of the batch; the two entry points of [main.py] that
      wrap their whole body in [try ... except Exception] are modelled a
      second time with every [print] they make, on a console that may
      refuse a line ([main_console]), and the silent model is shown to be
      what they do on a console that accepts every line.
    - Integer arithmetic is exact.  Where the source goes through a
      binary64 ([round(a / b)], [int(a / b)]) the exact function is used
      and [Py.true_div] gives the binary64 computation beside it; the two
      agree below 2^52 (lemmas [round_true_div_exact],
      [int_true_div_exact]), and the statements that depend on the
      agreement carry this bound. *)

From Stdlib Require Import ZArith List String Ascii Bool Lia.
From Stdlib Require Import Decimal DecimalString DecimalPos DecimalZ.
From Stdlib Require Import PrimFloat FloatOps SpecFloat.
From Stdlib Require Import Sorted Permutation Orders Mergesort.
Import ListNotations.

Local Open Scope string_scope.
Local Open Scope Z_scope.

(* ================================================================= *)
(** * Python runtime *)

Module Py.

(** An exception object, reduced to what [str(e)] shows. *)
Inductive exn : Type := Exception (msg : string).

Definition str_exn (e : exn) : string :=
  match e with Exception m => m end.

Inductive outcome (A : Type) : Type :=
| Returned (a : A)
| Raised (e : exn).
Arguments Returned {A} a.
Arguments Raised {A} e.

Definition obind {A B} (m : outcome A) (k : A -> outcome B) : outcome B :=
  match m with
  | Returned a => k a
  | Raised e => Raised e
  end.

(** Stateful computations. *)
Definition M (S A : Type) : Type := S -> outcome A * S.

Definition ret {S A} (a : A) : M S A := fun s => (Returned a, s).

Definition raise {S A} (e : exn) : M S A := fun s => (Raised e, s).

Definition bind {S A B} (m : M S A) (k : A -> M S B) : M S B :=
  fun s =>
    match m s with
    | (Returned a, s') => k a s'
    | (Raised e, s') => (Raised e, s')
    end.

(** [lift o] runs a computation that does not touch the state. *)
Definition lift {S A} (o : outcome A) : M S A := fun s => (o, s).

(** [try: body except Exception as e: handler e]. *)
Definition try_except {S A} (body : M S A) (handler : exn -> M S A) : M S A :=
  fun s =>
    match body s with
    | (Returned a, s') => (Returned a, s')
    | (Raised e, s') => handler e s'
    end.

(** [for x in xs: acc = body acc x], aborted by the first exception. *)
Fixpoint for_each {S A X} (xs : list X) (body : A -> X -> M S A) (acc : A)
  : M S A :=
  match xs with
  | [] => ret acc
  | x :: rest => bind (body acc x) (for_each rest body)
  end.

(** The same loop for code without state. *)
Fixpoint ofor_each {A X} (xs : list X) (body : A -> X -> outcome A) (acc : A)
  : outcome A :=
  match xs with
  | [] => Returned acc
  | x :: rest => obind (body acc x) (ofor_each rest body)
  end.

(** [range(n)] *)
Definition range (n : nat) : list Z := map Z.of_nat (seq 0 n).

(** [enumerate(xs, start)] *)
Fixpoint enumerate_from {X} (start : Z) (xs : list X) : list (Z * X) :=
  match xs with
  | [] => []
  | x :: rest => (start, x) :: enumerate_from (start + 1) rest
  end.

Definition enumerate {X} (xs : list X) : list (Z * X) := enumerate_from 0 xs.

(** [len(xs)] *)
Definition len {X} (xs : list X) : Z := Z.of_nat (List.length xs).

(** Truth value of a list: [if xs:] *)
Definition truthy_list {X} (xs : list X) : bool :=
  match xs with [] => false | _ => true end.

(** [str(n)] for an [int]: decimal digits, a leading '-' when negative. *)
Definition str_int (n : Z) : string := NilZero.string_of_int (Z.to_int n).

(** [f"{n:02d}"]: at least two characters, padded with zeros after the
    sign. *)
Definition fmt_02d (n : Z) : string :=
  if (0 <=? n) && (n <? 10) then "0" ++ str_int n else str_int n.

(** [round(a / b)] for [int] operands, computed on the exact quotient: the
    quotient rounded to the nearest integer, a tie going to the even
    neighbour.  The quotient of the source is a binary64
    ([round_true_div] below); for [0 <= a < 2^52] and [b > 0] it rounds to
    the same integer.  [b = 0] raises [ZeroDivisionError]. *)
Definition round_half_even (a b : Z) : Z :=
  let n := if b <? 0 then - a else a in
  let d := Z.abs b in
  let q := n / d in
  let r := n mod d in
  match 2 * r ?= d with
  | Lt => q
  | Gt => q + 1
  | Eq => if Z.even q then q else q + 1
  end.

Definition round_div (a b : Z) : outcome Z :=
  if b =? 0 then Raised (Exception "division by zero")
  else Returned (round_half_even a b).

(** [int(a * i / b)] for [b > 0], computed on the exact quotient: the
    quotient truncated towards zero.  The source truncates a binary64
    ([int_true_div] below), which is the same integer for
    [0 <= a * i < 2^53]. *)
Definition int_div (a b : Z) : Z := Z.quot a b.

(** ** binary64 quotients

    [a / b] on two [int] is the binary64 nearest to the exact quotient, a
    tie going to the even mantissa; it raises [OverflowError] when that is
    beyond the largest binary64.  A finite binary64 is kept as the pair of
    its mantissa and exponent: the number [mantissa * 2 ^ exponent]. *)
Record binary64 : Type := { mantissa : Z; exponent : Z }.

(** The fraction [(a / b) / 2 ^ e] as numerator and denominator. *)
Definition scaled (a b e : Z) : Z * Z :=
  if 0 <=? e then (a, b * 2 ^ e) else (a * 2 ^ (- e), b).

(** The integer part of the binary logarithm of [a / b], for positive [a]
    and [b]. *)
Definition quotient_log2 (a b : Z) : Z :=
  let d := Z.log2 a - Z.log2 b in
  let (n, m) := scaled a b d in
  if m <=? n then d else d - 1.

(** The binary64 nearest to [a / b], for [0 <= a] and [0 < b]: 53 bits of
    mantissa, or fewer at the smallest exponent, -1074. *)
Definition nearest_binary64 (a b : Z) : binary64 :=
  if a =? 0 then {| mantissa := 0; exponent := 0 |}
  else
    let e := Z.max (quotient_log2 a b - 52) (-1074) in
    let (n, m) := scaled a b e in
    {| mantissa := round_half_even n m; exponent := e |}.

(** [a / b] *)
Definition true_div (a b : Z) : outcome binary64 :=
  if b =? 0 then Raised (Exception "division by zero")
  else
    let f := nearest_binary64 (Z.abs a) (Z.abs b) in
    if 1024 <=? Z.log2 (mantissa f) + exponent f
    then Raised (Exception "integer division result too large for a float")
    else Returned {| mantissa := Z.sgn a * Z.sgn b * mantissa f;
                     exponent := exponent f |}.

(** [round(x)] for a float: the nearest integer, a tie going to the even
    one. *)
Definition round_float (x : binary64) : Z :=
  if 0 <=? exponent x then mantissa x * 2 ^ exponent x
  else round_half_even (mantissa x) (2 ^ (- exponent x)).

(** [int(x)] for a float: truncation towards zero. *)
Definition int_float (x : binary64) : Z :=
  if 0 <=? exponent x then mantissa x * 2 ^ exponent x
  else Z.quot (mantissa x) (2 ^ (- exponent x)).

(** [round(a / b)] and [int(a / b)] as the source computes them. *)
Definition round_true_div (a b : Z) : outcome Z :=
  obind (true_div a b) (fun x => Returned (round_float x)).

Definition int_true_div (a b : Z) : outcome Z :=
  obind (true_div a b) (fun x => Returned (int_float x)).

(** ** Strings and paths *)

Definition slash : ascii := "/"%char.

Fixpoint has_char (c : ascii) (s : string) : bool :=
  match s with
  | EmptyString => false
  | String a rest => if Ascii.eqb a c then true else has_char c rest
  end.

(** [s.replace(old, "_")] for a one-character [old]. *)
Fixpoint replace_char (old new : ascii) (s : string) : string :=
  match s with
  | EmptyString => EmptyString
  | String a rest =>
      String (if Ascii.eqb a old then new else a) (replace_char old new rest)
  end.

(** The separators of the frame ids and of the paths; no numeral holds
    one. *)
Definition separator (c : ascii) : Prop := c = "_"%char \/ c = "/"%char.

(** [os.path.basename] (POSIX): what follows the last '/'. *)
Fixpoint basename (p : string) : string :=
  match p with
  | EmptyString => EmptyString
  | String a rest =>
      if has_char slash rest then basename rest
      else if Ascii.eqb a slash then rest else p
  end.

Fixpoint ends_with_slash (p : string) : bool :=
  match p with
  | EmptyString => false
  | String a EmptyString => Ascii.eqb a slash
  | String _ rest => ends_with_slash rest
  end.

(** [os.path.join(a, b)] (POSIX). *)
Definition path_join (a b : string) : string :=
  match b with
  | String c _ =>
      if Ascii.eqb c slash then b
      else if (String.eqb a "") || ends_with_slash a then a ++ b
      else a ++ "/" ++ b
  | EmptyString =>
      if (String.eqb a "") || ends_with_slash a then a else a ++ "/"
  end.

(** ** Floats *)

(** [f"{x:.3f}"]: the exact value of the binary64 rounded to three
    decimals, ties to even, printed with its sign. *)
Definition pad3 (n : Z) : string :=
  if n <? 10 then "00" ++ str_int n
  else if n <? 100 then "0" ++ str_int n
  else str_int n.

Definition fmt_3f (x : float) : string :=
  match Prim2SF x with
  | S754_nan => "nan"
  | S754_infinity s => if s then "-inf" else "inf"
  | S754_zero s => (if s then "-" else "") ++ "0.000"
  | S754_finite s m e =>
      let thousandths :=
        if 0 <=? e then Zpos m * 1000 * 2 ^ e
        else round_half_even (Zpos m * 1000) (2 ^ (- e)) in
      (if s then "-" else "")
        ++ str_int (thousandths / 1000) ++ "." ++ pad3 (thousandths mod 1000)
  end.

(** [f"{x:.4f}"] *)
Definition pad4 (n : Z) : string :=
  if n <? 10 then "000" ++ str_int n
  else if n <? 100 then "00" ++ str_int n
  else if n <? 1000 then "0" ++ str_int n
  else str_int n.

Definition fmt_4f (x : float) : string :=
  match Prim2SF x with
  | S754_nan => "nan"
  | S754_infinity s => if s then "-inf" else "inf"
  | S754_zero s => (if s then "-" else "") ++ "0.0000"
  | S754_finite s m e =>
      let ten_thousandths :=
        if 0 <=? e then Zpos m * 10000 * 2 ^ e
        else round_half_even (Zpos m * 10000) (2 ^ (- e)) in
      (if s then "-" else "")
        ++ str_int (ten_thousandths / 10000) ++ "."
        ++ pad4 (ten_thousandths mod 10000)
  end.

(** The line feed of ["\n"]. *)
Definition newline : string := String "010"%char "".

(** ** f-strings *)

Inductive field : Type :=
| Lit (s : string)          (* literal text *)
| FStr (s : string)         (* {s} for a str *)
| FInt (n : Z)              (* {n} for an int *)
| FInt02 (n : Z)            (* {n:02d} *)
| FFloat3 (x : float).      (* {x:.3f} *)

Definition render (f : field) : string :=
  match f with
  | Lit s => s
  | FStr s => s
  | FInt n => str_int n
  | FInt02 n => fmt_02d n
  | FFloat3 x => fmt_3f x
  end.

Definition fstring (fields : list field) : string :=
  fold_right (fun f rest => (render f ++ rest)%string) "" fields.

(** ** Values and dicts *)

(** The values that occur in the result dicts of [main.py].  A dict keeps
    its keys in insertion order. *)
#[local] Unset Elimination Schemes.
Inductive value : Type :=
| VNone
| VBool (b : bool)
| VInt (n : Z)
| VStr (s : string)
| VDict (d : list (string * value)).
#[local] Set Elimination Schemes.

Definition dict : Type := list (string * value).

(** [d[k] = v] *)
Fixpoint dict_set (k : string) (v : value) (d : dict) : dict :=
  match d with
  | [] => [(k, v)]
  | (k', v') :: rest =>
      if String.eqb k' k then (k, v) :: rest
      else (k', v') :: dict_set k v rest
  end.

(** [d.update(new)] *)
Definition dict_update (d new : dict) : dict :=
  fold_left (fun acc kv => dict_set (fst kv) (snd kv) acc) new d.

Fixpoint dict_lookup (k : string) (d : dict) : option value :=
  match d with
  | [] => None
  | (k', v) :: rest => if String.eqb k' k then Some v else dict_lookup k rest
  end.

(** [d[k]], a [KeyError] when the key is missing. *)
Definition dict_get (k : string) (d : dict) : outcome value :=
  match dict_lookup k d with
  | Some v => Returned v
  | None => Raised (Exception k)
  end.

(** [d.get(k, default)] *)
Definition dict_get_default (k : string) (default : value) (d : dict) : value :=
  match dict_lookup k d with
  | Some v => v
  | None => default
  end.

Definition keys (d : dict) : list string := map fst d.

(** Truth value of an object: [if v:] *)
Definition truthy (v : value) : bool :=
  match v with
  | VNone => false
  | VBool b => b
  | VInt n => negb (n =? 0)
  | VStr s => negb (String.eqb s "")
  | VDict d => truthy_list d
  end.

(** The operand of an integer [+]; [bool] is a subclass of [int]. *)
Definition as_int (v : value) : outcome Z :=
  match v with
  | VInt n => Returned n
  | VBool b => Returned (if b then 1 else 0)
  | _ => Raised (Exception "unsupported operand type(s) for +")
  end.

(** The receiver of [.get]. *)
Definition as_dict (v : value) : outcome dict :=
  match v with
  | VDict d => Returned d
  | _ => Raised (Exception "object has no attribute 'get'")
  end.

(** [xs[i]], an [IndexError] out of range; a negative index counts from
    the end. *)
Definition item {X} (xs : list X) (i : Z) : outcome X :=
  let j := if i <? 0 then len xs + i else i in
  if j <? 0 then Raised (Exception "list index out of range")
  else match nth_error xs (Z.to_nat j) with
       | Some x => Returned x
       | None => Raised (Exception "list index out of range")
       end.

(** [zip(xs, ys)] stops with the shorter list. *)
Definition zip {X Y} (xs : list X) (ys : list Y) : list (X * Y) := combine xs ys.

End Py.

Notation "x <- m ;; k" := (Py.bind m (fun x => k))
  (at level 61, m at next level, right associativity).
Notation "x <~ m ;; k" := (Py.obind m (fun x => k))
  (at level 61, m at next level, right associativity).

(* ================================================================= *)
(** * External collaborators *)

Module External.
Import Py.

(** scenedetect: a scene is a pair of timecodes, of which the code reads
    [frame_num]. *)
Record FrameTimecode : Type := { frame_num : Z }.

Definition Scene : Type := (FrameTimecode * FrameTimecode)%type.

Definition scene_of (start_frame end_frame : Z) : Scene :=
  ({| frame_num := start_frame |}, {| frame_num := end_frame |}).

Definition scene_start (sc : Scene) : Z := frame_num (fst sc).
Definition scene_end (sc : Scene) : Z := frame_num (snd sc).

(** What a video, the file system holding it and the CLIP model answer.
    [cap_read p n] is [cap.set(1, n); cap.read()] on a capture of [p]:
    [None] is [ret = False]. *)
Record VideoEnv (Frame : Type) : Type := {
  path_exists : string -> bool;
  cap_isOpened : string -> bool;
  sd_detect : string -> float -> outcome (list Scene);
  cap_frame_count : string -> Z;
  cap_read : string -> Z -> outcome (option Frame);
  clip_load : outcome unit;
  clip_image_features : Frame -> outcome (list float);
  clip_text_features : string -> outcome (list float)
}.
Arguments path_exists {Frame}.
Arguments cap_isOpened {Frame}.
Arguments sd_detect {Frame}.
Arguments cap_frame_count {Frame}.
Arguments cap_read {Frame}.
Arguments clip_load {Frame}.
Arguments clip_image_features {Frame}.
Arguments clip_text_features {Frame}.

(** The output side of the file system, over its state [FS]:
    [os.makedirs(d, exist_ok=True)] and [cv2.imwrite(filepath, frame)].
    Both may raise and may change the state; what [cv2.imwrite] returns is
    whether the image was written. *)
Record Disk (FS Frame : Type) : Type := {
  os_makedirs : string -> M FS unit;
  cv2_imwrite : string -> Frame -> M FS bool
}.
Arguments os_makedirs {FS Frame}.
Arguments cv2_imwrite {FS Frame}.

(** The console, over its state [Out]: [print(text)] may raise (the pipe
    is closed, the encoding of the console lacks a character of the
    text). *)
Record Console (Out : Type) : Type := {
  print : string -> M Out unit
}.
Arguments print {Out}.

End External.

(* ================================================================= *)
(** * modules/scene_utils.py *)

Module scene_utils.
Import Py External.

Definition detect_scenes {Frame} (env : VideoEnv Frame)
    (video_path : string) (threshold : float) : outcome (list Scene) :=
  sd_detect env video_path threshold.

(** The body of the loop over the scenes. *)
Definition sample_scene (no_of_samples : Z)
    (scenes_frame_samples : list (list Z)) (scene : Scene)
  : outcome (list (list Z)) :=
  let scene_length := Z.abs (frame_num (fst scene) - frame_num (snd scene)) in
  every_n <~ round_div scene_length no_of_samples ;;
  let local_samples :=
    map (fun n => every_n * n + frame_num (fst scene)) (range 3) in
  Returned (scenes_frame_samples ++ [local_samples])%list.

Definition sample_scenes (scenes : list Scene) (no_of_samples : Z)
  : outcome (list (list Z)) :=
  ofor_each scenes (sample_scene no_of_samples) [].

Definition get_scene_frame_samples {Frame} (env : VideoEnv Frame)
    (video_path : string) (no_of_samples : Z) (threshold : float)
  : outcome (list (list Z)) :=
  scenes <~ detect_scenes env video_path threshold ;;
  sample_scenes scenes no_of_samples.

End scene_utils.

(** The sampler once more, with [round(scene_length/no_of_samples)] as
    the source computes it: [/] gives the binary64 nearest to the quotient
    and [round] turns that into an [int]. *)
Module scene_utils_binary64.
Import Py External.

Definition sample_scene (no_of_samples : Z)
    (scenes_frame_samples : list (list Z)) (scene : Scene)
  : outcome (list (list Z)) :=
  let scene_length := Z.abs (frame_num (fst scene) - frame_num (snd scene)) in
  every_n <~ round_true_div scene_length no_of_samples ;;
  let local_samples :=
    map (fun n => every_n * n + frame_num (fst scene)) (range 3) in
  Returned (scenes_frame_samples ++ [local_samples])%list.

Definition sample_scenes (scenes : list Scene) (no_of_samples : Z)
  : outcome (list (list Z)) :=
  ofor_each scenes (sample_scene no_of_samples) [].

Definition get_scene_frame_samples {Frame} (env : VideoEnv Frame)
    (video_path : string) (no_of_samples : Z) (threshold : float)
  : outcome (list (list Z)) :=
  scenes <~ scene_utils.detect_scenes env video_path threshold ;;
  sample_scenes scenes no_of_samples.

End scene_utils_binary64.

(* ================================================================= *)
(** * modules/clip_embeddings.py *)

Module clip_embeddings.
Import Py External.

Record Metadata : Type := {
  video_path : string;
  scene_idx : Z;
  frame_idx : Z;
  frame_sample : Z;
  video_name : string
}.

Record FrameRecord : Type := {
  id : string;
  embedding : list float;
  metadata : Metadata
}.

Definition get_clip_embeddings {Frame} (env : VideoEnv Frame) (image : Frame)
  : outcome (list float) :=
  clip_image_features env image.

Definition thresholds : list float := [15; 10; 5; 2]%float.

(** The loop over the thresholds.  Besides the value left in
    [scenes_frame_samples] it yields the thresholds the detector was
    called with, in call order. *)
Fixpoint try_thresholds {Frame} (env : VideoEnv Frame) (video_path : string)
    (ths : list float) : list float * outcome (list (list Z)) :=
  match ths with
  | [] => ([], Returned [])
  | threshold :: rest =>
      match scene_utils.get_scene_frame_samples env video_path 3 threshold with
      | Raised e => ([threshold], Raised e)
      | Returned scenes_frame_samples =>
          if truthy_list scenes_frame_samples
          then ([threshold], Returned scenes_frame_samples)
          else let (called, r) := try_thresholds env video_path rest in
               (threshold :: called, r)
      end
  end.

(** The fallback when no threshold found a scene. *)
Definition fallback_samples (total_frames : Z) : option (list (list Z)) :=
  if 0 <? total_frames then
    let frame_samples := map (fun i => int_div (total_frames * i) 3) (range 3) in
    Some [frame_samples]
  else None.

Definition frame_id (scene_idx frame_idx frame_sample : Z) : string :=
  fstring [Lit "scene_"; FInt scene_idx; Lit "_frame_"; FInt frame_idx;
           Lit "_sample_"; FInt frame_sample].

(** A record of [video_path] whose id is built from its own metadata. *)
Definition tagged (video_path : string) (r : FrameRecord) : Prop :=
  id r = frame_id (scene_idx (metadata r)) (frame_idx (metadata r))
           (frame_sample (metadata r))
  /\ clip_embeddings.video_path (metadata r) = video_path
  /\ video_name (metadata r) = basename video_path.

(** A record made before turn [fi] of the inner loop in turn [si] of the
    outer loop. *)
Definition before (si fi : Z) (r : FrameRecord) : Prop :=
  scene_idx (metadata r) < si
  \/ (scene_idx (metadata r) = si /\ frame_idx (metadata r) < fi).

(** What the records made so far satisfy at turn ([si], [fi]). *)
Definition made_so_far (video_path : string) (si fi : Z)
    (embeddings_data : list FrameRecord) : Prop :=
  Forall (tagged video_path) embeddings_data
  /\ NoDup (map id embeddings_data)
  /\ Forall (before si fi) embeddings_data.

(** The body of the inner loop. *)
Definition embed_frame {Frame} (env : VideoEnv Frame) (video_path : string)
    (scene_idx : Z) (embeddings_data : list FrameRecord) (x : Z * Z)
  : outcome (list FrameRecord) :=
  let (frame_idx, frame_sample) := x in
  r <~ cap_read env video_path frame_sample ;;
  match r with
  | None => Returned embeddings_data
  | Some frame =>
      embedding <~ get_clip_embeddings env frame ;;
      Returned (embeddings_data ++
        [ {| id := frame_id scene_idx frame_idx frame_sample;
             embedding := embedding;
             metadata := {| video_path := video_path;
                            scene_idx := scene_idx;
                            frame_idx := frame_idx;
                            frame_sample := frame_sample;
                            video_name := basename video_path |} |} ])%list
  end.

(** The body of the outer loop. *)
Definition embed_scene {Frame} (env : VideoEnv Frame) (video_path : string)
    (embeddings_data : list FrameRecord) (x : Z * list Z)
  : outcome (list FrameRecord) :=
  let (scene_idx, scene_samples) := x in
  ofor_each (enumerate scene_samples) (embed_frame env video_path scene_idx)
    embeddings_data.

Definition embed_scenes {Frame} (env : VideoEnv Frame) (video_path : string)
    (scenes_frame_samples : list (list Z)) : outcome (list FrameRecord) :=
  ofor_each (enumerate scenes_frame_samples) (embed_scene env video_path) [].

(** Lines 43-68: the threshold loop followed by the whole-video fallback.
    [None] is the [return []] of the zero-frame branch. *)
Definition detect_with_fallback {Frame} (env : VideoEnv Frame)
    (video_path : string) : outcome (option (list (list Z))) :=
  scenes_frame_samples <~ snd (try_thresholds env video_path thresholds) ;;
  if truthy_list scenes_frame_samples then Returned (Some scenes_frame_samples)
  else Returned (fallback_samples (cap_frame_count env video_path)).

(** [cap.release()] in the [finally] clause changes no value. *)
Definition process_video_embeddings {Frame} (env : VideoEnv Frame)
    (video_path : string) : outcome (list FrameRecord) :=
  if negb (path_exists env video_path) then Returned []
  else if negb (cap_isOpened env video_path) then Returned []
  else
    r <~ detect_with_fallback env video_path ;;
    match r with
    | Some scenes_frame_samples =>
        embed_scenes env video_path scenes_frame_samples
    | None => Returned []
    end.

End clip_embeddings.

(* ================================================================= *)
(** * modules/chromadb_manager.py *)

Module chromadb_manager.
Import Py External.
Import clip_embeddings.

(** What [collection.query] returns: one inner list per query vector. *)
Record QueryResult : Type := {
  ids : list (list string);
  distances : list (list float);
  metadatas : list (list Metadata)
}.

(** The manager object: [self.db_path], [self.collection_name]; the client
    and the collection it holds live in the store. *)
Record ChromaDBManager : Type := {
  db_path : string;
  collection_name : string
}.

(** The ChromaDB client over a persistent state [DB].  Every call may
    raise and may change the state. *)
Record Store (DB : Type) : Type := {
  persistent_client : string -> M DB unit;
  client_get_collection : ChromaDBManager -> M DB unit;
  client_create_collection : ChromaDBManager -> M DB unit;
  collection_count : ChromaDBManager -> M DB Z;
  collection_add :
    ChromaDBManager -> list string -> list (list float) -> list Metadata
    -> M DB unit;
  collection_query_embeddings :
    ChromaDBManager -> list (list float) -> Z -> M DB QueryResult;
  collection_query_where : ChromaDBManager -> dict -> Z -> M DB QueryResult;
  collection_delete : ChromaDBManager -> list string -> M DB unit
}.
Arguments persistent_client {DB}.
Arguments client_get_collection {DB}.
Arguments client_create_collection {DB}.
Arguments collection_count {DB}.
Arguments collection_add {DB}.
Arguments collection_query_embeddings {DB}.
Arguments collection_query_where {DB}.
Arguments collection_delete {DB}.

Definition _get_or_create_collection {DB} (st : Store DB) (self : ChromaDBManager)
  : M DB unit :=
  try_except
    (_ <- client_get_collection st self ;;
     _ <- collection_count st self ;;
     ret tt)
    (fun _ => client_create_collection st self).

Definition __init__ {DB} (st : Store DB) (db_path collection_name : string)
  : M DB ChromaDBManager :=
  let self := {| db_path := db_path; collection_name := collection_name |} in
  _ <- persistent_client st db_path ;;
  _ <- _get_or_create_collection st self ;;
  ret self.

(** The [try] block of [save_embeddings]. *)
Definition save_embeddings_try {DB} (st : Store DB) (self : ChromaDBManager)
    (embeddings_data : list FrameRecord) : M DB bool :=
  let ids := map id embeddings_data in
  let embeddings := map embedding embeddings_data in
  let metadatas := map metadata embeddings_data in
  existing_count <- collection_count st self ;;
  _ <- collection_add st self ids embeddings metadatas ;;
  new_count <- collection_count st self ;;
  ret true.

Definition save_embeddings {DB} (st : Store DB) (self : ChromaDBManager)
    (embeddings_data : list FrameRecord) : M DB bool :=
  if negb (truthy_list embeddings_data) then ret false
  else try_except (save_embeddings_try st self embeddings_data)
                  (fun e => ret false).

Definition search_similar_frames {DB} (st : Store DB) (self : ChromaDBManager)
    (query_embedding : list float) (n_results : Z) : M DB (option QueryResult) :=
  try_except
    (results <- collection_query_embeddings st self [query_embedding] n_results ;;
     ret (Some results))
    (fun e => ret None).

Definition get_collection_info {DB} (st : Store DB) (self : ChromaDBManager)
  : M DB dict :=
  try_except
    (count <- collection_count st self ;;
     ret [("collection_name", VStr (collection_name self));
          ("total_embeddings", VInt count);
          ("db_path", VStr (db_path self))])
    (fun e => ret []).

Definition search_by_metadata {DB} (st : Store DB) (self : ChromaDBManager)
    (where_clause : dict) (n_results : Z) : M DB (option QueryResult) :=
  try_except
    (results <- collection_query_where st self where_clause n_results ;;
     ret (Some results))
    (fun e => ret None).

Definition delete_embeddings {DB} (st : Store DB) (self : ChromaDBManager)
    (ids : list string) : M DB bool :=
  try_except
    (_ <- collection_delete st self ids ;;
     ret true)
    (fun e => ret false).

End chromadb_manager.

(* ================================================================= *)
(** * modules/text_search.py *)

Module text_search.
Import Py External.
Import clip_embeddings chromadb_manager.

(** The state [save_matched_frames] works on: the store and the disk. *)
Definition World (DB FS : Type) : Type := (DB * FS)%type.

Definition on_db {DB FS A} (m : M DB A) : M (World DB FS) A :=
  fun w => let (r, db') := m (fst w) in (r, (db', snd w)).

Definition on_disk {DB FS A} (m : M FS A) : M (World DB FS) A :=
  fun w => let (r, fs') := m (snd w) in (r, (fst w, fs')).

Definition search_frames_by_text {DB Frame} (env : VideoEnv Frame) (st : Store DB)
    (text_query : string) (n_results : Z) : M DB (option QueryResult) :=
  _ <- lift (clip_load env) ;;
  db_manager <- __init__ st "./chroma_db" "video_embeddings" ;;
  text_embedding <- lift (clip_text_features env text_query) ;;
  search_similar_frames st db_manager text_embedding n_results.

Definition sanitize (text_query : string) : string :=
  replace_char "\"%char "_"%char
    (replace_char "/"%char "_"%char
       (replace_char " "%char "_"%char text_query)).

Definition filename (i : Z) (frame_id : string) (distance : float) : string :=
  let similarity := (1 - distance)%float in
  fstring [FInt02 (i + 1); Lit "_"; FStr frame_id; Lit "_similarity_";
           FFloat3 similarity; Lit ".jpg"].

Definition output_dir_of (text_query : string) : string :=
  path_join "matched_imgs" (sanitize text_query).

(** The [try] block of the loop body.  What [cv2.imwrite] returns is not
    looked at. *)
Definition save_frame_try {DB FS Frame} (env : VideoEnv Frame)
    (disk : Disk FS Frame) (output_dir : string)
    (i : Z) (frame_id : string) (distance : float) (metadata : Metadata)
  : M (World DB FS) unit :=
  let video_path := video_path metadata in
  let frame_sample := frame_sample metadata in
  r <- lift (cap_read env video_path frame_sample) ;;
  match r with
  | Some frame =>
      let filepath := path_join output_dir (filename i frame_id distance) in
      _ <- on_disk (cv2_imwrite disk filepath frame) ;;
      ret tt
  | None => ret tt
  end.

(** The loop body: the metadata lookup stands before the [try]. *)
Definition save_frame {DB FS Frame} (env : VideoEnv Frame)
    (disk : Disk FS Frame) (output_dir : string)
    (results : QueryResult) (_ : unit) (x : Z * (string * float))
  : M (World DB FS) unit :=
  let '(i, (frame_id, distance)) := x in
  metadatas0 <- lift (item (metadatas results) 0) ;;
  metadata <- lift (item metadatas0 i) ;;
  try_except (save_frame_try env disk output_dir i frame_id distance metadata)
             (fun e => ret tt).

Definition has_results (results : option QueryResult) : bool :=
  match results with
  | None => false
  | Some r =>
      match ids r with
      | [] => false
      | ids0 :: _ => truthy_list ids0
      end
  end.

(** [os.makedirs] stands outside every [try]: when it raises, the function
    raises and no image is written. *)
Definition save_matched_frames {DB FS Frame} (env : VideoEnv Frame)
    (st : Store DB) (disk : Disk FS Frame)
    (text_query : string) (n_results : Z)
  : M (World DB FS) (option QueryResult) :=
  results <- on_db (search_frames_by_text env st text_query n_results) ;;
  match results with
  | None => ret results
  | Some res =>
      if negb (has_results results) then ret results
      else
        let query_dir := sanitize text_query in
        let output_dir := path_join "matched_imgs" query_dir in
        _ <- on_disk (os_makedirs disk output_dir) ;;
        ids0 <- lift (item (ids res) 0) ;;
        distances0 <- lift (item (distances res) 0) ;;
        _ <- for_each (enumerate (zip ids0 distances0))
               (save_frame env disk output_dir res) tt ;;
        ret results
  end.

(** The images asked of [save_matched_frames], as the calls of
    [cv2.imwrite] they take: one for every result whose frame decodes, named
    by rank, id and similarity under the directory of the query; a result
    whose frame does not decode gives none.  For the empty query the
    directory is matched_imgs itself. *)
Definition image_name (text_query : string) (i : Z) (frame_id : string)
    (distance : float) : string :=
  ("matched_imgs/" ++ sanitize text_query
     ++ (if String.eqb text_query "" then "" else "/")
     ++ fmt_02d (i + 1) ++ "_" ++ frame_id ++ "_similarity_"
     ++ fmt_3f (1 - distance) ++ ".jpg")%string.



(** The state of the disk after [cv2.imwrite] was called on the images in
    turn, whatever each call returned or raised. *)
Definition written {FS Frame} (disk : Disk FS Frame)
    (images : list (string * Frame)) (fs : FS) : FS :=
  fold_left (fun fs image => snd (cv2_imwrite disk (fst image) (snd image) fs))
            images fs.

End text_search.

(* ================================================================= *)
(** * main.py *)

Module main.
Import Py External.
Import clip_embeddings chromadb_manager.

Definition initial_result (video_path : string) : dict :=
  [("success", VBool false);
   ("video_path", VStr video_path);
   ("embeddings_count", VInt 0);
   ("error", VNone);
   ("collection_info", VDict [])].

(** The [try] block without its console output: what it does on a
    console that takes every line.  Of the statements kept here, every one
    that can raise stands before the first assignment to [result], so the
    handler below sees the initial dict.  The block with its [print]s, two
    of which stand after [result.update], is [main_console.process_video_try]. *)
Definition process_video_try {DB Frame} (env : VideoEnv Frame) (st : Store DB)
    (video_path db_path collection_name : string) : M DB dict :=
  let result := initial_result video_path in
  if negb (path_exists env video_path) then
    ret (dict_set "error"
           (VStr (fstring [Lit "Video file not found: "; FStr video_path]))
           result)
  else
    db_manager <- __init__ st db_path collection_name ;;
    embeddings_data <- lift (process_video_embeddings env video_path) ;;
    if negb (truthy_list embeddings_data) then
      ret (dict_set "error" (VStr "No embeddings generated from video") result)
    else
      success <- save_embeddings st db_manager embeddings_data ;;
      if negb success then
        ret (dict_set "error" (VStr "Failed to save embeddings to ChromaDB")
               result)
      else
        collection_info <- get_collection_info st db_manager ;;
        ret (dict_update result
               [("success", VBool true);
                ("embeddings_count", VInt (len embeddings_data));
                ("collection_info", VDict collection_info)]).

Definition process_video_to_chromadb {DB Frame} (env : VideoEnv Frame)
    (st : Store DB) (video_path db_path collection_name : string) : M DB dict :=
  try_except
    (process_video_try env st video_path db_path collection_name)
    (fun e =>
       ret (dict_set "error"
              (VStr (fstring [Lit "Unexpected error: "; FStr (str_exn e)]))
              (initial_result video_path))).

(** The two shapes of a returned result, and what a reader of the batch
    summary takes from a result. *)
Definition failure_result (video_path msg : string) : dict :=
  [("success", VBool false);
   ("video_path", VStr video_path);
   ("embeddings_count", VInt 0);
   ("error", VStr msg);
   ("collection_info", VDict [])].

Definition success_result (video_path : string) (n : Z) (info : dict) : dict :=
  [("success", VBool true);
   ("video_path", VStr video_path);
   ("embeddings_count", VInt n);
   ("error", VNone);
   ("collection_info", VDict info)].

Definition succeeded (r : dict) : bool :=
  match dict_lookup "success" r with
  | Some v => truthy v
  | None => false
  end.

Definition embeddings_count_of (r : dict) : Z :=
  match dict_lookup "embeddings_count" r with
  | Some (VInt n) => n
  | _ => 0
  end.

(** [sum(1 for r in results if r["success"])] *)
Definition count_successful (results : list dict) : outcome Z :=
  ofor_each results
    (fun acc r =>
       s <~ dict_get "success" r ;;
       Returned (if truthy s then acc + 1 else acc)) 0.

(** [sum(r["embeddings_count"] for r in results)] *)
Definition sum_embeddings (results : list dict) : outcome Z :=
  ofor_each results
    (fun acc r =>
       c <~ dict_get "embeddings_count" r ;;
       n <~ as_int c ;;
       Returned (acc + n)) 0.

(** The summary block: the two figures it prints. *)
Definition summary (results : list dict) : outcome (Z * Z) :=
  successful <~ count_successful results ;;
  total_embeddings <~ sum_embeddings results ;;
  _ <~ (if 0 <? successful then
          last_result <~ item results (-1) ;;
          final_info <~ dict_get "collection_info" last_result ;;
          d <~ as_dict final_info ;;
          Returned (dict_get_default "total_embeddings" (VInt 0) d)
        else Returned VNone) ;;
  Returned (successful, total_embeddings).

(** The loop body. *)
Definition process_one {DB Frame} (env : VideoEnv Frame) (st : Store DB)
    (db_path collection_name : string) (results : list dict) (x : Z * string)
  : M DB (list dict) :=
  let (i, video_path) := x in
  result <- process_video_to_chromadb env st video_path db_path collection_name ;;
  let results := (results ++ [result])%list in
  s <- lift (dict_get "success" result) ;;
  _ <- lift (if truthy s then dict_get "embeddings_count" result
             else dict_get "error" result) ;;
  ret results.

Definition process_multiple_videos {DB Frame} (env : VideoEnv Frame)
    (st : Store DB) (video_paths : list string) (db_path collection_name : string)
  : M DB (list dict) :=
  results <- for_each (enumerate_from 1 video_paths)
               (process_one env st db_path collection_name) [] ;;
  _ <- lift (summary results) ;;
  ret results.

(** What [process_video_to_chromadb] can return for a video: the initial
    dict with an error message, or the dict of a success, which stands for
    an existing file, a non-empty list of embeddings and a store that took
    them. *)
Definition outcome_for {DB Frame} (env : VideoEnv Frame) (st : Store DB)
    (video_path : string) (r : dict) : Prop :=
  (exists msg, r = failure_result video_path msg)
  \/ (exists data info self db1 db2,
        r = success_result video_path (len data) info
        /\ 0 < len data
        /\ path_exists env video_path = true
        /\ process_video_embeddings env video_path = Returned data
        /\ save_embeddings st self data db1 = (Returned true, db2)).


End main.

(* ================================================================= *)
(** * Sample videos and stores

    Concrete collaborators on which the statements below are run. *)

Module Samples.
Import Py External clip_embeddings chromadb_manager.

Definition video_a : string := "videos/a.mp4".
Definition video_b : string := "videos/b.mp4".

(** Two 90-frame videos, each one scene from frame 0 to frame 90 that the
    detector finds at a threshold of 5.0 or less; a frame is stood for by
    its number. *)
Definition env_two_videos : VideoEnv Z := {|
  path_exists := fun p => String.eqb p video_a || String.eqb p video_b;
  cap_isOpened := fun _ => true;
  sd_detect := fun _ t =>
    if (t <=? 5)%float then Returned [scene_of 0 90] else Returned [];
  cap_frame_count := fun _ => 90;
  cap_read := fun _ n =>
    Returned (if (0 <=? n) && (n <? 90) then Some n else None);
  clip_load := Returned tt;
  clip_image_features := fun _ => Returned [1%float];
  clip_text_features := fun _ => Returned [1%float]
|}.

(** The same videos under a detector that never finds a scene. *)
Definition env_no_scenes : VideoEnv Z := {|
  path_exists := path_exists env_two_videos;
  cap_isOpened := fun _ => true;
  sd_detect := fun _ _ => Returned [];
  cap_frame_count := fun _ => 90;
  cap_read := cap_read env_two_videos;
  clip_load := Returned tt;
  clip_image_features := fun _ => Returned [1%float];
  clip_text_features := fun _ => Returned [1%float]
|}.

(** A store that is down: every call raises and leaves the state alone. *)
Definition store_down : Store unit := {|
  persistent_client := fun _ => raise (Exception "store down");
  client_get_collection := fun _ => raise (Exception "store down");
  client_create_collection := fun _ => raise (Exception "store down");
  collection_count := fun _ => raise (Exception "store down");
  collection_add := fun _ _ _ _ => raise (Exception "store down");
  collection_query_embeddings := fun _ _ _ => raise (Exception "store down");
  collection_query_where := fun _ _ _ => raise (Exception "store down");
  collection_delete := fun _ _ => raise (Exception "store down")
|}.

(** A store that keeps, per collection name, the (id, metadata) pairs it
    was asked to add, in the order of the calls, and answers a query with
    all of them at distance 0.25. *)
Definition Log : Type := list (string * (string * Metadata)).

Definition log_of (self : ChromaDBManager) (db : Log) : list (string * Metadata) :=
  map snd (filter (fun e => String.eqb (fst e) (collection_name self)) db).

Definition log_query (self : ChromaDBManager) (db : Log) : QueryResult :=
  {| ids := [map fst (log_of self db)];
     distances := [map (fun _ => 0.25%float) (log_of self db)];
     metadatas := [map snd (log_of self db)] |}.

Definition store_log : Store Log := {|
  persistent_client := fun _ => ret tt;
  client_get_collection := fun _ => ret tt;
  client_create_collection := fun _ => ret tt;
  collection_count := fun self db => (Returned (len (log_of self db)), db);
  collection_add := fun self ids _ metadatas db =>
    (Returned tt,
     (db ++ map (fun e => (collection_name self, e)) (combine ids metadatas))%list);
  collection_query_embeddings := fun self _ _ db => (Returned (log_query self db), db);
  collection_query_where := fun self _ _ db => (Returned (log_query self db), db);
  collection_delete := fun _ _ => ret tt
|}.

(** A collection of three frames of [video_a]; the second points past the
    end of the video and cannot be decoded. *)
Definition log_three : Log :=
  map (fun x => ("video_embeddings",
                 (frame_id 0 (fst x) (snd x),
                  {| video_path := video_a; scene_idx := 0; frame_idx := fst x;
                     frame_sample := snd x; video_name := basename video_a |})))
      [(0, 0); (1, 200); (2, 60)].

Definition manager : ChromaDBManager :=
  {| db_path := "./chroma_db"; collection_name := "video_embeddings" |}.

Definition record0 : FrameRecord :=
  {| id := frame_id 0 0 0;
     embedding := [1%float];
     metadata := {| video_path := video_a; scene_idx := 0; frame_idx := 0;
                    frame_sample := 0; video_name := basename video_a |} |}.

End Samples.

(* ================================================================= *)
(** * Reading the indexer's output *)

Module indexer.
Import Py External clip_embeddings.

(** Where a record sits in the double loop, and the frame it holds. *)
Definition position (r : FrameRecord) : Z * Z * Z :=
  (scene_idx (metadata r), frame_idx (metadata r), frame_sample (metadata r)).

(** The frames of one scene that decode, from turn [fi] on. *)
Definition readable_in_scene {Frame} (env : VideoEnv Frame) (video_path : string)
    (si fi : Z) (samples : list Z) : list (Z * Z * Z) :=
  flat_map (fun x =>
              match cap_read env video_path (snd x) with
              | Returned (Some _) => [(si, fst x, snd x)]
              | _ => []
              end)
           (enumerate_from fi samples).

(** The frames of all scenes that decode, from scene [si] on. *)
Definition readable_positions {Frame} (env : VideoEnv Frame) (video_path : string)
    (si : Z) (scenes_frame_samples : list (list Z)) : list (Z * Z * Z) :=
  flat_map (fun x => readable_in_scene env video_path (fst x) 0 (snd x))
           (enumerate_from si scenes_frame_samples).

(** A record whose embedding is what the encoder returned for the frame
    found at its frame number. *)
Definition encoded_from {Frame} (env : VideoEnv Frame) (video_path : string)
    (r : FrameRecord) : Prop :=
  exists frame,
    cap_read env video_path (frame_sample (metadata r)) = Returned (Some frame)
    /\ get_clip_embeddings env frame = Returned (embedding r).

End indexer.

(* ================================================================= *)
(** * modules/chromadb_manager.py, the rest of the class *)

Module chromadb_manager_rest.
Import Py External clip_embeddings chromadb_manager.

(** What [collection.get] returns. *)
Record GetResult : Type := {
  got_ids : list string;
  got_embeddings : list (list float);
  got_metadatas : list Metadata
}.

(** The store with [collection.get]: without an argument it returns the
    whole collection, with [ids] the records of these ids. *)
Record StoreWithGet (DB : Type) : Type := {
  base : Store DB;
  collection_get : ChromaDBManager -> option (list string) -> M DB GetResult
}.
Arguments base {DB}.
Arguments collection_get {DB}.

(** The [try] block of [clear_collection]. *)
Definition clear_collection_try {DB} (st : StoreWithGet DB)
    (self : ChromaDBManager) : M DB bool :=
  all_data <- collection_get st self None ;;
  if truthy_list (got_ids all_data) then
    _ <- collection_delete (base st) self (got_ids all_data) ;;
    ret true
  else ret true.

Definition clear_collection {DB} (st : StoreWithGet DB) (self : ChromaDBManager)
  : M DB bool :=
  try_except (clear_collection_try st self) (fun e => ret false).

End chromadb_manager_rest.


(* ================================================================= *)
(** * main.py, the directory listing *)

(** Python's order on [str], as the order [sorted] uses: byte by byte, a
    proper prefix first. *)
Module StringOrder <: TotalLeBool.
Definition t : Type := string.
Definition leb : string -> string -> bool := String.leb.
Theorem leb_total : forall a1 a2, leb a1 a2 = true \/ leb a2 a1 = true.
Proof. exact String.leb_total. Qed.
End StringOrder.

Module StringSort := Sort StringOrder.

Module main_rest.
Import Py External clip_embeddings chromadb_manager text_search.










End main_rest.

(* ================================================================= *)
(** * main.py with its console output

    [process_video_to_chromadb] and [search_videos_by_text] once more, with
    every [print] of their own bodies, on a console that may refuse a line.
    The functions they call are the ones above; an exception a call of
    theirs would raise from a [print] of its own is one of the exceptions
    their models raise for some environment or store. *)

Module main_console.
Import Py External clip_embeddings chromadb_manager text_search main.

Section Console.
Context {S Out : Type} (con : Console Out).

(** A step that leaves the console alone, and [print(text)]. *)
Definition silently {A} (m : M S A) : M (S * Out) A :=
  fun w => let (r, s') := m (fst w) in (r, (s', snd w)).

Definition say (text : string) : M (S * Out) unit :=
  fun w => let (r, out') := print con text (snd w) in (r, (fst w, out')).

(** The local variable [result] beside the outside world. *)
Definition Call : Type := ((S * Out) * dict)%type.

Definition outside {A} (m : M (S * Out) A) : M Call A :=
  fun c => let (r, w') := m (fst c) in (r, (w', snd c)).

(** [result["error"] = msg] *)
Definition result_set_error (msg : string) : M Call unit :=
  fun c => (Returned tt, (fst c, dict_set "error" (VStr msg) (snd c))).

(** [result.update(new)] *)
Definition result_update (new : dict) : M Call unit :=
  fun c => (Returned tt, (fst c, dict_update (snd c) new)).

(** [return result] *)
Definition return_result : M Call dict :=
  fun c => (Returned (snd c), c).

End Console.

Section ProcessVideo.
Context {DB Out Frame : Type} (con : Console Out) (env : VideoEnv Frame)
        (st : Store DB).

(** [collection_info.get('total_embeddings', 0)] as the f-string shows it:
    [get_collection_info] returns [{}] or a dict with an [int] under this
    key. *)
Definition total_embeddings_of (collection_info : dict) : Z :=
  match dict_get_default "total_embeddings" (VInt 0) collection_info with
  | VInt n => n
  | _ => 0
  end.

Definition saved_line (n : Z) : string :=
  fstring [Lit "✅ Successfully processed video and saved "; FInt n;
           Lit " embeddings"].

Definition total_line (collection_info : dict) : string :=
  fstring [Lit "📊 Collection now has ";
           FInt (total_embeddings_of collection_info);
           Lit " total embeddings"].

Definition error_line (e : exn) : string :=
  fstring [Lit "❌ Error processing video: "; FStr (str_exn e)].

(** The [try] block, lines 38 to 79. *)
Definition process_video_try (video_path db_path collection_name : string)
  : M (@Call DB Out) dict :=
  if negb (path_exists env video_path) then
    _ <- result_set_error
           (fstring [Lit "Video file not found: "; FStr video_path]) ;;
    return_result
  else
    _ <- outside (say con (fstring [Lit "Processing video: ";
                                    FStr (basename video_path)])) ;;
    _ <- outside (say con (fstring [Lit "Full path: "; FStr video_path])) ;;
    db_manager <- outside (silently (__init__ st db_path collection_name)) ;;
    _ <- outside (say con "Generating CLIP embeddings...") ;;
    embeddings_data <- lift (process_video_embeddings env video_path) ;;
    if negb (truthy_list embeddings_data) then
      _ <- result_set_error "No embeddings generated from video" ;;
      return_result
    else
      _ <- outside (say con (fstring [Lit "Generated ";
                                      FInt (len embeddings_data);
                                      Lit " embeddings"])) ;;
      _ <- outside (say con "Saving embeddings to ChromaDB...") ;;
      success <- outside (silently
                            (save_embeddings st db_manager embeddings_data)) ;;
      if negb success then
        _ <- result_set_error "Failed to save embeddings to ChromaDB" ;;
        return_result
      else
        collection_info <- outside (silently
                                      (get_collection_info st db_manager)) ;;
        _ <- result_update
               [("success", VBool true);
                ("embeddings_count", VInt (len embeddings_data));
                ("collection_info", VDict collection_info)] ;;
        _ <- outside (say con (saved_line (len embeddings_data))) ;;
        _ <- outside (say con (total_line collection_info)) ;;
        return_result.

(** The handler, lines 81 to 84. *)
Definition process_video_except (e : exn) : M (@Call DB Out) dict :=
  _ <- result_set_error
         (fstring [Lit "Unexpected error: "; FStr (str_exn e)]) ;;
  _ <- outside (say con (error_line e)) ;;
  return_result.

Definition process_video_to_chromadb
    (video_path db_path collection_name : string) : M (DB * Out) dict :=
  fun w =>
    let (r, c) :=
      try_except (process_video_try video_path db_path collection_name)
                 process_video_except (w, initial_result video_path) in
    (r, fst c).

(** A result that says success and carries an error: what the handler
    leaves when it runs after [result.update]. *)
Definition success_with_error (video_path : string) (n : Z) (info : dict)
    (msg : string) : dict :=
  [("success", VBool true);
   ("video_path", VStr video_path);
   ("embeddings_count", VInt n);
   ("error", VStr msg);
   ("collection_info", VDict info)].

(** [stored video_path db_path collection_name db data info db']: starting
    from the store [db] the file exists, the manager was built, the indexer
    returned the records [data], not none, [save_embeddings] returned [True]
    for them and [get_collection_info] returned [info], leaving the store
    [db']. *)
Definition stored (video_path db_path collection_name : string) (db : DB)
    (data : list FrameRecord) (info : dict) (db' : DB) : Prop :=
  exists self d1 d2,
    path_exists env video_path = true
    /\ __init__ st db_path collection_name db = (Returned self, d1)
    /\ process_video_embeddings env video_path = Returned data
    /\ data <> []
    /\ save_embeddings st self data d1 = (Returned true, d2)
    /\ get_collection_info st self d2 = (Returned info, db').

End ProcessVideo.

Section SearchVideos.
Context {DB FS Out Frame : Type} (con : Console Out) (env : VideoEnv Frame)
        (st : Store DB) (disk : Disk FS Frame).

Definition search_error_line (e : exn) : string :=
  fstring [Lit "❌ Error searching videos: "; FStr (str_exn e)].

(** The body of the loop that prints the results. *)
Definition report_result (res : QueryResult) (_ : unit)
    (x : Z * (string * float)) : M (World DB FS * Out) unit :=
  let '(i, (frame_id, distance)) := x in
  metadatas0 <- lift (item (metadatas res) 0) ;;
  metadata <- lift (item metadatas0 i) ;;
  _ <- say con (fstring [FInt (i + 1); Lit ". "; FStr frame_id]) ;;
  _ <- say con (fstring [Lit "   📹 Video: "; FStr (video_name metadata)]) ;;
  _ <- say con (fstring [Lit "   🎬 Scene: "; FInt (scene_idx metadata);
                         Lit ", Frame: "; FInt (frame_idx metadata)]) ;;
  say con (fstring [Lit "   📊 Similarity: ";
                    FStr (fmt_4f (1 - distance)%float)]).

(** Lines 180 to 189. *)
Definition report_results (results : option QueryResult)
  : M (World DB FS * Out) unit :=
  match results with
  | None => say con "No results found"
  | Some res =>
      if truthy_list (ids res) then
        ids0 <- lift (item (ids res) 0) ;;
        _ <- say con (fstring [Lit (newline ++ "📊 Found "); FInt (len ids0);
                               Lit " results:"]) ;;
        distances0 <- lift (item (distances res) 0) ;;
        for_each (enumerate (zip ids0 distances0)) (report_result res) tt
      else say con "No results found"
  end.

(** The [try] block. *)
Definition search_videos_try (text_query : string) (n_results : Z)
    (save_images : bool) : M (World DB FS * Out) (option QueryResult) :=
  _ <- say con (fstring [Lit "🔍 Searching for: '"; FStr text_query;
                         Lit "'"]) ;;
  if save_images then
    silently (save_matched_frames env st disk text_query n_results)
  else
    results <- silently
                 (on_db (search_frames_by_text env st text_query n_results)) ;;
    _ <- report_results results ;;
    ret results.

Definition search_videos_except (e : exn)
  : M (World DB FS * Out) (option QueryResult) :=
  _ <- say con (search_error_line e) ;;
  ret None.

Definition search_videos_by_text (text_query : string) (n_results : Z)
    (save_images : bool) : M (World DB FS * Out) (option QueryResult) :=
  try_except (search_videos_try text_query n_results save_images)
             search_videos_except.

End SearchVideos.

End main_console.

(* ================================================================= *)
(** * modules/query_chromadb.py

    [list_videos] and [list_scenes] print a listing and return nothing.
    Their result here is the listing they print, [None] when they print no
    listing (the collection is empty, or an exception was caught). *)

Module query_chromadb.
Import Py External clip_embeddings chromadb_manager chromadb_manager_rest.

(** The dict kept per frame: 'id', 'video' (in [list_scenes] only), 'scene'
    and 'frame'. *)
Record FrameInfo : Type := {
  f_id : string;
  f_video : string;
  f_scene : Z;
  f_frame : Z
}.

(** A dict from names to lists, in insertion order. *)
Definition groups (V : Type) : Type := list (string * list V).

(** [if k not in d: d[k] = []] followed by [d[k].append(v)] *)
Fixpoint group_append {V} (k : string) (v : V) (d : groups V) : groups V :=
  match d with
  | [] => [(k, [v])]
  | (k', vs) :: rest =>
      if String.eqb k' k then (k', (vs ++ [v])%list) :: rest
      else (k', vs) :: group_append k v rest
  end.






(** The frames of one video, in [list_scenes].  [results['metadatas']]
    holds one list per query, so the loop variable [metadata] is a list,
    and [metadata['scene_idx']] raises a [TypeError] once
    [results['ids'][i]] has been read. *)
Definition frames_of_query (results : QueryResult) : outcome (list FrameInfo) :=
  ofor_each (enumerate (metadatas results))
    (fun frames x =>
       let (i, metadata) := x in
       ids_i <~ item (ids results) i ;;
       Raised (Exception "list indices must be integers or slices, not str"))
    [].

(** The frames of the whole collection, in [list_scenes]. *)
Definition frames_of_all (all_data : GetResult) : outcome (list FrameInfo) :=
  ofor_each (enumerate (got_metadatas all_data))
    (fun frames x =>
       let (i, metadata) := x in
       id_i <~ item (got_ids all_data) i ;;
       Returned (frames ++ [ {| f_id := id_i;
                                f_video := video_name metadata;
                                f_scene := scene_idx metadata;
                                f_frame := frame_idx metadata |} ])%list)
    [].

Definition scene_key (video_name : option string) (frame : FrameInfo) : string :=
  match video_name with
  | Some _ => fstring [Lit "Scene "; FInt (f_scene frame)]
  | None => fstring [FStr (f_video frame); Lit " - Scene "; FInt (f_scene frame)]
  end.

(** The grouping loop of [list_scenes]. *)
Definition scenes_of (video_name : option string) (frames : list FrameInfo)
  : groups FrameInfo :=
  fold_left (fun scenes frame => group_append (scene_key video_name frame) frame scenes)
            frames [].

(** A line of the listing: the name, [len(scene_frames)], the first three
    ids joined by a comma, and how many more there are. *)
Definition scene_line (entry : string * list FrameInfo)
  : string * Z * string * option Z :=
  let scene_frames := snd entry in
  (fst entry, len scene_frames,
   String.concat ", " (map f_id (firstn 3 scene_frames)),
   if 3 <? len scene_frames then Some (len scene_frames - 3) else None).

(** [if video_name:] *)
Definition given (video_name : option string) : option string :=
  match video_name with
  | Some name => if String.eqb name "" then None else Some name
  | None => None
  end.

Definition list_scenes_try {DB} (st : StoreWithGet DB) (self : ChromaDBManager)
    (video_name : option string)
  : M DB (option (list (string * Z * string * option Z))) :=
  match given video_name with
  | Some name =>
      results <- search_by_metadata (base st) self
                   [("video_name", VStr name)] 10 ;;
      match results with
      | None => ret None
      | Some res =>
          if negb (truthy_list (ids res)) then ret None
          else
            frames <- lift (frames_of_query res) ;;
            ret (Some (map scene_line (scenes_of (given video_name) frames)))
      end
  | None =>
      all_data <- collection_get st self None ;;
      if negb (truthy_list (got_ids all_data)) then ret None
      else
        frames <- lift (frames_of_all all_data) ;;
        ret (Some (map scene_line (scenes_of (given video_name) frames)))
  end.

Definition list_scenes {DB} (st : StoreWithGet DB) (self : ChromaDBManager)
    (video_name : option string)
  : M DB (option (list (string * Z * string * option Z))) :=
  try_except (list_scenes_try st self video_name) (fun e => ret None).


End query_chromadb.

(* ================================================================= *)
(** * Further sample stores *)

Module MoreSamples.
Import Py External clip_embeddings chromadb_manager.

Definition is_default (self : ChromaDBManager) : bool :=
  String.eqb (db_path self) "./chroma_db"
  && String.eqb (collection_name self) "video_embeddings".

(** The logging store for the default database and collection; down for
    every other one. *)
Definition store_default_only : Store Samples.Log := {|
  persistent_client := fun p =>
    if String.eqb p "./chroma_db" then ret tt
    else raise (Exception "no such database");
  client_get_collection := fun self =>
    if is_default self then client_get_collection Samples.store_log self
    else raise (Exception "no such collection");
  client_create_collection := fun self =>
    if is_default self then client_create_collection Samples.store_log self
    else raise (Exception "no such collection");
  collection_count := fun self =>
    if is_default self then collection_count Samples.store_log self
    else raise (Exception "no such collection");
  collection_add := fun self ids es ms =>
    if is_default self then collection_add Samples.store_log self ids es ms
    else raise (Exception "no such collection");
  collection_query_embeddings := fun self v n =>
    if is_default self
    then collection_query_embeddings Samples.store_log self v n
    else raise (Exception "no such collection");
  collection_query_where := fun self w n =>
    if is_default self then collection_query_where Samples.store_log self w n
    else raise (Exception "no such collection");
  collection_delete := fun self ids =>
    if is_default self then collection_delete Samples.store_log self ids
    else raise (Exception "no such collection")
|}.


(** A disk that keeps the directories made and the images written, oldest
    first, and refuses nothing. *)
Record Files (Frame : Type) : Type := {
  dirs : list string;
  images : list (string * Frame)
}.
Arguments dirs {Frame}.
Arguments images {Frame}.

Definition disk_log {Frame} : Disk (Files Frame) Frame := {|
  os_makedirs := fun d fs =>
    (Returned tt, {| dirs := (dirs fs ++ [d])%list; images := images fs |});
  cv2_imwrite := fun filepath frame fs =>
    (Returned true,
     {| dirs := dirs fs;
        images := (images fs ++ [(filepath, frame)])%list |})
|}.

(** A disk on which no directory can be made. *)
Definition disk_read_only {Frame} : Disk (Files Frame) Frame := {|
  os_makedirs := fun d =>
    raise (Exception ("[Errno 30] Read-only file system: '" ++ d ++ "'"));
  cv2_imwrite := fun _ _ => ret false
|}.

(** A console that shows every line; its state is the lines shown, oldest
    first. *)
Definition console_log : Console (list string) := {|
  print := fun text out => (Returned tt, (out ++ [text])%list)
|}.

(** A console whose encoding is ASCII: a line with another character is
    refused with the [UnicodeEncodeError] of Python, which names the first
    such character and its position. *)
Definition byte_at (s : string) (k : nat) : Z :=
  match String.get k s with
  | Some c => Z.of_N (N_of_ascii c)
  | None => 0
  end.

Fixpoint first_non_ascii (pos : Z) (s : string) : option (Z * string) :=
  match s with
  | EmptyString => None
  | String c rest =>
      if 128 <=? Z.of_N (N_of_ascii c) then Some (pos, s)
      else first_non_ascii (pos + 1) rest
  end.

(** The code point of the UTF-8 sequence at the head of [s]. *)
Definition code_point (s : string) : Z :=
  let b0 := byte_at s 0 in
  let b1 := byte_at s 1 - 128 in
  let b2 := byte_at s 2 - 128 in
  let b3 := byte_at s 3 - 128 in
  if 240 <=? b0 then (b0 - 240) * 262144 + b1 * 4096 + b2 * 64 + b3
  else if 224 <=? b0 then (b0 - 224) * 4096 + b1 * 64 + b2
  else (b0 - 192) * 64 + b1.

Definition hex_digit (n : Z) : string :=
  String.substring (Z.to_nat n) 1 "0123456789abcdef".

Fixpoint hex (width : nat) (n : Z) : string :=
  match width with
  | O => ""
  | S w => hex w (n / 16) ++ hex_digit (n mod 16)
  end.

Definition escaped (cp : Z) : string :=
  if cp <? 256 then "\x" ++ hex 2 cp
  else if cp <? 65536 then "\u" ++ hex 4 cp
  else "\U" ++ hex 8 cp.

Definition console_ascii : Console (list string) := {|
  print := fun text out =>
    match first_non_ascii 0 text with
    | None => (Returned tt, (out ++ [text])%list)
    | Some (pos, rest) =>
        (Raised (Exception
                   ("'ascii' codec can't encode character '"
                      ++ escaped (code_point rest) ++ "' in position "
                      ++ str_int pos ++ ": ordinal not in range(128)")),
         out)
    end
|}.

(** The logging store with [collection.get], which returns what was
    added to the collection. *)
Definition store_with_get : chromadb_manager_rest.StoreWithGet Samples.Log := {|
  chromadb_manager_rest.base := Samples.store_log;
  chromadb_manager_rest.collection_get := fun self _ db =>
    (Returned
       {| chromadb_manager_rest.got_ids := map fst (Samples.log_of self db);
          chromadb_manager_rest.got_embeddings := [];
          chromadb_manager_rest.got_metadatas := map snd (Samples.log_of self db) |},
     db)
|}.

(** A collection with three frames of a.mp4, in scenes 0, 0 and 1, and one
    frame of b.mp4 between them. *)
Definition log_mixed : Samples.Log :=
  map (fun x =>
         let '(name, si, fi, sample) := x in
         ("video_embeddings",
          (frame_id si fi sample,
           {| video_path := ("videos/" ++ name)%string; scene_idx := si;
              frame_idx := fi; frame_sample := sample; video_name := name |})))
      [("a.mp4", 0, 0, 0); ("a.mp4", 0, 1, 30); ("b.mp4", 0, 0, 0);
       ("a.mp4", 1, 0, 90)].

End MoreSamples.

(* ================================================================= *)
(** * Properties *)

(** ** Loops and rounding *)

Section RuntimeFacts.
Import Py.

Lemma append_empty_r (s : string) : (s ++ "")%string = s.
Proof. induction s as [|c s IH]; simpl; [reflexivity | now rewrite IH]. Qed.

(** A loop whose body appends one item per element, and cannot raise,
    appends the image of the list. *)
Lemma ofor_each_append {X Y} (f : X -> Y) (body : list Y -> X -> outcome (list Y))
    (xs : list X) (acc : list Y) :
  (forall a x, body a x = Returned (a ++ [f x])%list) ->
  ofor_each xs body acc = Returned (acc ++ map f xs)%list.
Proof.
  intros Hbody. revert acc.
  induction xs as [|x xs IH]; intros acc; simpl.
  - now rewrite app_nil_r.
  - rewrite Hbody. simpl. rewrite IH, <- app_assoc. reflexivity.
Qed.

Lemma round_half_even_nonneg (a b : Z) :
  0 <= a -> 0 < b -> 0 <= round_half_even a b.
Proof.
  intros Ha Hb. unfold round_half_even.
  replace (b <? 0) with false by (symmetry; apply Z.ltb_ge; lia).
  rewrite (Z.abs_eq b) by lia.
  assert (0 <= a / b) by (apply Z.div_pos; lia).
  destruct (2 * (a mod b) ?= b); [destruct (Z.even (a / b))| |]; lia.
Qed.

(** Twice the rounded third (or smaller part) of a length fits in it. *)
Lemma twice_round_le (a b : Z) :
  0 <= a -> 3 <= b -> 2 * round_half_even a b <= a.
Proof.
  intros Ha Hb. unfold round_half_even.
  replace (b <? 0) with false by (symmetry; apply Z.ltb_ge; lia).
  rewrite (Z.abs_eq b) by lia.
  pose proof (Z.div_mod a b ltac:(lia)) as Hdm.
  pose proof (Z.mod_pos_bound a b ltac:(lia)) as Hm.
  assert (Hq : 0 <= a / b) by (apply Z.div_pos; lia).
  destruct (2 * (a mod b) ?= b) eqn:Hc.
  - apply Z.compare_eq in Hc. destruct (Z.even (a / b)); nia.
  - nia.
  - apply Z.compare_gt_iff in Hc. nia.
Qed.

(** Rounding keeps the stride within half a frame of the exact quotient. *)
Lemma round_half_even_close (a b : Z) :
  0 < b -> 2 * Z.abs (b * round_half_even a b - a) <= b.
Proof.
  intros Hb. unfold round_half_even.
  replace (b <? 0) with false by (symmetry; apply Z.ltb_ge; lia).
  rewrite (Z.abs_eq b) by lia.
  pose proof (Z.div_mod a b ltac:(lia)) as Hdm.
  pose proof (Z.mod_pos_bound a b ltac:(lia)) as Hm.
  set (q := a / b) in *. set (m := a mod b) in *. clearbody q m.
  assert (Hq : b * q - a = - m) by lia.
  assert (Hq1 : b * (q + 1) - a = b - m) by lia.
  destruct (2 * m ?= b) eqn:Hc; cbv iota.
  - apply Z.compare_eq in Hc.
    destruct (Z.even q); cbv iota.
    + rewrite Hq. lia.
    + rewrite Hq1. lia.
  - change (2 * m < b) in Hc. rewrite Hq. lia.
  - apply Z.compare_gt_iff in Hc. rewrite Hq1. lia.
Qed.

End RuntimeFacts.

(** ** The binary64 quotient against the exact one *)

Section Binary64.
Import Py.

(** The three ways to show what a quotient rounds to. *)
Lemma round_half_even_below (m s q : Z) :
  0 < s -> q * s <= m -> 2 * (m - q * s) < s -> round_half_even m s = q.
Proof.
  intros Hs H1 H2. unfold round_half_even.
  replace (s <? 0) with false by (symmetry; apply Z.ltb_ge; lia).
  rewrite (Z.abs_eq s) by lia.
  assert (Hq : m / s = q) by (symmetry; apply (Z.div_unique m s q (m - q * s)); lia).
  assert (Hr : m mod s = m - q * s)
    by (symmetry; apply (Z.mod_unique m s q (m - q * s)); lia).
  rewrite Hq, Hr.
  replace (2 * (m - q * s) ?= s) with Lt by (symmetry; apply Z.compare_lt_iff; lia).
  reflexivity.
Qed.

Lemma round_half_even_above (m s q : Z) :
  0 < s -> s < 2 * (m - q * s) -> m - q * s <= s -> round_half_even m s = q + 1.
Proof.
  intros Hs H1 H2. unfold round_half_even.
  replace (s <? 0) with false by (symmetry; apply Z.ltb_ge; lia).
  rewrite (Z.abs_eq s) by lia.
  destruct (Z.eq_dec (m - q * s) s) as [E|E].
  - assert (Hq : m / s = q + 1)
      by (symmetry; apply (Z.div_unique m s (q + 1) 0); lia).
    assert (Hr : m mod s = 0)
      by (symmetry; apply (Z.mod_unique m s (q + 1) 0); lia).
    rewrite Hq, Hr.
    replace (2 * 0 ?= s) with Lt by (symmetry; apply Z.compare_lt_iff; lia).
    reflexivity.
  - assert (Hq : m / s = q)
      by (symmetry; apply (Z.div_unique m s q (m - q * s)); lia).
    assert (Hr : m mod s = m - q * s)
      by (symmetry; apply (Z.mod_unique m s q (m - q * s)); lia).
    rewrite Hq, Hr.
    replace (2 * (m - q * s) ?= s) with Gt by (symmetry; apply Z.compare_gt_iff; lia).
    reflexivity.
Qed.

Lemma round_half_even_tie (m s q : Z) :
  0 < s -> 2 * (m - q * s) = s ->
  round_half_even m s = if Z.even q then q else q + 1.
Proof.
  intros Hs H1. unfold round_half_even.
  replace (s <? 0) with false by (symmetry; apply Z.ltb_ge; lia).
  rewrite (Z.abs_eq s) by lia.
  assert (Hq : m / s = q)
    by (symmetry; apply (Z.div_unique m s q (m - q * s)); lia).
  assert (Hr : m mod s = m - q * s)
    by (symmetry; apply (Z.mod_unique m s q (m - q * s)); lia).
  rewrite Hq, Hr.
  replace (2 * (m - q * s) ?= s) with Eq by (symmetry; apply Z.compare_eq_iff; lia).
  reflexivity.
Qed.

(** Rounding a quotient to a multiple of [1/s] and then to an integer gives
    the integer nearest to the quotient, when [s] is even and above the
    divisor. *)
Lemma round_twice (a b h : Z) :
  0 <= a -> 0 < b -> b < 2 * h ->
  round_half_even (round_half_even (a * (2 * h)) b) (2 * h) = round_half_even a b.
Proof.
  intros Ha Hb Hs.
  pose proof (Z.div_mod a b ltac:(lia)) as Hdm.
  pose proof (Z.mod_pos_bound a b ltac:(lia)) as Hm.
  pose proof (round_half_even_close (a * (2 * h)) b Hb) as Hc.
  set (m := round_half_even (a * (2 * h)) b) in *. clearbody m.
  set (q := a / b) in *. set (r := a mod b) in *.
  assert (Hab : round_half_even a b
                = match 2 * r ?= b with
                  | Lt => q | Gt => q + 1
                  | Eq => if Z.even q then q else q + 1 end).
  { unfold round_half_even.
    replace (b <? 0) with false by (symmetry; apply Z.ltb_ge; lia).
    now rewrite (Z.abs_eq b) by lia. }
  rewrite Hab. clearbody q r. subst a. clear Hab.
  assert (Hc' : 2 * Z.abs (b * (m - q * (2 * h)) - r * (2 * h)) <= b)
    by (replace (b * (m - q * (2 * h)) - r * (2 * h))
          with (b * m - (b * q + r) * (2 * h)) by ring; exact Hc).
  clear Hc. set (m' := m - q * (2 * h)) in *.
  assert (Hm' : m = q * (2 * h) + m') by (unfold m'; ring).
  clearbody m'. subst m.
  destruct (2 * r ?= b) eqn:Hcmp.
  - apply Z.compare_eq in Hcmp.
    assert (m' = h) by nia.
    subst m'. apply round_half_even_tie; lia.
  - change (2 * r < b) in Hcmp.
    apply round_half_even_below; [lia | nia | nia].
  - apply Z.compare_gt_iff in Hcmp.
    apply round_half_even_above; [lia | nia | nia].
Qed.

(** The same for truncation: the floor of the rounded multiple is the floor
    of the quotient when twice [s] is above the divisor. *)
Lemma floor_of_rounded (a b s : Z) :
  0 <= a -> 0 < b -> 0 < s -> b < 2 * s ->
  round_half_even (a * s) b / s = a / b.
Proof.
  intros Ha Hb H0 Hs.
  pose proof (Z.div_mod a b ltac:(lia)) as Hdm.
  pose proof (Z.mod_pos_bound a b ltac:(lia)) as Hm.
  pose proof (round_half_even_close (a * s) b Hb) as Hc.
  set (m := round_half_even (a * s) b) in *. clearbody m.
  set (q := a / b) in *. set (r := a mod b) in *. clearbody q r. subst a.
  symmetry. apply (Z.div_unique m s q (m - q * s)); [|ring].
  left. split; nia.
Qed.

(** A rounded quotient of a non-negative number does not exceed it. *)
Lemma round_half_even_le (a b : Z) : 0 <= a -> 0 < b -> round_half_even a b <= a.
Proof.
  intros Ha Hb.
  pose proof (round_half_even_close a b Hb). pose proof (round_half_even_nonneg a b Ha Hb). nia.
Qed.

(** [2 ^ quotient_log2 a b <= a / b], on the scaled fraction. *)
Lemma quotient_log2_lower (a b : Z) :
  0 < a -> 0 < b ->
  snd (scaled a b (quotient_log2 a b)) <= fst (scaled a b (quotient_log2 a b)).
Proof.
  intros Ha Hb. unfold quotient_log2.
  pose proof (Z.log2_spec a Ha) as [La Ua].
  pose proof (Z.log2_spec b Hb) as [Lb Ub].
  pose proof (Z.log2_nonneg a) as Na. pose proof (Z.log2_nonneg b) as Nb.
  set (la := Z.log2 a) in *. set (lb := Z.log2 b) in *. clearbody la lb.
  destruct (scaled a b (la - lb)) as [n m] eqn:Hsc.
  destruct (m <=? n) eqn:Hle.
  - rewrite Hsc. apply Z.leb_le in Hle. exact Hle.
  - clear Hsc Hle n m. unfold scaled.
    destruct (0 <=? la - lb - 1) eqn:Hd; cbn [fst snd].
    + apply Z.leb_le in Hd.
      assert (b * 2 ^ (la - lb - 1) < 2 ^ Z.succ lb * 2 ^ (la - lb - 1)).
      { apply Z.mul_lt_mono_pos_r; [apply Z.pow_pos_nonneg; lia | exact Ub]. }
      rewrite <- Z.pow_add_r in H by lia.
      replace (Z.succ lb + (la - lb - 1)) with la in H by lia. lia.
    + apply Z.leb_gt in Hd.
      assert (2 ^ la * 2 ^ (- (la - lb - 1)) <= a * 2 ^ (- (la - lb - 1))).
      { apply Z.mul_le_mono_nonneg_r; [apply Z.pow_nonneg; lia | exact La]. }
      rewrite <- Z.pow_add_r in H by lia.
      replace (la + - (la - lb - 1)) with (Z.succ lb) in H by lia. lia.
Qed.

Lemma quotient_log2_le (a b : Z) :
  0 < b -> quotient_log2 a b <= Z.log2 a.
Proof.
  intros Hb. unfold quotient_log2.
  pose proof (Z.log2_nonneg b).
  destruct (scaled a b (Z.log2 a - Z.log2 b)) as [n m].
  destruct (m <=? n); lia.
Qed.

Lemma pow2_double (k : Z) : 0 < k -> 2 ^ k = 2 * 2 ^ (k - 1).
Proof.
  intros Hk. replace k with (Z.succ (k - 1)) at 1 by lia.
  apply Z.pow_succ_r. lia.
Qed.

Section Agreement.
Variables a b : Z.
Hypothesis Ha : 0 < a.
Hypothesis Hb : 0 < b.

(** What the definition gives for a quotient below [2^52]: a negative
    exponent [- k], with twice the divisor's share kept unless the exponent
    was cut off at the smallest one. *)
Lemma nearest_below_2_52 :
  a < 2 ^ 53 -> 2 <= b \/ a < 2 ^ 52 ->
  exists k,
    0 < k
    /\ nearest_binary64 a b
       = {| mantissa := round_half_even (a * 2 ^ k) b; exponent := - k |}
    /\ (2 ^ 52 * b <= a * 2 ^ k \/ k = 1074).
Proof.
  intros Ha53 Hsmall. unfold nearest_binary64.
  replace (a =? 0) with false by (symmetry; apply Z.eqb_neq; lia).
  pose proof (quotient_log2_lower a b Ha Hb) as Hlow.
  pose proof (quotient_log2_le a b Hb) as Hle.
  assert (Hla : Z.log2 a <= 52) by (apply Z.lt_succ_r, Z.log2_lt_pow2; lia).
  set (L := quotient_log2 a b) in *.
  assert (HL : L <= 51).
  { destruct Hsmall as [Hb2|Ha52].
    - destruct (Z.eq_dec L 52) as [E|E]; [|lia].
      rewrite E in Hlow. unfold scaled in Hlow. cbn [Z.leb Z.compare fst snd] in Hlow.
      assert (2 ^ 53 <= b * 2 ^ 52) by lia. lia.
    - assert (Z.log2 a < 52) by (apply Z.log2_lt_pow2; lia). lia. }
  clearbody L.
  destruct (Z.max_spec (L - 52) (-1074)) as [[Hlt ->]|[Hge ->]].
  - exists 1074. split; [lia|]. split; [reflexivity|].
    now right.
  - exists (- (L - 52)). split; [lia|].
    unfold scaled.
    replace (0 <=? L - 52) with false by (symmetry; apply Z.leb_gt; lia).
    rewrite Z.opp_involutive. split; [reflexivity|]. left.
    unfold scaled in Hlow.
    destruct (0 <=? L) eqn:HL0; cbn [fst snd] in Hlow.
    + apply Z.leb_le in HL0.
      replace (2 ^ (- (L - 52))) with (2 ^ (52 - L)) by (f_equal; lia).
      assert (2 ^ 52 = 2 ^ L * 2 ^ (52 - L))
        by (rewrite <- Z.pow_add_r by lia; f_equal; lia).
      assert (0 < 2 ^ (52 - L)) by (apply Z.pow_pos_nonneg; lia).
      nia.
    + apply Z.leb_gt in HL0.
      replace (2 ^ (- (L - 52))) with (2 ^ 52 * 2 ^ (- L))
        by (rewrite <- Z.pow_add_r by lia; f_equal; lia).
      nia.
Qed.

(** Below [2^52] the rounded binary64 quotient is the rounded quotient. *)
Lemma round_nearest_exact :
  a < 2 ^ 52 ->
  round_float (nearest_binary64 a b) = round_half_even a b.
Proof.
  intros Ha52.
  destruct (nearest_below_2_52 ltac:(lia) (or_intror Ha52))
    as (k & Hk & -> & Hcase).
  unfold round_float. cbn [exponent mantissa].
  replace (0 <=? - k) with false by (symmetry; apply Z.leb_gt; lia).
  rewrite Z.opp_involutive.
  assert (Hpos : 0 < 2 ^ k) by (apply Z.pow_pos_nonneg; lia).
  destruct (Z_lt_le_dec b (2 ^ k)) as [Hlt|Hge].
  - rewrite (pow2_double k Hk) in *. apply round_twice; lia.
  - destruct Hcase as [Hlow | ->]; [nia|].
    assert (Hm : 0 <= round_half_even (a * 2 ^ 1074) b <= a).
    { split; [apply round_half_even_nonneg; lia|].
      pose proof (round_half_even_close (a * 2 ^ 1074) b Hb).
      set (m := round_half_even (a * 2 ^ 1074) b) in *. clearbody m. nia. }
    assert (H53 : 2 ^ 53 < 2 ^ 1074) by (apply Z.pow_lt_mono_r; lia).
    rewrite (round_half_even_below _ (2 ^ 1074) 0) by lia.
    symmetry. apply (round_half_even_below a b 0); lia.
Qed.

(** Below [2^53] the truncated binary64 quotient is the integer quotient. *)
Lemma int_nearest_exact :
  a < 2 ^ 53 ->
  int_float (nearest_binary64 a b) = a / b.
Proof.
  intros Ha53.
  assert (Hsplit : (2 <= b \/ a < 2 ^ 52) \/ (b = 1 /\ 2 ^ 52 <= a)) by lia.
  destruct Hsplit as [Hsmall|[-> Ha52]].
  - destruct (nearest_below_2_52 Ha53 Hsmall) as (k & Hk & -> & Hcase).
    unfold int_float. cbn [exponent mantissa].
    replace (0 <=? - k) with false by (symmetry; apply Z.leb_gt; lia).
    rewrite Z.opp_involutive.
    assert (Hpos : 0 < 2 ^ k) by (apply Z.pow_pos_nonneg; lia).
    assert (Hm0 : 0 <= round_half_even (a * 2 ^ k) b)
      by (apply round_half_even_nonneg; lia).
    rewrite Z.quot_div_nonneg by lia.
    destruct (Z_lt_le_dec b (2 * 2 ^ k)) as [Hlt|Hge].
    + apply floor_of_rounded; lia.
    + destruct Hcase as [Hlow | ->]; [nia|].
      pose proof (round_half_even_close (a * 2 ^ 1074) b Hb).
      set (m := round_half_even (a * 2 ^ 1074) b) in *. clearbody m.
      assert (H53 : 2 ^ 53 < 2 ^ 1074) by (apply Z.pow_lt_mono_r; lia).
      rewrite (Z.div_small m) by nia.
      symmetry. apply Z.div_small. nia.
  - assert (Hla : Z.log2 a = 52) by (apply Z.log2_unique; lia).
    assert (HL : quotient_log2 a 1 = 52).
    { unfold quotient_log2. rewrite Hla. change (Z.log2 1) with 0.
      change (52 - 0) with 52. unfold scaled. change (0 <=? 52) with true.
      cbv iota beta.
      replace (1 * 2 ^ 52 <=? a) with true by (symmetry; apply Z.leb_le; lia).
      reflexivity. }
    assert (Hn : nearest_binary64 a 1 = {| mantissa := a; exponent := 0 |}).
    { unfold nearest_binary64. rewrite HL.
      replace (a =? 0) with false by (symmetry; apply Z.eqb_neq; lia).
      change (Z.max (52 - 52) (-1074)) with 0. unfold scaled.
      change (0 <=? 0) with true. cbv iota beta.
      change (1 * 2 ^ 0) with 1. rewrite (round_half_even_below a 1 a) by lia. reflexivity. }
    rewrite Hn. unfold int_float. cbn [exponent mantissa].
    change (0 <=? 0) with true. cbv iota. change (2 ^ 0) with 1.
    rewrite Z.div_1_r. lia.
Qed.

End Agreement.

(** A quotient below [2^53] is within the range of binary64. *)
Lemma true_div_small (a b : Z) :
  0 <= a < 2 ^ 53 -> 0 < b ->
  true_div a b = Returned (nearest_binary64 a b).
Proof.
  intros [Ha Ha53] Hb. unfold true_div.
  replace (b =? 0) with false by (symmetry; apply Z.eqb_neq; lia).
  rewrite (Z.abs_eq a), (Z.abs_eq b) by lia.
  assert (Hfit : Z.log2 (mantissa (nearest_binary64 a b))
                 + exponent (nearest_binary64 a b) < 1024
                 /\ Z.sgn a * Z.sgn b * mantissa (nearest_binary64 a b)
                    = mantissa (nearest_binary64 a b)).
  { destruct (Z.eq_dec a 0) as [->|Hne]; [split; reflexivity|].
    rewrite (Z.sgn_pos a), (Z.sgn_pos b) by lia.
    split; [|lia].
    assert (Hsplit : (2 <= b \/ a < 2 ^ 52) \/ (b = 1 /\ 2 ^ 52 <= a)) by lia.
    destruct Hsplit as [Hsmall|[-> Ha52]].
    - destruct (nearest_below_2_52 a b ltac:(lia) Hb Ha53 Hsmall)
        as (k & Hk & -> & _).
      cbn [mantissa exponent].
      assert (Hpos : 0 < 2 ^ k) by (apply Z.pow_pos_nonneg; lia).
      pose proof (round_half_even_le (a * 2 ^ k) b ltac:(nia) Hb) as Hle.
      pose proof (round_half_even_nonneg (a * 2 ^ k) b ltac:(nia) Hb) as H0.
      set (m := round_half_even (a * 2 ^ k) b) in *. clearbody m.
      destruct (Z.eq_dec m 0) as [->|Hm]; [cbn; lia|].
      assert (Z.log2 m < 53 + k); [|lia].
      apply Z.log2_lt_pow2; [lia|].
      rewrite Z.pow_add_r by lia. nia.
    - pose proof (int_nearest_exact a 1 ltac:(lia) ltac:(lia) Ha53) as Hint.
      assert (Hla : Z.log2 a = 52) by (apply Z.log2_unique; lia).
      unfold nearest_binary64, quotient_log2 in *.
      replace (a =? 0) with false in * by (symmetry; apply Z.eqb_neq; lia).
      rewrite Hla in *. change (Z.log2 1) with 0 in *.
      change (52 - 0) with 52 in *. unfold scaled in *.
      change (0 <=? 52) with true in *. cbv iota beta in *.
      replace (1 * 2 ^ 52 <=? a) with true in *
        by (symmetry; apply Z.leb_le; lia).
      change (Z.max (52 - 52) (-1074)) with 0 in *.
      change (0 <=? 0) with true in *. cbv iota beta in *.
      change (1 * 2 ^ 0) with 1 in *. rewrite (round_half_even_below a 1 a) by lia.
      cbn [mantissa exponent]. rewrite Hla. lia. }
  destruct Hfit as [Hlog Hsgn].
  replace (1024 <=? _) with false by (symmetry; apply Z.leb_gt; exact Hlog).
  rewrite Hsgn. destruct (nearest_binary64 a b). reflexivity.
Qed.

Lemma round_true_div_exact (a b : Z) :
  0 <= a < 2 ^ 52 -> 0 < b ->
  round_true_div a b = Returned (round_half_even a b).
Proof.
  intros [Ha Ha52] Hb. unfold round_true_div.
  assert (H53 : 2 ^ 52 < 2 ^ 53) by (apply Z.pow_lt_mono_r; lia).
  rewrite true_div_small by lia. cbn [obind]. f_equal.
  destruct (Z.eq_dec a 0) as [->|Hne].
  - rewrite (round_half_even_below 0 b 0) by lia. reflexivity.
  - apply round_nearest_exact; lia.
Qed.

Lemma int_true_div_exact (a b : Z) :
  0 <= a < 2 ^ 53 -> 0 < b ->
  int_true_div a b = Returned (a / b).
Proof.
  intros [Ha Ha53] Hb. unfold int_true_div.
  rewrite true_div_small by lia. cbn [obind]. f_equal.
  destruct (Z.eq_dec a 0) as [->|Hne].
  - reflexivity.
  - apply int_nearest_exact; lia.
Qed.

(** Beyond the bound the two differ. *)
Lemma round_true_div_beyond :
  round_true_div (2 ^ 53 + 1) 1 = Returned (2 ^ 53)
  /\ round_half_even (2 ^ 53 + 1) 1 = 2 ^ 53 + 1.
Proof. split; vm_compute; reflexivity. Qed.

End Binary64.

(** ** The frame sampler *)

Section Sampler.
Import Py External scene_utils.

(** The three samples the loop body computes for one scene. *)
Lemma sample_scene_eq (n every_n : Z) (acc : list (list Z)) (sc : Scene) :
  round_div (Z.abs (scene_start sc - scene_end sc)) n = Returned every_n ->
  sample_scene n acc sc
  = Returned (acc ++ [[scene_start sc;
                       every_n + scene_start sc;
                       every_n * 2 + scene_start sc]])%list.
Proof.
  intros Hr. unfold sample_scene, scene_start, scene_end in *.
  rewrite Hr. simpl. rewrite Z.mul_0_r, Z.mul_1_r. reflexivity.
Qed.

(** For every non-zero sample count the sampler returns three samples per
    scene, spaced by the rounded quotient. *)
Lemma sample_scenes_spec (scenes : list Scene) (n : Z) :
  n <> 0 ->
  sample_scenes scenes n
  = Returned
      (map (fun sc =>
              let every_n :=
                round_half_even (Z.abs (scene_start sc - scene_end sc)) n in
              [scene_start sc; every_n + scene_start sc;
               every_n * 2 + scene_start sc]) scenes).
Proof.
  intros Hn. unfold sample_scenes.
  rewrite ofor_each_append with
    (f := fun sc =>
            let every_n :=
              round_half_even (Z.abs (scene_start sc - scene_end sc)) n in
            [scene_start sc; every_n + scene_start sc;
             every_n * 2 + scene_start sc]).
  - reflexivity.
  - intros a sc. apply sample_scene_eq. unfold round_div.
    destruct (n =? 0) eqn:E; [apply Z.eqb_eq in E; contradiction | reflexivity].
Qed.

(** C1: asked for one sample of the scene from frame 0 to frame 90 the
    sampler returns three frame numbers, [0; 90; 180], where a single one
    was asked for; asked for two samples of a scene of length 0 it returns
    three copies of the start; with a count of 3 the 90-frame scene yields
    [0; 30; 60]. *)
Theorem sampler_returns_three_for_count_one :
  get_scene_frame_samples Samples.env_two_videos Samples.video_a 1 5%float
  = Returned [[0; 90; 180]]
  /\ sample_scenes [scene_of 0 90] 1 = Returned [[0; 90; 180]]
  /\ sample_scenes [scene_of 7 7] 2 = Returned [[7; 7; 7]]
  /\ sample_scenes [scene_of 0 90] 3 = Returned [[0; 30; 60]].
Proof.
  split; [vm_compute; reflexivity|].
  rewrite !sample_scenes_spec by discriminate.
  repeat split.
Qed.

(** C5: asked for two samples of the scene from frame 0 to frame 3 the
    sampler returns [0; 2; 4], the stride being round(3 / 2) = 2 on the
    binary64 quotient as on the exact one.  The two samples the count asks
    for lie in the scene; the third, which the loop makes whatever the
    count, is frame 4, past the end of the scene.  At the count of 3, where
    the loop makes as many samples as were asked for, the same scene gives
    [0; 1; 2]. *)
Theorem surplus_sample_passes_the_scene_end :
  sample_scenes [scene_of 0 3] 2 = Returned [[0; 2; 4]]
  /\ round_true_div (Z.abs (0 - 3)) 2 = Returned 2
  /\ ~ (forall f, In f [0; 2; 4] -> 0 <= f <= 3)
  /\ (forall f, In f (firstn 2 [0; 2; 4]) -> 0 <= f <= 3)
  /\ sample_scenes [scene_of 0 3] 3 = Returned [[0; 1; 2]].
Proof.
  split; [rewrite sample_scenes_spec by discriminate; reflexivity|].
  split; [vm_compute; reflexivity|].
  split; [intros H; specialize (H 4); simpl in H; lia|].
  split; [intros f [<-|[<-|[]]]; lia|].
  rewrite sample_scenes_spec by discriminate. reflexivity.
Qed.

End Sampler.

(** ** Scene segmentation with fallback *)

Section Segmentation.
Import Py External scene_utils clip_embeddings.
Context {Frame : Type} (env : VideoEnv Frame) (video_path : string).

(** The three samples of a scene at the pipeline's count of 3. *)
Lemma get_samples_three (threshold : float) (scenes : list Scene) :
  sd_detect env video_path threshold = Returned scenes ->
  get_scene_frame_samples env video_path 3 threshold = sample_scenes scenes 3
  /\ exists sfs, sample_scenes scenes 3 = Returned sfs
                 /\ List.length sfs = List.length scenes.
Proof.
  intros Hd. unfold get_scene_frame_samples, detect_scenes. rewrite Hd.
  split; [reflexivity|].
  rewrite sample_scenes_spec by lia. eexists; split; [reflexivity|].
  apply length_map.
Qed.

Lemma try_thresholds_all_empty (ths : list float) :
  (forall t, In t ths -> sd_detect env video_path t = Returned []) ->
  try_thresholds env video_path ths = (ths, Returned []).
Proof.
  induction ths as [|t ths IH]; intros Hall; simpl.
  - reflexivity.
  - unfold get_scene_frame_samples, detect_scenes.
    rewrite (Hall t (or_introl eq_refl)). simpl.
    rewrite IH by (intros; apply Hall; now right). reflexivity.
Qed.

(** The loop stops at the first threshold that finds a scene: the
    thresholds after it are not tried. *)
Lemma try_thresholds_first_hit (pre : list float) (t : float)
    (post : list float) (scenes : list Scene) :
  (forall t', In t' pre -> sd_detect env video_path t' = Returned []) ->
  sd_detect env video_path t = Returned scenes ->
  scenes <> [] ->
  exists sfs,
    sample_scenes scenes 3 = Returned sfs
    /\ List.length sfs = List.length scenes
    /\ try_thresholds env video_path (pre ++ t :: post)
       = ((pre ++ [t])%list, Returned sfs).
Proof.
  intros Hpre Ht Hne.
  destruct (get_samples_three t scenes Ht) as [Hget (sfs & Hsfs & Hlen)].
  exists sfs. split; [exact Hsfs|]. split; [exact Hlen|].
  induction pre as [|t0 pre IH];
    [rewrite !app_nil_l | rewrite <- !app_comm_cons]; cbn [try_thresholds].
  - rewrite Hget, Hsfs.
    destruct sfs as [|x sfs]; [|reflexivity].
    destruct scenes; [contradiction | discriminate Hlen].
  - unfold get_scene_frame_samples at 1, detect_scenes.
    rewrite (Hpre t0 (or_introl eq_refl)). cbn [obind sample_scenes ofor_each truthy_list].
    rewrite IH by (intros t' Hin; apply Hpre; now right). reflexivity.
Qed.

(** C2: the detector is called on 15.0, 10.0, 5.0, 2.0 in this order, up to
    and including the first threshold at which it finds a scene; the scenes
    found there are the result, whatever the thresholds after it would give
    and whatever the frame count is.  When it finds no scene at any of the
    four, a video of T frames, 0 < T < 2^52, is one scene sampled at the
    frames 0, T/3 and 2T/3, which are the integers the source takes from
    its binary64 quotients; without frames there is no scene.  So whenever
    the loop returns, with a scene or for a video with a frame, the result
    has a scene. *)
Theorem segmentation_first_hit_or_whole_video :
  (forall pre t post scenes,
      thresholds = (pre ++ t :: post)%list ->
      (forall t', In t' pre -> sd_detect env video_path t' = Returned []) ->
      sd_detect env video_path t = Returned scenes ->
      scenes <> [] ->
      exists sfs,
        sample_scenes scenes 3 = Returned sfs
        /\ List.length sfs = List.length scenes
        /\ try_thresholds env video_path thresholds
           = ((pre ++ [t])%list, Returned sfs)
        /\ detect_with_fallback env video_path = Returned (Some sfs))
  /\ ((forall t, In t thresholds -> sd_detect env video_path t = Returned []) ->
      let T := cap_frame_count env video_path in
      try_thresholds env video_path thresholds = (thresholds, Returned [])
      /\ (T <= 0 -> detect_with_fallback env video_path = Returned None)
      /\ (0 < T < 2 ^ 52 ->
          detect_with_fallback env video_path
          = Returned (Some [[0; T / 3; 2 * T / 3]])
          /\ map (fun i => int_true_div (T * i) 3) (range 3)
             = [Returned 0; Returned (T / 3); Returned (2 * T / 3)]
          /\ 0 <= T / 3 <= 2 * T / 3 /\ 2 * T / 3 < T))
  /\ (forall s,
        snd (try_thresholds env video_path thresholds) = Returned s ->
        s <> [] \/ 0 < cap_frame_count env video_path ->
        exists sfs,
          detect_with_fallback env video_path = Returned (Some sfs)
          /\ sfs <> []).
Proof.
  split; [|split].
  - intros pre t post scenes Hths Hpre Ht Hne.
    destruct (try_thresholds_first_hit pre t post scenes Hpre Ht Hne)
      as (sfs & Hs & Hlen & Htry).
    exists sfs. rewrite Hths. repeat split; try assumption.
    unfold detect_with_fallback. rewrite Hths, Htry. cbn [snd obind].
    destruct sfs as [|x sfs]; [|reflexivity].
    destruct scenes; [contradiction | discriminate Hlen].
  - intros Hall T.
    pose proof (try_thresholds_all_empty thresholds Hall) as Htry.
    split; [exact Htry|].
    unfold detect_with_fallback. rewrite Htry.
    cbn [fst snd obind truthy_list]. fold T. unfold fallback_samples.
    split.
    + intros HT. replace (0 <? T) with false
        by (symmetry; apply Z.ltb_ge; exact HT). reflexivity.
    + intros [HT Hbound]. clearbody T.
      replace (0 <? T) with true by (symmetry; apply Z.ltb_lt; exact HT).
      assert (H53 : 2 ^ 53 = 2 * 2 ^ 52) by reflexivity.
      split; [|split].
      * cbn [range seq map Z.of_nat Pos.of_succ_nat Pos.succ]. unfold int_div.
        rewrite Z.mul_0_r, Z.mul_1_r, (Z.mul_comm T 2).
        rewrite !Z.quot_div_nonneg by lia. reflexivity.
      * cbn [range seq map Z.of_nat Pos.of_succ_nat Pos.succ].
        rewrite !int_true_div_exact by lia.
        rewrite Z.mul_0_r, Z.mul_1_r, (Z.mul_comm T 2). reflexivity.
      * assert (0 <= T / 3) by (apply Z.div_pos; lia).
        assert (T / 3 <= 2 * T / 3) by (apply Z.div_le_mono; lia).
        assert (2 * T / 3 < T) by (apply Z.div_lt_upper_bound; lia).
        lia.
  - intros s Hs Hsome. unfold detect_with_fallback. rewrite Hs. cbn [obind].
    destruct s as [|x s]; cbn [truthy_list].
    + destruct Hsome as [Hne|HT]; [contradiction|].
      unfold fallback_samples.
      replace (0 <? cap_frame_count env video_path) with true
        by (symmetry; apply Z.ltb_lt; exact HT).
      eexists. split; [reflexivity | discriminate].
    + eexists. split; [reflexivity | discriminate].
Qed.

End Segmentation.

(** A video whose scene shows at threshold 5.0, the third tried, and one
    without scenes, of 90 frames. *)
Lemma segmentation_first_hit_or_whole_video_witness :
  clip_embeddings.try_thresholds Samples.env_two_videos Samples.video_a
    clip_embeddings.thresholds
  = ([15; 10; 5]%float, Py.Returned [[0; 30; 60]])
  /\ clip_embeddings.detect_with_fallback Samples.env_two_videos Samples.video_a
     = Py.Returned (Some [[0; 30; 60]])
  /\ clip_embeddings.try_thresholds Samples.env_no_scenes Samples.video_a
       clip_embeddings.thresholds
     = ([15; 10; 5; 2]%float, Py.Returned [])
  /\ clip_embeddings.detect_with_fallback Samples.env_no_scenes Samples.video_a
     = Py.Returned (Some [[0; 30; 60]]).
Proof.
  destruct (segmentation_first_hit_or_whole_video Samples.env_two_videos
              Samples.video_a) as (Hhit & _ & _).
  destruct (Hhit [15; 10]%float 5%float [2%float] [External.scene_of 0 90])
    as (sfs & Hs & _ & Htry & Hd).
  { reflexivity. }
  { intros t' [<-|[<-|[]]]; reflexivity. }
  { reflexivity. }
  { discriminate. }
  destruct (segmentation_first_hit_or_whole_video Samples.env_no_scenes
              Samples.video_a) as (_ & Hnone & _).
  destruct Hnone as (Htry0 & _ & Hsome); [intros t _; reflexivity|].
  destruct Hsome as (Hd0 & _); [vm_compute; split; reflexivity|].
  assert (Hsfs : sfs = [[0; 30; 60]])
    by (vm_compute in Hs; now injection Hs as <-).
  rewrite Hsfs in *.
  split; [exact Htry|]. split; [exact Hd|]. split; [exact Htry0 | exact Hd0].
Defined.

(** ** The embedding store adapter *)

Section StoreAdapter.
Import Py External clip_embeddings chromadb_manager.
Context {DB : Type} (st : Store DB) (self : ChromaDBManager).

(** A [try ... except Exception] whose handler returns a constant never
    raises, and returns the constant when the body raised. *)
Lemma try_except_const {A} (body : M DB A) (failure : A) (db : DB) :
  exists a db',
    try_except body (fun _ => ret failure) db = (Returned a, db')
    /\ db' = snd (body db)
    /\ (forall e, fst (body db) = Raised e -> a = failure).
Proof.
  unfold try_except, ret. destruct (body db) as [[a|e] db'] eqn:Hb; simpl.
  - exists a, db'. repeat split. intros e He. discriminate He.
  - exists failure, db'. repeat split.
Qed.

Lemma bind_raised {A B} (m : M DB A) (k : A -> M DB B) (db : DB) (e : exn) :
  fst (m db) = Raised e -> fst (bind m k db) = Raised e.
Proof.
  unfold bind. destruct (m db) as [[a|e'] db']; simpl; intros H;
    [discriminate H | injection H as ->; reflexivity].
Qed.

(** C6, amended: [save_embeddings] on an empty sequence returns [False]
    without raising and leaves the collection as it was; an insert that
    fails in the store returns the same [False]. *)
Theorem save_embeddings_empty_is_false (db : DB) :
  save_embeddings st self [] db = (Returned false, db)
  /\ forall data e,
       data <> [] ->
       fst (save_embeddings_try st self data db) = Raised e ->
       fst (save_embeddings st self data db) = Returned false.
Proof.
  split; [reflexivity|].
  intros data e Hne Hraise. unfold save_embeddings.
  destruct data as [|r data]; [contradiction|]. simpl.
  destruct (try_except_const (save_embeddings_try st self (r :: data)) false db)
    as (a & db' & Heq & _ & Hfail).
  rewrite Heq. simpl. f_equal. exact (Hfail e Hraise).
Qed.

(** C7: none of the five entry points of the adapter lets an exception of
    the store escape; each returns, and returns its failure value ([False],
    [None] or the empty dict) when the store call raised. *)
Theorem adapter_entry_points_catch_store_errors :
  (forall data db, exists b db',
      save_embeddings st self data db = (Returned b, db')
      /\ (forall e, data <> [] ->
                    fst (save_embeddings_try st self data db) = Raised e ->
                    b = false))
  /\ (forall q n db, exists r db',
        search_similar_frames st self q n db = (Returned r, db')
        /\ (forall e, fst (collection_query_embeddings st self [q] n db) = Raised e ->
                      r = None))
  /\ (forall w n db, exists r db',
        search_by_metadata st self w n db = (Returned r, db')
        /\ (forall e, fst (collection_query_where st self w n db) = Raised e ->
                      r = None))
  /\ (forall ids db, exists b db',
        delete_embeddings st self ids db = (Returned b, db')
        /\ (forall e, fst (collection_delete st self ids db) = Raised e ->
                      b = false))
  /\ (forall db, exists d db',
        get_collection_info st self db = (Returned d, db')
        /\ (forall e, fst (collection_count st self db) = Raised e -> d = [])).
Proof.
  repeat split.
  - intros data db. destruct data as [|r data].
    + exists false, db. split; [reflexivity|]. intros e Hne. contradiction.
    + unfold save_embeddings. cbn [truthy_list negb].
      destruct (try_except_const (save_embeddings_try st self (r :: data)) false db)
        as (a & db' & Heq & _ & Hfail).
      exists a, db'. split; [exact Heq|]. intros e _ He. exact (Hfail e He).
  - intros q n db. unfold search_similar_frames.
    match goal with |- context [try_except ?b _] =>
      destruct (try_except_const b None db) as (a & db' & Heq & _ & Hfail) end.
    exists a, db'. split; [exact Heq|].
    intros e He. apply (Hfail e). now apply bind_raised.
  - intros w n db. unfold search_by_metadata.
    match goal with |- context [try_except ?b _] =>
      destruct (try_except_const b None db) as (a & db' & Heq & _ & Hfail) end.
    exists a, db'. split; [exact Heq|].
    intros e He. apply (Hfail e). now apply bind_raised.
  - intros ids db. unfold delete_embeddings.
    match goal with |- context [try_except ?b _] =>
      destruct (try_except_const b false db) as (a & db' & Heq & _ & Hfail) end.
    exists a, db'. split; [exact Heq|].
    intros e He. apply (Hfail e). now apply bind_raised.
  - intros db. unfold get_collection_info.
    match goal with |- context [try_except ?b _] =>
      destruct (try_except_const b (@nil (string * value)) db)
        as (a & db' & Heq & _ & Hfail) end.
    exists a, db'. split; [exact Heq|].
    intros e He. apply (Hfail e). now apply bind_raised.
Qed.

End StoreAdapter.

(** C6, as stated, fails: when the store is down, inserting one record
    returns the very [False] that inserting nothing returns, so the result
    does not tell the two apart. *)
Lemma empty_insert_not_told_apart :
  ~ (forall (DB : Type) (st : chromadb_manager.Store DB)
            (self : chromadb_manager.ChromaDBManager)
            (data : list clip_embeddings.FrameRecord) (db : DB) (e : Py.exn),
        data <> [] ->
        fst (chromadb_manager.save_embeddings_try st self data db) = Py.Raised e ->
        fst (chromadb_manager.save_embeddings st self [] db)
        <> fst (chromadb_manager.save_embeddings st self data db)).
Proof.
  intros H.
  specialize (H unit Samples.store_down Samples.manager [Samples.record0] tt
                (Py.Exception "store down") ltac:(discriminate) eq_refl).
  apply H. reflexivity.
Qed.

(** The empty insert and a failing insert on a store that is down. *)
Lemma save_embeddings_empty_is_false_witness :
  chromadb_manager.save_embeddings Samples.store_down Samples.manager [] tt
  = (Py.Returned false, tt)
  /\ fst (chromadb_manager.save_embeddings Samples.store_down Samples.manager
            [Samples.record0] tt) = Py.Returned false.
Proof.
  destruct (save_embeddings_empty_is_false Samples.store_down Samples.manager tt)
    as [Hempty Hfail].
  split; [exact Hempty|].
  apply (Hfail [Samples.record0] (Py.Exception "store down"));
    [discriminate | reflexivity].
Defined.

(** The entry points on a store that is down. *)
Lemma adapter_entry_points_catch_store_errors_witness :
  fst (chromadb_manager.save_embeddings Samples.store_down Samples.manager
         [Samples.record0] tt) = Py.Returned false
  /\ fst (chromadb_manager.search_similar_frames Samples.store_down
            Samples.manager [1%float] 5 tt) = Py.Returned None
  /\ fst (chromadb_manager.delete_embeddings Samples.store_down Samples.manager
            ["scene_0_frame_0_sample_0"] tt) = Py.Returned false
  /\ fst (chromadb_manager.get_collection_info Samples.store_down
            Samples.manager tt) = Py.Returned [].
Proof.
  destruct (adapter_entry_points_catch_store_errors
              Samples.store_down Samples.manager)
    as (Hsave & Hsearch & _ & Hdel & Hinfo).
  split; [|split; [|split]].
  - destruct (Hsave [Samples.record0] tt) as (b & db' & Heq & Hb).
    rewrite Heq. simpl. f_equal.
    apply (Hb (Py.Exception "store down")); [discriminate | reflexivity].
  - destruct (Hsearch [1%float] 5 tt) as (r & db' & Heq & Hr).
    rewrite Heq. simpl. f_equal.
    apply (Hr (Py.Exception "store down")). reflexivity.
  - destruct (Hdel ["scene_0_frame_0_sample_0"] tt) as (b & db' & Heq & Hb).
    rewrite Heq. simpl. f_equal.
    apply (Hb (Py.Exception "store down")). reflexivity.
  - destruct (Hinfo tt) as (d & db' & Heq & Hd).
    rewrite Heq. simpl. f_equal.
    apply (Hd (Py.Exception "store down")). reflexivity.
Defined.

(** ** Processing one video *)

Section OneVideo.
Import Py External clip_embeddings chromadb_manager main.
Context {DB Frame : Type} (env : VideoEnv Frame) (st : Store DB).

(** [save_embeddings] returns [True] only after [collection.add] returned. *)
Lemma save_embeddings_true (self : ChromaDBManager) (data : list FrameRecord)
    (db db' : DB) :
  save_embeddings st self data db = (Returned true, db') ->
  exists db1 db2,
    collection_add st self (map id data) (map embedding data)
      (map metadata data) db1 = (Returned tt, db2).
Proof.
  unfold save_embeddings. destruct data as [|r data]; [discriminate|].
  cbn [truthy_list negb]. unfold try_except, save_embeddings_try, bind, ret.
  destruct (collection_count st self db) as [[c|e] db1]; [|discriminate].
  destruct (collection_add st self _ _ _ db1) as [[[]|e] db2] eqn:Hadd;
    [|discriminate].
  intros _. exists db1, db2. exact Hadd.
Qed.

(** Every call returns, and returns one of the two shapes. *)
Lemma process_video_shape (video_path db_path collection_name : string) (db : DB) :
  exists r db',
    process_video_to_chromadb env st video_path db_path collection_name db
    = (Returned r, db')
    /\ outcome_for env st video_path r.
Proof.
  unfold outcome_for.
  unfold process_video_to_chromadb, try_except, process_video_try.
  destruct (path_exists env video_path) eqn:Hex; cbn [negb].
  2:{ do 2 eexists. split; [reflexivity|]. left. eexists. reflexivity. }
  unfold bind at 1.
  destruct (__init__ st db_path collection_name db) as [[self|e] db1].
  2:{ do 2 eexists. split; [reflexivity|]. left. eexists. reflexivity. }
  unfold bind at 1, lift.
  destruct (process_video_embeddings env video_path) as [data|e] eqn:Hdata.
  2:{ do 2 eexists. split; [reflexivity|]. left. eexists. reflexivity. }
  destruct data as [|rec data]; cbn [truthy_list negb].
  { do 2 eexists. split; [reflexivity|]. left. eexists. reflexivity. }
  unfold bind at 1.
  destruct (save_embeddings st self (rec :: data) db1) as [[[|]|e] db2] eqn:Hsave;
    cbn [negb].
  - unfold bind.
    destruct (get_collection_info st self db2) as [[info|e] db3].
    + do 2 eexists. split; [reflexivity|]. right.
      exists (rec :: data), info, self, db1, db2.
      split; [reflexivity|]. split; [unfold len; simpl List.length; lia|].
      repeat split; assumption.
    + do 2 eexists. split; [reflexivity|]. left. eexists. reflexivity.
  - do 2 eexists. split; [reflexivity|]. left. eexists. reflexivity.
  - do 2 eexists. split; [reflexivity|]. left. eexists. reflexivity.
Qed.

(** Without its console output [process_video_to_chromadb] always returns,
    and what it returns is a dict with exactly the five keys success,
    video_path, embeddings_count, error and collection_info, in which
    either success is [True], error is [None] and the count is positive,
    or success is [False], error holds a message and the count is 0. *)
Lemma silent_result_invariant
    (video_path db_path collection_name : string) (db : DB) :
  exists r db',
    process_video_to_chromadb env st video_path db_path collection_name db
    = (Returned r, db')
    /\ keys r = ["success"; "video_path"; "embeddings_count"; "error";
                 "collection_info"]
    /\ dict_lookup "video_path" r = Some (VStr video_path)
    /\ exists (success : bool) (count : Z) (error : value) (info : dict),
         dict_lookup "success" r = Some (VBool success)
         /\ dict_lookup "embeddings_count" r = Some (VInt count)
         /\ dict_lookup "error" r = Some error
         /\ dict_lookup "collection_info" r = Some (VDict info)
         /\ ((success = true /\ error = VNone /\ 0 < count)
             \/ (success = false /\ (exists msg, error = VStr msg) /\ count = 0)).
Proof.
  destruct (process_video_shape video_path db_path collection_name db)
    as (r & db' & Hrun & [[msg ->]|(data & info & _ & _ & _ & -> & Hpos & _)]).
  - exists (failure_result video_path msg), db'.
    split; [exact Hrun|]. split; [reflexivity|]. split; [reflexivity|].
    exists false, 0, (VStr msg), [].
    repeat split. right. repeat split. now exists msg.
  - exists (success_result video_path (len data) info), db'.
    split; [exact Hrun|]. split; [reflexivity|]. split; [reflexivity|].
    exists true, (len data), VNone, info.
    repeat split. left. repeat split. exact Hpos.
Qed.

End OneVideo.

(** ** The batch *)

Section Batch.
Import Py External clip_embeddings chromadb_manager main.
Context {DB Frame : Type} (env : VideoEnv Frame) (st : Store DB).
Context (db_path collection_name : string).












End Batch.


(** ** Strings: decimal numerals, separators, paths *)

Section StringFacts.
Import Py.

Lemma uint_no_separator (c : ascii) (d : uint) :
  separator c -> has_char c (NilEmpty.string_of_uint d) = false.
Proof.
  intros [-> | ->]; induction d; simpl; auto.
Qed.

Lemma str_int_no_separator (c : ascii) (n : Z) :
  separator c -> has_char c (str_int n) = false.
Proof.
  intros Hc. unfold str_int.
  assert (Hu : forall d, has_char c (NilZero.string_of_uint d) = false).
  { intros d. pose proof (uint_no_separator c d Hc) as H.
    destruct d; try exact H. destruct Hc as [-> | ->]; reflexivity. }
  destruct n as [|p|p]; simpl.
  - destruct Hc as [-> | ->]; reflexivity.
  - apply Hu.
  - rewrite Hu. destruct Hc as [-> | ->]; reflexivity.
Qed.

Lemma str_int_nonempty (n : Z) : exists c s, str_int n = String c s.
Proof.
  unfold str_int.
  assert (Hu : forall d, exists c s, NilZero.string_of_uint d = String c s)
    by (intros d; destruct d; simpl; eauto).
  destruct n as [|p|p]; simpl; eauto.
Qed.

Lemma str_int_inj (a b : Z) : str_int a = str_int b -> a = b.
Proof.
  unfold str_int. intros H.
  assert (Hn : forall z, Z.to_int z <> Pos Nil /\ Z.to_int z <> Neg Nil).
  { intros z. destruct z as [|p|p]; simpl; split; try discriminate;
      intros E; injection E as E; exact (DecimalPos.Unsigned.to_uint_nonnil p E). }
  apply DecimalZ.to_int_inj.
  pose proof (NilZero.isi (Z.to_int a) (proj1 (Hn a)) (proj2 (Hn a))) as Ha.
  pose proof (NilZero.isi (Z.to_int b) (proj1 (Hn b)) (proj2 (Hn b))) as Hb.
  rewrite H in Ha. rewrite Ha in Hb. now injection Hb.
Qed.

(** Two texts free of a separator that are followed by it end at the same
    place. *)
Lemma split_at_separator (c : ascii) (a a' r r' : string) :
  has_char c a = false -> has_char c a' = false ->
  (a ++ String c r)%string = (a' ++ String c r')%string ->
  a = a' /\ r = r'.
Proof.
  revert a'. induction a as [|x a IH]; intros [|x' a'] Ha Ha' H; simpl in *.
  - injection H as <-. now split.
  - injection H as <- _. rewrite Ascii.eqb_refl in Ha'. discriminate.
  - injection H as -> _. rewrite Ascii.eqb_refl in Ha. discriminate.
  - injection H as <- H.
    destruct (Ascii.eqb x c); [discriminate|].
    destruct (IH a' Ha Ha' H) as [-> ->]. now split.
Qed.

Lemma replace_char_no_old (old new : ascii) (s : string) :
  old <> new -> has_char old (replace_char old new s) = false.
Proof.
  intros Hne. induction s as [|x s IH]; simpl; [reflexivity|].
  destruct (Ascii.eqb x old) eqn:E.
  - destruct (Ascii.eqb new old) eqn:E'; [|exact IH].
    apply Ascii.eqb_eq in E'. congruence.
  - rewrite E. exact IH.
Qed.

Lemma replace_char_keeps_absent (c old new : ascii) (s : string) :
  c <> new -> has_char c s = false ->
  has_char c (replace_char old new s) = false.
Proof.
  intros Hne. induction s as [|x s IH]; simpl; [reflexivity|].
  destruct (Ascii.eqb x c) eqn:E; [discriminate|]. intros H.
  destruct (Ascii.eqb x old).
  - destruct (Ascii.eqb new c) eqn:E'; [|auto].
    apply Ascii.eqb_eq in E'. congruence.
  - rewrite E. auto.
Qed.

Lemma no_slash_not_ending (s : string) :
  has_char slash s = false -> ends_with_slash s = false.
Proof.
  induction s as [|x s IH]; simpl; [reflexivity|].
  destruct (Ascii.eqb x slash) eqn:E; [discriminate|].
  intros H. destruct s; [reflexivity | auto].
Qed.

Lemma ends_with_slash_app (a : string) (c : ascii) (s : string) :
  ends_with_slash (a ++ String c s)%string = ends_with_slash (String c s).
Proof.
  induction a as [|x a IH]; [reflexivity|].
  change ((String x a ++ String c s)%string) with (String x (a ++ String c s)%string).
  destruct a; exact IH.
Qed.

(** Joining a directory that does not end in '/' with a relative name. *)
Lemma path_join_relative (a : string) (c : ascii) (s : string) :
  a <> "" -> ends_with_slash a = false -> Ascii.eqb c slash = false ->
  path_join a (String c s) = (a ++ "/" ++ String c s)%string.
Proof.
  intros Ha He Hc. unfold path_join. rewrite Hc, He.
  destruct (String.eqb a "") eqn:E; [|reflexivity].
  apply String.eqb_eq in E. contradiction.
Qed.

End StringFacts.

(** ** Frame identities *)

Section FrameIds.
Import Py External clip_embeddings.

Lemma append_cancel_l (l x y : string) :
  (l ++ x)%string = (l ++ y)%string -> x = y.
Proof.
  induction l as [|c l IH]; simpl; intros H; [exact H|].
  injection H as H. exact (IH H).
Qed.

Lemma frame_id_format (a b c : Z) :
  frame_id a b c
  = ("scene_" ++ str_int a ++ "_frame_" ++ str_int b ++ "_sample_"
       ++ str_int c)%string.
Proof.
  unfold frame_id, fstring. cbn [fold_right render].
  now rewrite append_empty_r.
Qed.

(** Distinct (scene, frame, sample) triples have distinct ids. *)
Lemma frame_id_inj (a b c a' b' c' : Z) :
  frame_id a b c = frame_id a' b' c' -> a = a' /\ b = b' /\ c = c'.
Proof.
  rewrite !frame_id_format. intros H.
  apply append_cancel_l in H.
  assert (Hsep : separator "_"%char) by now left.
  change ("_frame_" ++ ?x)%string with (String "_" ("frame_" ++ x)) in H.
  apply split_at_separator in H; try now apply str_int_no_separator.
  destruct H as [Ha H]. apply str_int_inj in Ha.
  apply append_cancel_l in H.
  change ("_sample_" ++ ?x)%string with (String "_" ("sample_" ++ x)) in H.
  apply split_at_separator in H; try now apply str_int_no_separator.
  destruct H as [Hb H]. apply str_int_inj in Hb.
  apply append_cancel_l in H. apply str_int_inj in H.
  now repeat split.
Qed.

Lemma ofor_each_enumerate_inv {A X} (I : Z -> A -> Prop)
    (body : A -> Z * X -> outcome A) :
  (forall i acc x acc',
      I i acc -> body acc (i, x) = Returned acc' -> I (i + 1) acc') ->
  forall (xs : list X) (i : Z) (acc acc' : A),
    I i acc ->
    ofor_each (enumerate_from i xs) body acc = Returned acc' ->
    I (i + len xs) acc'.
Proof.
  intros Hstep xs. induction xs as [|x xs IH]; intros i acc acc' Hi Hrun.
  - simpl in Hrun. injection Hrun as <-. unfold len. simpl.
    now rewrite Z.add_0_r.
  - cbn [enumerate_from ofor_each] in Hrun.
    destruct (body acc (i, x)) as [acc1|e] eqn:Hb; [|discriminate Hrun].
    cbn [obind] in Hrun.
    replace (i + len (x :: xs)) with (i + 1 + len xs)
      by (unfold len; simpl List.length; lia).
    eapply IH; [|exact Hrun]. eapply Hstep; eassumption.
Qed.

Context {Frame : Type} (env : VideoEnv Frame) (video_path : string).

Local Abbreviation J si fi acc := (made_so_far video_path si fi acc).

Lemma embed_frame_inv (si fi sample : Z) (acc acc' : list FrameRecord) :
  J si fi acc ->
  embed_frame env video_path si acc (fi, sample) = Returned acc' ->
  J si (fi + 1) acc'.
Proof.
  intros (Htag & Hnd & Hbef) Hrun.
  assert (Hweak : Forall (before si (fi + 1)) acc).
  { eapply Forall_impl; [|exact Hbef].
    intros r [H|[H1 H2]]; [now left | right; split; [assumption | lia]]. }
  unfold embed_frame in Hrun.
  destruct (cap_read env video_path sample) as [[frame|]|e];
    cbn [obind] in Hrun; [| |discriminate Hrun].
  2:{ injection Hrun as <-. now repeat split. }
  destruct (get_clip_embeddings env frame) as [emb|e];
    cbn [obind] in Hrun; [|discriminate Hrun].
  injection Hrun as <-. repeat split.
  - apply Forall_app. split; [assumption|].
    constructor; [|constructor]. now repeat split.
  - rewrite map_app. cbn [map id].
    apply NoDup_app; [assumption | constructor; [intros [] | constructor] |].
    intros x Hin [Hx|[]]. apply in_map_iff in Hin.
    destruct Hin as (r & Hid & Hr).
    rewrite Forall_forall in Htag, Hbef.
    destruct (Htag r Hr) as (Hrid & _).
    rewrite <- Hx, Hrid in Hid. apply frame_id_inj in Hid.
    destruct Hid as (Hs & Hf & _).
    destruct (Hbef r Hr) as [H|[_ H]]; lia.
  - apply Forall_app. split; [assumption|].
    constructor; [|constructor]. right. cbn. lia.
Qed.

Lemma embed_scene_inv (si : Z) (samples : list Z) (acc acc' : list FrameRecord) :
  J si 0 acc ->
  embed_scene env video_path acc (si, samples) = Returned acc' ->
  J (si + 1) 0 acc'.
Proof.
  intros HJ Hrun. unfold embed_scene, enumerate in Hrun.
  pose proof (ofor_each_enumerate_inv
                (fun fi acc => J si fi acc)
                (embed_frame env video_path si)) as Hinv.
  specialize (Hinv (fun i a x a' H => embed_frame_inv si i x a a' H)
                   samples 0 acc acc' HJ Hrun).
  destruct Hinv as (Htag & Hnd & Hbef). repeat split; try assumption.
  eapply Forall_impl; [|exact Hbef].
  intros r [H|[H _]]; left; lia.
Qed.

(** Every record the indexer returns is tagged with its own position, and
    no two records of one run share an id. *)
Lemma records_tagged_and_distinct (recs : list FrameRecord) :
  process_video_embeddings env video_path = Returned recs ->
  Forall (tagged video_path) recs /\ NoDup (map id recs).
Proof.
  unfold process_video_embeddings.
  destruct (negb (path_exists env video_path)).
  { intros H. injection H as <-. split; constructor. }
  destruct (negb (cap_isOpened env video_path)).
  { intros H. injection H as <-. split; constructor. }
  destruct (detect_with_fallback env video_path) as [[sfs|]|e];
    cbn [obind]; [| |discriminate].
  2:{ intros H. injection H as <-. split; constructor. }
  unfold embed_scenes, enumerate. intros Hrun.
  pose proof (ofor_each_enumerate_inv
                (fun si acc => J si 0 acc)
                (embed_scene env video_path)) as Hinv.
  specialize (Hinv (fun i a x a' H => embed_scene_inv i x a a' H)
                   sfs 0 [] recs).
  destruct Hinv as (Htag & Hnd & _); [|exact Hrun|now split].
  repeat split; constructor.
Qed.

(** C4: the id of a frame is the text scene_<scene>_frame_<frame>_sample_<sample>
    with the three integers in decimal; it is a function of the three
    integers alone, defined for all of them, and every record the indexer
    returns carries the id built from its own scene index, frame index and
    frame number. *)
Theorem frame_id_is_the_documented_text :
  (forall a b c : Z,
      frame_id a b c
      = ("scene_" ++ str_int a ++ "_frame_" ++ str_int b ++ "_sample_"
           ++ str_int c)%string)
  /\ (forall a b c a' b' c' : Z,
        a = a' -> b = b' -> c = c' -> frame_id a b c = frame_id a' b' c')
  /\ (forall recs r,
        process_video_embeddings env video_path = Returned recs ->
        In r recs ->
        id r = frame_id (scene_idx (metadata r)) (frame_idx (metadata r))
                 (frame_sample (metadata r))).
Proof.
  split; [exact frame_id_format|]. split.
  - intros a b c a' b' c' -> -> ->. reflexivity.
  - intros recs r Hrun Hin.
    destruct (records_tagged_and_distinct recs Hrun) as [Htag _].
    rewrite Forall_forall in Htag. exact (proj1 (Htag r Hin)).
Qed.

End FrameIds.

(** The ids of the three frames sampled from the first sample video. *)
Lemma frame_id_is_the_documented_text_witness :
  clip_embeddings.frame_id 0 1 30 = "scene_0_frame_1_sample_30"
  /\ clip_embeddings.frame_id 2 0 30 = clip_embeddings.frame_id 2 0 30
  /\ exists recs,
       clip_embeddings.process_video_embeddings Samples.env_two_videos
         Samples.video_a = Py.Returned recs
       /\ map clip_embeddings.id recs
          = ["scene_0_frame_0_sample_0"; "scene_0_frame_1_sample_30";
             "scene_0_frame_2_sample_60"]
       /\ forall r, In r recs ->
            clip_embeddings.id r
            = clip_embeddings.frame_id
                (clip_embeddings.scene_idx (clip_embeddings.metadata r))
                (clip_embeddings.frame_idx (clip_embeddings.metadata r))
                (clip_embeddings.frame_sample (clip_embeddings.metadata r)).
Proof.
  destruct (frame_id_is_the_documented_text Samples.env_two_videos
              Samples.video_a) as (Hfmt & Hdet & Hrec).
  split; [rewrite Hfmt; reflexivity|].
  split; [apply Hdet; reflexivity|].
  eexists. split; [vm_compute; reflexivity|].
  split; [reflexivity|].
  intros r Hin. eapply Hrec; [vm_compute; reflexivity | exact Hin].
Defined.

(** C3: indexing the two sample videos into one collection.  Both have one
    scene from frame 0 to frame 90, so both runs produce the ids
    scene_0_frame_0_sample_0, scene_0_frame_1_sample_30 and
    scene_0_frame_2_sample_60: records of different videos that are
    different records share their ids, and the collection is handed every
    id twice. *)
Theorem two_videos_share_their_ids :
  exists ra rb db,
    clip_embeddings.process_video_embeddings Samples.env_two_videos
      Samples.video_a = Py.Returned ra
    /\ clip_embeddings.process_video_embeddings Samples.env_two_videos
         Samples.video_b = Py.Returned rb
    /\ map clip_embeddings.id ra
       = ["scene_0_frame_0_sample_0"; "scene_0_frame_1_sample_30";
          "scene_0_frame_2_sample_60"]
    /\ map clip_embeddings.id rb = map clip_embeddings.id ra
    /\ (forall x y, In x ra -> In y rb -> x <> y)
    /\ snd (main.process_multiple_videos Samples.env_two_videos
              Samples.store_log [Samples.video_a; Samples.video_b]
              "./chroma_db" "video_embeddings" []) = db
    /\ map fst (Samples.log_of Samples.manager db)
       = (map clip_embeddings.id ra ++ map clip_embeddings.id rb)%list
    /\ ~ NoDup (map fst (Samples.log_of Samples.manager db)).
Proof.
  do 3 eexists.
  split; [vm_compute; reflexivity|].
  split; [vm_compute; reflexivity|].
  split; [reflexivity|]. split; [reflexivity|].
  split.
  { intros x y Hx Hy. simpl in Hx, Hy.
    destruct Hx as [<-|[<-|[<-|[]]]]; destruct Hy as [<-|[<-|[<-|[]]]];
      discriminate. }
  split; [vm_compute; reflexivity|].
  split; [reflexivity|].
  intros Hnd. apply NoDup_cons_iff in Hnd. destruct Hnd as [Hnotin _].
  apply Hnotin. simpl. tauto.
Qed.

(** ** Saving the matched frames *)

Section MatchedFrames.
Import Py External clip_embeddings chromadb_manager text_search.
Context {DB FS Frame : Type} (env : VideoEnv Frame) (st : Store DB)
        (disk : Disk FS Frame).

Lemma append_assoc (a b c : string) :
  ((a ++ b) ++ c)%string = (a ++ (b ++ c))%string.
Proof. induction a as [|x a IH]; simpl; [reflexivity | now rewrite IH]. Qed.

Lemma sanitize_shape (text_query : string) :
  text_query <> "" ->
  has_char slash (sanitize text_query) = false
  /\ exists c s, sanitize text_query = String c s /\ Ascii.eqb c slash = false.
Proof.
  intros Hne.
  assert (Hno : has_char slash (sanitize text_query) = false).
  { unfold sanitize. apply replace_char_keeps_absent; [discriminate|].
    apply replace_char_no_old. discriminate. }
  split; [exact Hno|].
  destruct text_query as [|x q]; [contradiction|].
  unfold sanitize in *. cbn [replace_char] in *.
  do 2 eexists. split; [reflexivity|].
  cbn [has_char] in Hno.
  match type of Hno with
  | (if ?b then _ else _) = _ => destruct b; [discriminate | reflexivity]
  end.
Qed.

Lemma fmt_02d_shape (n : Z) :
  exists c s, fmt_02d n = String c s /\ Ascii.eqb c slash = false.
Proof.
  unfold fmt_02d.
  destruct ((0 <=? n) && (n <? 10)); [do 2 eexists; split; reflexivity|].
  destruct (str_int_nonempty n) as (c & s & Heq).
  pose proof (str_int_no_separator slash n (or_intror eq_refl)) as Hno.
  rewrite Heq in *. exists c, s. split; [reflexivity|].
  cbn [has_char] in Hno.
  destruct (Ascii.eqb c slash); [discriminate | reflexivity].
Qed.


(** The path of an image: the directory of the query, then the name. *)
Lemma image_path (text_query : string) (i : Z) (frame_id : string)
    (distance : float) :
  path_join (output_dir_of text_query) (filename i frame_id distance)
  = image_name text_query i frame_id distance.
Proof.
  destruct (fmt_02d_shape (i + 1)) as (c' & s' & Hfmt & Hc').
  assert (Hname : filename i frame_id distance
                  = (fmt_02d (i + 1) ++ "_" ++ frame_id ++ "_similarity_"
                       ++ fmt_3f (1 - distance) ++ ".jpg")%string).
  { unfold filename, fstring. cbn [fold_right render].
    now rewrite append_empty_r. }
  rewrite Hname. unfold image_name, output_dir_of.
  destruct (String.eqb text_query "") eqn:E.
  - apply String.eqb_eq in E. subst text_query.
    change (path_join "matched_imgs" (sanitize "")) with "matched_imgs/".
    change (sanitize "") with "". rewrite Hfmt.
    change ((String c' s' ++ ?x)%string) with (String c' (s' ++ x)%string).
    unfold path_join. rewrite Hc'. reflexivity.
  - apply String.eqb_neq in E.
    destruct (sanitize_shape text_query E) as (Hno & c & s & Hsq & Hc).
    rewrite Hsq in *. rewrite path_join_relative by (try discriminate; auto).
    rewrite Hfmt.
    change ((String c' s' ++ ?x)%string) with (String c' (s' ++ x)%string).
    rewrite path_join_relative.
    + rewrite !append_assoc. reflexivity.
    + discriminate.
    + change ("matched_imgs" ++ "/" ++ String c s)%string
        with ("matched_imgs/" ++ String c s)%string.
      rewrite ends_with_slash_app. now apply no_slash_not_ending.
    + exact Hc'.
Qed.




End MatchedFrames.


(* ================================================================= *)
(** * Further properties of the sampler and of the indexer *)

Section SamplerMore.
Import Py External scene_utils.

Context {Frame : Type} (env : VideoEnv Frame) (video_path : string).

(** Below 2^52 frames per scene the sampler that goes through a binary64
    and the sampler on exact quotients are one function. *)
Lemma sample_scenes_binary64_exact (n : Z) (scenes : list Scene)
    (acc : list (list Z)) :
  0 < n ->
  Forall (fun sc => Z.abs (scene_end sc - scene_start sc) < 2 ^ 52) scenes ->
  ofor_each scenes (scene_utils_binary64.sample_scene n) acc
  = ofor_each scenes (sample_scene n) acc.
Proof.
  intros Hn Hall. revert acc.
  induction Hall as [|sc scs Hsc _ IH]; intros acc; [reflexivity|].
  cbn [ofor_each].
  assert (Hstep : scene_utils_binary64.sample_scene n acc sc
                  = sample_scene n acc sc).
  { unfold scene_utils_binary64.sample_scene, sample_scene, round_div.
    unfold scene_start, scene_end in Hsc.
    rewrite round_true_div_exact by lia.
    destruct (n =? 0) eqn:E; [apply Z.eqb_eq in E; lia | reflexivity]. }
  rewrite Hstep. destruct (sample_scene n acc sc); cbn [obind];
    [apply IH | reflexivity].
Qed.

(** X1: for a positive sample count and scenes of fewer than 2^52 frames
    the sampler, with its stride computed through a binary64 as in the
    source, returns one list per detected scene, in the order of the
    scenes; each list is the scene start followed by two further frames
    one stride apart; the stride is the value of
    [round(scene_length/no_of_samples)], it is not negative, and the
    stride times the count differs from the scene length by at most half
    the count.  The sampler on exact quotients returns the same lists. *)
Theorem sampler_one_triple_per_scene (n : Z) (threshold : float)
    (scenes : list Scene) :
  0 < n ->
  Forall (fun sc => Z.abs (scene_end sc - scene_start sc) < 2 ^ 52) scenes ->
  sd_detect env video_path threshold = Returned scenes ->
  exists sfs,
    scene_utils_binary64.get_scene_frame_samples env video_path n threshold
    = Returned sfs
    /\ get_scene_frame_samples env video_path n threshold = Returned sfs
    /\ Forall2 (fun sc samples =>
                  exists stride,
                    samples = [scene_start sc; scene_start sc + stride;
                               scene_start sc + 2 * stride]
                    /\ round_true_div
                         (Z.abs (scene_start sc - scene_end sc)) n
                       = Returned stride
                    /\ 0 <= stride
                    /\ 2 * Z.abs (n * stride
                                  - Z.abs (scene_end sc - scene_start sc)) <= n)
               scenes sfs.
Proof.
  intros Hn Hall Hd.
  unfold scene_utils_binary64.get_scene_frame_samples,
    scene_utils_binary64.sample_scenes, get_scene_frame_samples,
    detect_scenes.
  rewrite Hd. cbn [obind].
  rewrite sample_scenes_binary64_exact by assumption.
  fold (sample_scenes scenes n). rewrite sample_scenes_spec by lia.
  eexists. split; [reflexivity|]. split; [reflexivity|].
  clear Hd. induction Hall as [|sc scs Hsc _ IH]; cbn [map]; [constructor|].
  constructor; [|exact IH].
  set (L := Z.abs (scene_start sc - scene_end sc)).
  assert (HL : 0 <= L < 2 ^ 52) by (unfold L; lia).
  exists (round_half_even L n). repeat split.
  - cbv zeta. fold L. do 2 f_equal; [lia | f_equal; lia].
  - apply round_true_div_exact; lia.
  - apply round_half_even_nonneg; lia.
  - replace (Z.abs (scene_end sc - scene_start sc)) with L by (unfold L; lia).
    now apply round_half_even_close.
Qed.

(** X2: with a sample count of 0 the sampler raises (a division by zero)
    exactly when the detector found a scene; without scenes it returns the
    empty list; an exception of the detector is passed on. *)
Theorem sampler_count_zero (threshold : float) :
  match sd_detect env video_path threshold with
  | Returned [] =>
      get_scene_frame_samples env video_path 0 threshold = Returned []
  | Returned (_ :: _) =>
      get_scene_frame_samples env video_path 0 threshold
      = Raised (Exception "division by zero")
  | Raised e =>
      forall n, get_scene_frame_samples env video_path n threshold = Raised e
  end.
Proof.
  unfold get_scene_frame_samples, detect_scenes.
  destruct (sd_detect env video_path threshold) as [[|sc scs]|e];
    reflexivity.
Qed.

End SamplerMore.

Section SamplerEnd.
Import Py External scene_utils.

(** X3: at the pipeline's count of 3 the samples of a scene with
    start < end rise from the start and stay before the end frame, except
    for a scene of length 2, whose last sample is the end frame itself. *)
Theorem count_three_reaches_end_only_at_length_two (s e : Z) :
  s < e ->
  exists a b,
    sample_scenes [scene_of s e] 3 = Returned [[s; a; b]]
    /\ s <= a <= b
    /\ b <= e
    /\ (b = e <-> e - s = 2).
Proof.
  intros Hlt. rewrite sample_scenes_spec by lia. cbn [map].
  change (scene_start (scene_of s e)) with s.
  change (scene_end (scene_of s e)) with e.
  set (L := Z.abs (s - e)). set (r := round_half_even L 3).
  assert (HL : L = e - s) by (unfold L; lia).
  pose proof (round_half_even_nonneg L 3 ltac:(lia) ltac:(lia)) as H0.
  pose proof (twice_round_le L 3 ltac:(lia) ltac:(lia)) as H2.
  pose proof (round_half_even_close L 3 ltac:(lia)) as Hc.
  fold r in H0, H2, Hc.
  exists (r + s), (r * 2 + s). split; [reflexivity|].
  repeat split; lia.
Qed.

Lemma count_three_reaches_end_only_at_length_two_witness :
  exists a b,
    scene_utils.sample_scenes [External.scene_of 10 12] 3
    = Py.Returned [[10; a; b]]
    /\ 10 <= a <= b /\ b <= 12 /\ (b = 12 <-> 12 - 10 = 2).
Proof.
  apply (count_three_reaches_end_only_at_length_two 10 12). lia.
Defined.

(** X27: for a scene with start <= end of fewer than 2^52 frames and
    every count of at least 1, the sampler (with the stride computed
    through a binary64 as in the source, or on the exact quotient) returns
    three samples, of which the first [min(count, 3)] lie within
    [start, end]: a sample outside the scene is one the loop makes beyond
    the count it was asked for. *)
Theorem requested_samples_within_scene (s e n : Z) :
  s <= e -> e - s < 2 ^ 52 -> 1 <= n ->
  exists a b,
    scene_utils_binary64.sample_scenes [scene_of s e] n
    = Returned [[s; a; b]]
    /\ sample_scenes [scene_of s e] n = Returned [[s; a; b]]
    /\ forall f, In f (firstn (Z.to_nat n) [s; a; b]) -> s <= f <= e.
Proof.
  intros Hse Hbound Hn.
  unfold scene_utils_binary64.sample_scenes.
  rewrite sample_scenes_binary64_exact;
    [| lia
     | constructor; [|constructor];
       change (scene_end (scene_of s e)) with e;
       change (scene_start (scene_of s e)) with s; lia].
  fold (sample_scenes [scene_of s e] n).
  rewrite sample_scenes_spec by lia. cbn [map].
  change (scene_start (scene_of s e)) with s.
  change (scene_end (scene_of s e)) with e.
  set (L := Z.abs (s - e)). set (r := round_half_even L n).
  assert (HL : L = e - s) by (unfold L; lia).
  pose proof (round_half_even_nonneg L n ltac:(lia) ltac:(lia)) as H0.
  pose proof (round_half_even_close L n ltac:(lia)) as Hc.
  fold r in H0, Hc.
  exists (r + s), (r * 2 + s). split; [reflexivity|].
  split; [reflexivity|].
  destruct (Z.to_nat n) as [|[|[|k]]] eqn:E; cbn [firstn].
  - lia.
  - intros f [<-|[]]. lia.
  - assert (n = 2) by lia. subst n. intros f [<-|[<-|[]]]; lia.
  - pose proof (twice_round_le L n ltac:(lia) ltac:(lia)) as H2.
    fold r in H2. rewrite firstn_nil. intros f [<-|[<-|[<-|[]]]]; lia.
Qed.

Lemma requested_samples_within_scene_witness :
  exists a b,
    scene_utils_binary64.sample_scenes [External.scene_of 0 3] 2
    = Py.Returned [[0; a; b]]
    /\ scene_utils.sample_scenes [External.scene_of 0 3] 2
       = Py.Returned [[0; a; b]]
    /\ forall f, In f (firstn 2 [0; a; b]) -> 0 <= f <= 3.
Proof.
  apply (requested_samples_within_scene 0 3 2); lia.
Defined.

End SamplerEnd.

(** One scene of 90 frames found at the threshold 5.0, sampled twice. *)
Lemma sampler_one_triple_per_scene_witness :
  exists sfs,
    scene_utils_binary64.get_scene_frame_samples Samples.env_two_videos
      Samples.video_a 2 5%float = Py.Returned sfs
    /\ scene_utils.get_scene_frame_samples Samples.env_two_videos
         Samples.video_a 2 5%float = Py.Returned sfs
    /\ Forall2 (fun sc samples =>
                  exists stride,
                    samples = [External.scene_start sc;
                               External.scene_start sc + stride;
                               External.scene_start sc + 2 * stride]
                    /\ Py.round_true_div
                         (Z.abs (External.scene_start sc
                                 - External.scene_end sc)) 2
                       = Py.Returned stride
                    /\ 0 <= stride
                    /\ 2 * Z.abs (2 * stride
                                  - Z.abs (External.scene_end sc
                                           - External.scene_start sc)) <= 2)
               [External.scene_of 0 90] sfs.
Proof.
  apply (sampler_one_triple_per_scene Samples.env_two_videos Samples.video_a
           2 5%float [External.scene_of 0 90]);
    [lia | repeat constructor | reflexivity].
Defined.

Section IndexerMore.
Import Py External scene_utils clip_embeddings indexer.
Context {Frame : Type} (env : VideoEnv Frame) (video_path : string).

Lemma embed_frames_positions (si : Z) (samples : list Z) :
  forall (fi : Z) (acc acc' : list FrameRecord),
    ofor_each (enumerate_from fi samples) (embed_frame env video_path si) acc
    = Returned acc' ->
    map position acc'
    = (map position acc ++ readable_in_scene env video_path si fi samples)%list.
Proof.
  induction samples as [|s samples IH]; intros fi acc acc' Hrun.
  - simpl in Hrun. injection Hrun as <-. unfold readable_in_scene. simpl.
    now rewrite app_nil_r.
  - cbn [enumerate_from ofor_each] in Hrun.
    unfold readable_in_scene. cbn [enumerate_from flat_map fst snd].
    fold (readable_in_scene env video_path si (fi + 1) samples).
    unfold embed_frame at 1 in Hrun.
    destruct (cap_read env video_path s) as [[frame|]|e];
      cbn [obind] in Hrun; [| |discriminate Hrun].
    + destruct (get_clip_embeddings env frame) as [emb|e];
        cbn [obind] in Hrun; [|discriminate Hrun].
      rewrite (IH _ _ _ Hrun), map_app, <- app_assoc. reflexivity.
    + rewrite (IH _ _ _ Hrun). reflexivity.
Qed.

Lemma embed_scenes_positions (sfs : list (list Z)) :
  forall (si : Z) (acc acc' : list FrameRecord),
    ofor_each (enumerate_from si sfs) (embed_scene env video_path) acc
    = Returned acc' ->
    map position acc'
    = (map position acc ++ readable_positions env video_path si sfs)%list.
Proof.
  induction sfs as [|samples sfs IH]; intros si acc acc' Hrun.
  - simpl in Hrun. injection Hrun as <-. unfold readable_positions. simpl.
    now rewrite app_nil_r.
  - cbn [enumerate_from ofor_each] in Hrun.
    unfold readable_positions. cbn [enumerate_from flat_map fst snd].
    fold (readable_positions env video_path (si + 1) sfs).
    destruct (embed_scene env video_path acc (si, samples)) as [acc1|e] eqn:Hs;
      cbn [obind] in Hrun; [|discriminate Hrun].
    unfold embed_scene, enumerate in Hs.
    rewrite (IH _ _ _ Hrun), (embed_frames_positions _ _ _ _ _ Hs), <- app_assoc.
    reflexivity.
Qed.

Lemma readable_in_scene_length (si fi : Z) (samples : list Z) :
  (List.length (readable_in_scene env video_path si fi samples)
   <= List.length samples)%nat.
Proof.
  revert fi. induction samples as [|s samples IH]; intros fi; [apply le_n|].
  unfold readable_in_scene. cbn [enumerate_from flat_map fst snd].
  fold (readable_in_scene env video_path si (fi + 1) samples).
  rewrite length_app. specialize (IH (fi + 1)).
  destruct (cap_read env video_path s) as [[frame|]|e]; simpl; lia.
Qed.

Lemma in_readable_in_scene (si : Z) (samples : list Z) :
  forall (fi a b c : Z),
    In (a, b, c) (readable_in_scene env video_path si fi samples) ->
    a = si /\ fi <= b
    /\ nth_error samples (Z.to_nat (b - fi)) = Some c
    /\ exists frame, cap_read env video_path c = Returned (Some frame).
Proof.
  induction samples as [|s samples IH]; intros fi a b c Hin; [destruct Hin|].
  unfold readable_in_scene in Hin. cbn [enumerate_from flat_map fst snd] in Hin.
  fold (readable_in_scene env video_path si (fi + 1) samples) in Hin.
  apply in_app_or in Hin. destruct Hin as [Hin|Hin].
  - destruct (cap_read env video_path s) as [[frame|]|e] eqn:Hr;
      try (destruct Hin; fail).
    destruct Hin as [Heq|[]]. injection Heq as <- <- <-.
    repeat split; [lia | now rewrite Z.sub_diag | now exists frame].
  - destruct (IH _ _ _ _ Hin) as (Ha & Hb & Hn & Hf).
    repeat split; [exact Ha | lia | | exact Hf].
    replace (Z.to_nat (b - fi)) with (S (Z.to_nat (b - (fi + 1)))) by lia.
    exact Hn.
Qed.

Lemma in_readable_positions (sfs : list (list Z)) :
  forall (si a b c : Z),
    In (a, b, c) (readable_positions env video_path si sfs) ->
    si <= a /\ 0 <= b
    /\ exists samples,
         nth_error sfs (Z.to_nat (a - si)) = Some samples
         /\ nth_error samples (Z.to_nat b) = Some c.
Proof.
  induction sfs as [|samples sfs IH]; intros si a b c Hin; [destruct Hin|].
  unfold readable_positions in Hin. cbn [enumerate_from flat_map fst snd] in Hin.
  fold (readable_positions env video_path (si + 1) sfs) in Hin.
  apply in_app_or in Hin. destruct Hin as [Hin|Hin].
  - apply in_readable_in_scene in Hin. destruct Hin as (-> & Hb & Hn & _).
    repeat split; [lia | exact Hb |]. exists samples.
    rewrite Z.sub_diag. rewrite Z.sub_0_r in Hn. now split.
  - destruct (IH _ _ _ _ Hin) as (Ha & Hb & smp & Hn & Hc).
    repeat split; [lia | exact Hb |]. exists smp. split; [|exact Hc].
    replace (Z.to_nat (a - si)) with (S (Z.to_nat (a - (si + 1)))) by lia.
    exact Hn.
Qed.

(** What the threshold loop leaves: nothing, or the samples of the scenes
    found at one of the thresholds. *)
Lemma try_thresholds_result (ths : list float) (s : list (list Z)) :
  snd (try_thresholds env video_path ths) = Returned s ->
  s = []
  \/ exists t scenes,
       In t ths /\ sd_detect env video_path t = Returned scenes
       /\ s = map (fun sc =>
                     let every_n :=
                       round_half_even
                         (Z.abs (scene_start sc - scene_end sc)) 3 in
                     [scene_start sc; every_n + scene_start sc;
                      every_n * 2 + scene_start sc]) scenes.
Proof.
  induction ths as [|t ths IH]; cbn [try_thresholds].
  - intros H. injection H as <-. now left.
  - unfold get_scene_frame_samples, detect_scenes.
    destruct (sd_detect env video_path t) as [scenes|e] eqn:Hd;
      cbn [obind]; [|discriminate].
    rewrite sample_scenes_spec by lia.
    destruct scenes as [|sc scenes]; cbn [map truthy_list].
    + destruct (try_thresholds env video_path ths) as [called r].
      cbn [snd] in *. intros H. destruct (IH H) as [->|(t' & scs & Hin & Ht' & ->)].
      * now left.
      * right. exists t', scs. repeat split; [now right | exact Ht'].
    + cbn [snd]. intros H. injection H as <-. right.
      exists t, (sc :: scenes). repeat split; [now left | exact Hd].
Qed.

Lemma detect_with_fallback_result (sfs : list (list Z)) :
  detect_with_fallback env video_path = Returned (Some sfs) ->
  (exists t scenes,
      In t thresholds /\ sd_detect env video_path t = Returned scenes
      /\ sfs = map (fun sc =>
                      let every_n :=
                        round_half_even
                          (Z.abs (scene_start sc - scene_end sc)) 3 in
                      [scene_start sc; every_n + scene_start sc;
                       every_n * 2 + scene_start sc]) scenes)
  \/ (0 < cap_frame_count env video_path
      /\ sfs = [[0; cap_frame_count env video_path / 3;
                 2 * cap_frame_count env video_path / 3]]).
Proof.
  unfold detect_with_fallback.
  destruct (snd (try_thresholds env video_path thresholds)) as [s|e] eqn:Ht;
    cbn [obind]; [|discriminate].
  destruct (try_thresholds_result thresholds s Ht) as [->|(t & scenes & Hin & Hd & ->)].
  - cbn [truthy_list]. unfold fallback_samples.
    destruct (0 <? cap_frame_count env video_path) eqn:HT; [|discriminate].
    apply Z.ltb_lt in HT. intros H. injection H as <-. right.
    split; [exact HT|].
    cbn [range seq map Z.of_nat Pos.of_succ_nat Pos.succ]. unfold int_div.
    rewrite Z.mul_0_r, Z.mul_1_r, (Z.mul_comm _ 2).
    rewrite !Z.quot_div_nonneg by lia. reflexivity.
  - destruct scenes as [|sc scenes]; cbn [map truthy_list].
    + unfold fallback_samples.
      destruct (0 <? cap_frame_count env video_path) eqn:HT; [|discriminate].
      apply Z.ltb_lt in HT. intros H. injection H as <-. right.
      split; [exact HT|].
      cbn [range seq map Z.of_nat Pos.of_succ_nat Pos.succ]. unfold int_div.
      rewrite Z.mul_0_r, Z.mul_1_r, (Z.mul_comm _ 2).
      rewrite !Z.quot_div_nonneg by lia. reflexivity.
    + intros H. injection H as <-. left. exists t, (sc :: scenes).
      repeat split; assumption.
Qed.

Lemma nth_error_triple {X} (x y z c : X) (n : nat) :
  nth_error [x; y; z] n = Some c ->
  (n < 3)%nat /\ (c = x \/ c = y \/ c = z).
Proof.
  destruct n as [|[|[|[|n]]]]; simpl; intros H;
    try discriminate H; injection H as <-; split; auto.
Qed.

(** The records of a run, read as positions. *)
Lemma process_positions (recs : list FrameRecord) :
  process_video_embeddings env video_path = Returned recs ->
  recs = []
  \/ exists sfs,
       detect_with_fallback env video_path = Returned (Some sfs)
       /\ map position recs = readable_positions env video_path 0 sfs.
Proof.
  unfold process_video_embeddings.
  destruct (negb (path_exists env video_path));
    [intros H; injection H as <-; now left|].
  destruct (negb (cap_isOpened env video_path));
    [intros H; injection H as <-; now left|].
  destruct (detect_with_fallback env video_path) as [[sfs|]|e];
    cbn [obind]; [| |discriminate].
  2:{ intros H; injection H as <-; now left. }
  intros Hrun. right. exists sfs. split; [reflexivity|].
  unfold embed_scenes, enumerate in Hrun.
  exact (embed_scenes_positions sfs 0 [] recs Hrun).
Qed.

(** X4: when the indexer returns, the records it returns are, in order,
    exactly the sampled frames that decode: scene by scene and sample by
    sample, a frame that cannot be read is left out and the frames after it
    are kept. *)
Theorem indexer_returns_the_readable_samples (sfs : list (list Z))
    (recs : list FrameRecord) :
  path_exists env video_path = true ->
  cap_isOpened env video_path = true ->
  detect_with_fallback env video_path = Returned (Some sfs) ->
  process_video_embeddings env video_path = Returned recs ->
  map position recs = readable_positions env video_path 0 sfs
  /\ forall a b c,
       In (a, b, c) (map position recs) ->
       exists frame, cap_read env video_path c = Returned (Some frame).
Proof.
  intros Hex Hop Hd Hrun.
  destruct (process_positions recs Hrun) as [->|(sfs' & Hd' & Hpos)].
  - unfold process_video_embeddings in Hrun.
    rewrite Hex, Hop, Hd in Hrun. cbn [negb obind] in Hrun.
    unfold embed_scenes, enumerate in Hrun.
    pose proof (embed_scenes_positions sfs 0 [] [] Hrun) as H.
    split; [exact H | intros a b c []].
  - rewrite Hd in Hd'. injection Hd' as <-. split; [exact Hpos|].
    intros a b c Hin. rewrite Hpos in Hin.
    unfold readable_positions in Hin. apply in_flat_map in Hin.
    destruct Hin as ([si smp] & _ & Hin). cbn [fst snd] in Hin.
    apply in_readable_in_scene in Hin. tauto.
Qed.

(** X5: the records of one run carry pairwise distinct ids, the path the
    indexer was called with, and the base name of that path. *)
Theorem indexer_ids_distinct_within_a_run (recs : list FrameRecord) :
  process_video_embeddings env video_path = Returned recs ->
  NoDup (map id recs)
  /\ Forall (fun r =>
               clip_embeddings.video_path (metadata r) = video_path
               /\ video_name (metadata r) = basename video_path) recs.
Proof.
  intros Hrun.
  destruct (records_tagged_and_distinct env video_path recs Hrun) as [Htag Hnd].
  split; [exact Hnd|].
  eapply Forall_impl; [|exact Htag]. intros r (_ & Hp & Hn). now split.
Qed.

(** X6: every record the indexer returns holds a frame of the scene it
    names, provided the detector's scenes have start <= end: its frame
    index is 0, 1 or 2, and its frame number lies between the start and the
    end of scene number [scene_idx] of the scenes found at one of the
    thresholds, or, in the whole-video fallback, its scene is 0 and its
    frame number lies in [0, frame count). *)
Theorem indexed_frames_lie_in_their_scene (recs : list FrameRecord)
    (r : FrameRecord) :
  (forall t scenes sc,
      In t thresholds -> sd_detect env video_path t = Returned scenes ->
      In sc scenes -> scene_start sc <= scene_end sc) ->
  process_video_embeddings env video_path = Returned recs ->
  In r recs ->
  0 <= frame_idx (metadata r) < 3
  /\ 0 <= scene_idx (metadata r)
  /\ ((exists t scenes sc,
          In t thresholds
          /\ sd_detect env video_path t = Returned scenes
          /\ nth_error scenes (Z.to_nat (scene_idx (metadata r))) = Some sc
          /\ scene_start sc <= frame_sample (metadata r) <= scene_end sc)
      \/ (scene_idx (metadata r) = 0
          /\ 0 <= frame_sample (metadata r) < cap_frame_count env video_path)).
Proof.
  intros Hord Hrun Hin.
  destruct (process_positions recs Hrun) as [->|(sfs & Hd & Hpos)];
    [destruct Hin|].
  assert (Hp : In (position r) (readable_positions env video_path 0 sfs))
    by (rewrite <- Hpos; now apply in_map).
  unfold position in Hp. apply in_readable_positions in Hp.
  destruct Hp as (Ha & Hb & samples & Hs & Hc). rewrite Z.sub_0_r in Hs.
  set (a := scene_idx (metadata r)) in *.
  set (b := frame_idx (metadata r)) in *.
  set (c := frame_sample (metadata r)) in *.
  clearbody a b c.
  destruct (detect_with_fallback_result sfs Hd)
    as [(t & scenes & Ht & Hdet & ->)|(HT & ->)].
  - rewrite nth_error_map in Hs.
    destruct (nth_error scenes (Z.to_nat a)) as [sc|] eqn:Hsc; [|discriminate Hs].
    cbn [option_map] in Hs. injection Hs as <-.
    pose proof (Hord t scenes sc Ht Hdet (nth_error_In _ _ Hsc)) as Hle.
    set (L := Z.abs (scene_start sc - scene_end sc)) in *.
    assert (HL : L = scene_end sc - scene_start sc) by (unfold L; lia).
    pose proof (round_half_even_nonneg L 3 ltac:(lia) ltac:(lia)) as H0.
    pose proof (twice_round_le L 3 ltac:(lia) ltac:(lia)) as H2.
    cbv zeta in Hc. fold L in Hc.
    set (k := round_half_even L 3) in *. clearbody k L. clear Hpos Hd.
    assert (Hb3 : b < 3 /\ scene_start sc <= c <= scene_end sc).
    { apply nth_error_triple in Hc. destruct Hc as [Hn [-> | [-> | ->]]]; lia. }
    repeat split; try lia. left. exists t, scenes, sc.
    repeat split; try assumption; lia.
  - set (T := cap_frame_count env video_path) in *. clearbody T.
    assert (Ha0 : a = 0).
    { destruct (Z.to_nat a) as [|[|n]] eqn:Hn; [lia| |];
        cbn [nth_error] in Hs; discriminate Hs. }
    subst a. change (Some [0; T / 3; 2 * T / 3] = Some samples) in Hs.
    apply (f_equal (fun o => match o with Some x => x | None => [] end)) in Hs.
    cbv beta iota in Hs. subst samples.
    assert (0 <= T / 3 < T)
      by (split; [apply Z.div_pos | apply Z.div_lt_upper_bound]; lia).
    assert (0 <= 2 * T / 3 < T)
      by (split; [apply Z.div_pos | apply Z.div_lt_upper_bound]; lia).
    assert (Hb3 : b < 3 /\ 0 <= c < T).
    { apply nth_error_triple in Hc. destruct Hc as [Hn [-> | [-> | ->]]]; lia. }
    split; [lia|]. split; [lia|]. right. split; [reflexivity | lia].
Qed.

End IndexerMore.

Section FrameIdMore.
Import Py clip_embeddings.

(** X7: two frame ids are the same text exactly when the scene index, the
    frame index and the frame number they were built from are the same. *)
Theorem frame_ids_equal_iff (a b c a' b' c' : Z) :
  frame_id a b c = frame_id a' b' c' <-> (a = a' /\ b = b' /\ c = c').
Proof.
  split; [apply frame_id_inj|]. intros (-> & -> & ->). reflexivity.
Qed.

End FrameIdMore.

(** The first sample video: its three sampled frames all decode. *)
Lemma indexer_returns_the_readable_samples_witness :
  exists recs,
    clip_embeddings.process_video_embeddings Samples.env_two_videos
      Samples.video_a = Py.Returned recs
    /\ map indexer.position recs = [(0, 0, 0); (0, 1, 30); (0, 2, 60)].
Proof.
  eexists. split; [vm_compute; reflexivity|].
  apply (indexer_returns_the_readable_samples Samples.env_two_videos
           Samples.video_a [[0; 30; 60]]); vm_compute; reflexivity.
Defined.

(** The ids of the first sample video. *)
Lemma indexer_ids_distinct_within_a_run_witness :
  exists recs,
    clip_embeddings.process_video_embeddings Samples.env_two_videos
      Samples.video_a = Py.Returned recs
    /\ NoDup (map clip_embeddings.id recs)
    /\ Forall (fun r =>
                 clip_embeddings.video_path (clip_embeddings.metadata r)
                 = Samples.video_a
                 /\ clip_embeddings.video_name (clip_embeddings.metadata r)
                    = "a.mp4") recs.
Proof.
  eexists. split; [vm_compute; reflexivity|].
  apply (indexer_ids_distinct_within_a_run Samples.env_two_videos
           Samples.video_a). vm_compute. reflexivity.
Defined.

(** The second record of the first sample video: frame 30 of scene 0,
    which runs from frame 0 to frame 90. *)
Lemma indexed_frames_lie_in_their_scene_witness :
  exists r,
    indexer.position r = (0, 1, 30)
    /\ 0 <= clip_embeddings.frame_idx (clip_embeddings.metadata r) < 3
    /\ 0 <= clip_embeddings.scene_idx (clip_embeddings.metadata r).
Proof.
  pose (r := {| clip_embeddings.id := clip_embeddings.frame_id 0 1 30;
                clip_embeddings.embedding := [1%float];
                clip_embeddings.metadata :=
                  {| clip_embeddings.video_path := Samples.video_a;
                     clip_embeddings.scene_idx := 0;
                     clip_embeddings.frame_idx := 1;
                     clip_embeddings.frame_sample := 30;
                     clip_embeddings.video_name := "a.mp4" |} |}).
  exists r. split; [reflexivity|].
  destruct (indexed_frames_lie_in_their_scene Samples.env_two_videos
              Samples.video_a
              [ {| clip_embeddings.id := clip_embeddings.frame_id 0 0 0;
                   clip_embeddings.embedding := [1%float];
                   clip_embeddings.metadata :=
                     {| clip_embeddings.video_path := Samples.video_a;
                        clip_embeddings.scene_idx := 0;
                        clip_embeddings.frame_idx := 0;
                        clip_embeddings.frame_sample := 0;
                        clip_embeddings.video_name := "a.mp4" |} |};
                r;
                {| clip_embeddings.id := clip_embeddings.frame_id 0 2 60;
                   clip_embeddings.embedding := [1%float];
                   clip_embeddings.metadata :=
                     {| clip_embeddings.video_path := Samples.video_a;
                        clip_embeddings.scene_idx := 0;
                        clip_embeddings.frame_idx := 2;
                        clip_embeddings.frame_sample := 60;
                        clip_embeddings.video_name := "a.mp4" |} |} ] r)
    as (Hf & Hs & _).
  - intros t scenes sc _ Hd Hin. simpl in Hd.
    destruct (t <=? 5)%float; injection Hd as <-; [|destruct Hin].
    destruct Hin as [<-|[]]. unfold External.scene_start, External.scene_end.
    simpl. lia.
  - vm_compute. reflexivity.
  - simpl. tauto.
  - split; assumption.
Defined.

(* ================================================================= *)
(** * Further properties of the store adapter *)

Section StoreAdapterMore.
Import Py External clip_embeddings chromadb_manager chromadb_manager_rest.
Context {DB : Type}.

(** X8: the constructor raises only when the client cannot be opened or
    when the collection can be neither got nor created: an exception it
    raises is the one of [PersistentClient] or the one of
    [create_collection]; a manager it returns holds the path and the
    collection name it was given. *)
Theorem constructor_fails_only_with_the_client (st : Store DB)
    (path name : string) (db : DB) :
  match __init__ st path name db with
  | (Returned self, _) => db_path self = path /\ collection_name self = name
  | (Raised e, _) =>
      fst (persistent_client st path db) = Raised e
      \/ exists d,
           fst (client_create_collection st
                  {| db_path := path; collection_name := name |} d) = Raised e
  end.
Proof.
  unfold __init__, _get_or_create_collection, try_except, bind, ret.
  set (self := {| db_path := path; collection_name := name |}).
  destruct (persistent_client st path db) as [[[]|e] d0]; cbn [fst];
    [|now left].
  destruct (client_get_collection st self d0) as [[[]|e1] d1].
  - destruct (collection_count st self d1) as [[c|e2] d2].
    + now split.
    + destruct (client_create_collection st self d2) as [[[]|e3] d3] eqn:Hc;
        [now split|]. right. exists d2. now rewrite Hc.
  - destruct (client_create_collection st self d1) as [[[]|e3] d3] eqn:Hc;
      [now split|]. right. exists d1. now rewrite Hc.
Qed.

(** X9: for a non-empty list of records [save_embeddings] returns [True]
    exactly when the count before, the add and the count after all
    returned, and the add is handed the ids, the embeddings and the
    metadata of the records in their order; when the add returned and the
    count after it raises, the records are in the store and the result is
    [False]. *)
Theorem save_embeddings_true_iff (st : Store DB) (self : ChromaDBManager)
    (data : list FrameRecord) (db : DB) :
  data <> [] ->
  (fst (save_embeddings st self data db) = Returned true
   <-> exists c1 d1 d2 c2 d3,
         collection_count st self db = (Returned c1, d1)
         /\ collection_add st self (map id data) (map embedding data)
              (map metadata data) d1 = (Returned tt, d2)
         /\ collection_count st self d2 = (Returned c2, d3))
  /\ (forall c1 d1 d2 e d3,
        collection_count st self db = (Returned c1, d1) ->
        collection_add st self (map id data) (map embedding data)
          (map metadata data) d1 = (Returned tt, d2) ->
        collection_count st self d2 = (Raised e, d3) ->
        save_embeddings st self data db = (Returned false, d3)).
Proof.
  intros Hne. destruct data as [|r data]; [contradiction|].
  unfold save_embeddings. cbn [truthy_list negb].
  unfold try_except, save_embeddings_try, bind, ret.
  split; [split|].
  - destruct (collection_count st self db) as [[c1|e] d1] eqn:H1;
      [|cbn [fst]; discriminate].
    destruct (collection_add st self _ _ _ d1) as [[[]|e] d2] eqn:H2;
      [|cbn [fst]; discriminate].
    destruct (collection_count st self d2) as [[c2|e] d3] eqn:H3;
      [|cbn [fst]; discriminate].
    intros _. exists c1, d1, d2, c2, d3. repeat split; assumption.
  - intros (c1 & d1 & d2 & c2 & d3 & H1 & H2 & H3).
    rewrite H1, H2, H3. reflexivity.
  - intros c1 d1 d2 e d3 H1 H2 H3. rewrite H1, H2, H3. reflexivity.
Qed.

(** X10: [clear_collection] never raises.  It returns [True] when
    [collection.get] returned and the collection was empty, without calling
    [delete]; when there are ids it deletes exactly the ids that
    [collection.get] returned and its result is whether [delete] returned;
    when [collection.get] raises it returns [False]. *)
Theorem clear_collection_cases (st : StoreWithGet DB) (self : ChromaDBManager)
    (db : DB) :
  match collection_get st self None db with
  | (Raised _, d1) => clear_collection st self db = (Returned false, d1)
  | (Returned all_data, d1) =>
      match got_ids all_data with
      | [] => clear_collection st self db = (Returned true, d1)
      | _ :: _ =>
          match collection_delete (base st) self (got_ids all_data) d1 with
          | (Returned _, d2) => clear_collection st self db = (Returned true, d2)
          | (Raised _, d2) => clear_collection st self db = (Returned false, d2)
          end
      end
  end.
Proof.
  unfold clear_collection, try_except, clear_collection_try, bind, ret.
  destruct (collection_get st self None db) as [[all_data|e] d1]; [|reflexivity].
  destruct (got_ids all_data) as [|i ids]; [reflexivity|].
  cbn [truthy_list].
  destruct (collection_delete (base st) self (i :: ids) d1) as [[[]|e] d2];
    reflexivity.
Qed.

End StoreAdapterMore.

(** The sample record saved into the empty logging store. *)
Lemma save_embeddings_true_iff_witness :
  (fst (chromadb_manager.save_embeddings Samples.store_log Samples.manager
          [Samples.record0] []) = Py.Returned true
   <-> exists c1 d1 d2 c2 d3,
         chromadb_manager.collection_count Samples.store_log Samples.manager []
         = (Py.Returned c1, d1)
         /\ chromadb_manager.collection_add Samples.store_log Samples.manager
              (map clip_embeddings.id [Samples.record0])
              (map clip_embeddings.embedding [Samples.record0])
              (map clip_embeddings.metadata [Samples.record0]) d1
            = (Py.Returned tt, d2)
         /\ chromadb_manager.collection_count Samples.store_log Samples.manager d2
            = (Py.Returned c2, d3)).
Proof.
  apply (save_embeddings_true_iff Samples.store_log Samples.manager
           [Samples.record0] []). discriminate.
Defined.

(* ================================================================= *)
(** * Further properties of the text search *)

Section TextSearchMore.
Import Py External clip_embeddings chromadb_manager text_search.
Context {DB FS Frame : Type} (env : VideoEnv Frame).

(** X11: the text search opens the database ./chroma_db and the collection
    video_embeddings and nothing else: two stores that answer alike on
    this database and this collection give the same search, whatever they
    hold elsewhere. *)
Theorem search_reads_only_the_default_collection (st1 st2 : Store DB)
    (text_query : string) (n_results : Z) (db : DB) :
  let self := {| db_path := "./chroma_db";
                 collection_name := "video_embeddings" |} in
  (forall d, persistent_client st1 "./chroma_db" d
             = persistent_client st2 "./chroma_db" d) ->
  (forall d, client_get_collection st1 self d = client_get_collection st2 self d) ->
  (forall d, client_create_collection st1 self d
             = client_create_collection st2 self d) ->
  (forall d, collection_count st1 self d = collection_count st2 self d) ->
  (forall v d, collection_query_embeddings st1 self v n_results d
               = collection_query_embeddings st2 self v n_results d) ->
  search_frames_by_text env st1 text_query n_results db
  = search_frames_by_text env st2 text_query n_results db.
Proof.
  intros self Hclient Hget Hcreate Hcount Hquery.
  unfold search_frames_by_text, bind, lift.
  destruct (clip_load env) as [[]|e]; [|reflexivity].
  unfold __init__, _get_or_create_collection, try_except, bind, ret.
  fold self. rewrite Hclient.
  destruct (persistent_client st2 "./chroma_db" db) as [[[]|e] d0];
    [|reflexivity].
  rewrite Hget.
  destruct (client_get_collection st2 self d0) as [[[]|e] d1].
  - rewrite Hcount.
    destruct (collection_count st2 self d1) as [[c|e] d2].
    + destruct (clip_text_features env text_query) as [v|e]; [|reflexivity].
      unfold search_similar_frames, try_except, bind, ret.
      rewrite Hquery. reflexivity.
    + rewrite Hcreate.
      destruct (client_create_collection st2 self d2) as [[[]|e'] d3];
        [|reflexivity].
      destruct (clip_text_features env text_query) as [v|e']; [|reflexivity].
      unfold search_similar_frames, try_except, bind, ret.
      rewrite Hquery. reflexivity.
  - rewrite Hcreate.
    destruct (client_create_collection st2 self d1) as [[[]|e'] d3];
      [|reflexivity].
    destruct (clip_text_features env text_query) as [v|e']; [|reflexivity].
    unfold search_similar_frames, try_except, bind, ret.
    rewrite Hquery. reflexivity.
Qed.

Context (st : Store DB) (disk : Disk FS Frame).

(** X12: when the search finds nothing (no result at all, or no ids),
    [save_matched_frames] makes no directory and writes no image: it
    returns what the search returned and leaves the disk as it was,
    whatever the disk would have answered. *)
Theorem no_results_nothing_written (text_query : string) (n_results : Z)
    (w : World DB FS) (r : option QueryResult) (db1 : DB) :
  search_frames_by_text env st text_query n_results (fst w) = (Returned r, db1) ->
  has_results r = false ->
  save_matched_frames env st disk text_query n_results w
  = (Returned r, (db1, snd w)).
Proof.
  intros Hs Hno. unfold save_matched_frames, bind, on_db. rewrite Hs.
  destruct r as [res|]; [|reflexivity]. rewrite Hno. reflexivity.
Qed.

(** What one turn of the loop asks of the disk: nothing, or one write. *)
Lemma save_frame_step (output_dir : string) (res : QueryResult)
    (x : Z * (string * float)) (w : World DB FS) :
  let r := save_frame env disk output_dir res tt x w in
  fst (snd r) = fst w
  /\ (snd (snd r) = snd w
      \/ exists frame,
           snd (snd r)
           = snd (cv2_imwrite disk
                    (path_join output_dir
                       (filename (fst x) (fst (snd x)) (snd (snd x))))
                    frame (snd w))).
Proof.
  destruct x as [i [fid dist]]. cbv zeta.
  unfold save_frame, bind, lift.
  destruct (item (metadatas res) 0) as [ms0|e]; [|now split; [|left]].
  destruct (item ms0 i) as [m|e]; [|now split; [|left]].
  unfold try_except, save_frame_try, bind, lift.
  destruct (cap_read env (video_path m) (frame_sample m)) as [[frame|]|e];
    cbn [fst snd ret]; try (now split; [|left]).
  unfold on_disk.
  destruct (cv2_imwrite disk (path_join output_dir (filename i fid dist))
              frame (snd w)) as [[b|e] fs'] eqn:Hw;
    cbn [fst snd ret]; (split; [reflexivity|]); right; exists frame;
    rewrite Hw; reflexivity.
Qed.

Lemma save_frames_steps (output_dir : string) (res : QueryResult)
    (xs : list (Z * (string * float))) :
  forall w : World DB FS,
    let r := for_each xs (save_frame env disk output_dir res) tt w in
    fst (snd r) = fst w
    /\ exists images,
         snd (snd r) = written disk images (snd w)
         /\ (List.length images <= List.length xs)%nat
         /\ Forall (fun image =>
                      exists i fid dist,
                        fst image = path_join output_dir (filename i fid dist))
                   images.
Proof.
  induction xs as [|x xs IH]; intros w; cbv zeta.
  - cbn. split; [reflexivity|]. exists []. repeat split; auto.
  - cbn [for_each]. unfold bind.
    pose proof (save_frame_step output_dir res x w) as Hx. cbv zeta in Hx.
    destruct (save_frame env disk output_dir res tt x w) as [[[]|e] w1];
      cbn [fst snd] in Hx |- *; destruct Hx as (Hdb1 & Hfs1).
    + specialize (IH w1). cbv zeta in IH.
      destruct IH as (Hdb & images & Himg & Hlen & Hall).
      split; [congruence|].
      destruct Hfs1 as [Heq|[frame Heq]].
      * exists images. rewrite Himg, Heq. repeat split; auto. simpl. lia.
      * exists ((path_join output_dir
                   (filename (fst x) (fst (snd x)) (snd (snd x))), frame)
                :: images).
        rewrite Himg, Heq. split; [reflexivity|]. split; [simpl; lia|].
        constructor; [|exact Hall].
        now exists (fst x), (fst (snd x)), (snd (snd x)).
    + split; [exact Hdb1|].
      destruct Hfs1 as [Heq|[frame Heq]].
      * exists []. split; [exact Heq|]. split; [simpl; lia | constructor].
      * exists [(path_join output_dir
                   (filename (fst x) (fst (snd x)) (snd (snd x))), frame)].
        split; [exact Heq|]. split; [simpl; lia|].
        constructor; [|constructor].
        now exists (fst x), (fst (snd x)), (snd (snd x)).
Qed.

(** X13: whatever the search returns and whatever fails on the way,
    [save_matched_frames] asks of the disk at most this: to make the
    directory of the query, once, and after that to write images into it,
    each under a name built from a rank, an id and a distance, and no more
    of them than the search returned ids.  Nothing is written outside the
    directory of the query. *)
Theorem matched_frames_touch_only_the_query_directory (text_query : string)
    (n_results : Z) (w : World DB FS) :
  let r := save_matched_frames env st disk text_query n_results w in
  snd (snd r) = snd w
  \/ exists images,
       snd (snd r)
       = written disk images
           (snd (os_makedirs disk (output_dir_of text_query) (snd w)))
       /\ Forall (fun image =>
                    exists i fid dist,
                      fst image = image_name text_query i fid dist) images
       /\ forall res ids0,
            fst (search_frames_by_text env st text_query n_results (fst w))
            = Returned (Some res) ->
            hd_error (ids res) = Some ids0 ->
            (List.length images <= List.length ids0)%nat.
Proof.
  cbv zeta.
  remember (save_matched_frames env st disk text_query n_results w) as r eqn:Hr.
  unfold save_matched_frames, bind at 1, on_db in Hr.
  destruct (search_frames_by_text env st text_query n_results (fst w))
    as [[[res|]|e] db1]; cbn [fst snd] in *;
    try (subst r; now left).
  destruct (has_results (Some res)) eqn:Hhas; cbn [negb] in Hr;
    [|subst r; now left].
  right. fold (output_dir_of text_query) in Hr.
  unfold bind at 1, on_disk at 1 in Hr. cbn [fst snd] in Hr.
  destruct (os_makedirs disk (output_dir_of text_query) (snd w))
    as [[[]|e] fs1]; cbn [fst snd] in *.
  2:{ subst r. exists []. split; [reflexivity|]. split; [constructor|].
      intros; simpl; lia. }
  unfold bind at 1, lift at 1 in Hr.
  destruct (item (ids res) 0) as [ids0|e] eqn:Hi.
  2:{ subst r. exists []. split; [reflexivity|]. split; [constructor|].
      intros; simpl; lia. }
  unfold bind at 1, lift at 1 in Hr.
  destruct (item (distances res) 0) as [ds0|e].
  2:{ subst r. exists []. split; [reflexivity|]. split; [constructor|].
      intros; simpl; lia. }
  unfold bind at 1 in Hr.
  match type of Hr with
  | context [for_each ?xs ?body tt ?w0] =>
      pose proof (save_frames_steps (output_dir_of text_query) res xs w0)
        as Hloop; cbv zeta in Hloop;
      destruct (for_each xs body tt w0) as [[[]|e] w1]
  end; cbn [fst snd ret] in Hloop, Hr; subst r; cbn [fst snd];
    destruct Hloop as (_ & images & Himg & Hlen & Hall);
    exists images; (split; [exact Himg|]);
    (split;
     [eapply Forall_impl; [|exact Hall];
      intros image (i & fid & dist & Hp); exists i, fid, dist;
      rewrite Hp; apply image_path|]);
    intros res' ids0' Hr Hh; injection Hr as <-;
    unfold item in Hi; cbn in Hi;
    destruct (ids res) as [|i0 rest]; try discriminate;
    cbn in Hi, Hh; injection Hi as <-; injection Hh as <-;
    unfold enumerate, zip in Hlen;
    (assert (Hen : forall (X : Type) (l : list X) k,
                List.length (enumerate_from k l) = List.length l)
      by (intros X l; induction l; intros k; simpl; auto));
    rewrite Hen, length_combine in Hlen; lia.
Qed.

End TextSearchMore.

(** A search in an empty collection finds no id and writes nothing. *)
Lemma no_results_nothing_written_witness :
  text_search.save_matched_frames Samples.env_two_videos Samples.store_log
    MoreSamples.disk_log "kitchen scene" 5
    ([], {| MoreSamples.dirs := []; MoreSamples.images := [("old.jpg", 7)] |})
  = (Py.Returned
       (Some {| chromadb_manager.ids := [[]];
                chromadb_manager.distances := [[]];
                chromadb_manager.metadatas := [[]] |}),
     ([], {| MoreSamples.dirs := []; MoreSamples.images := [("old.jpg", 7)] |})).
Proof.
  apply (no_results_nothing_written Samples.env_two_videos Samples.store_log
           MoreSamples.disk_log "kitchen scene" 5
           ([], {| MoreSamples.dirs := [];
                   MoreSamples.images := [("old.jpg", 7)] |}));
    reflexivity.
Defined.

(** The logging store and the store that knows the default collection
    only. *)
Lemma search_reads_only_the_default_collection_witness :
  text_search.search_frames_by_text Samples.env_two_videos Samples.store_log
    "kitchen scene" 5 Samples.log_three
  = text_search.search_frames_by_text Samples.env_two_videos
      MoreSamples.store_default_only "kitchen scene" 5 Samples.log_three.
Proof.
  apply (search_reads_only_the_default_collection Samples.env_two_videos
           Samples.store_log MoreSamples.store_default_only "kitchen scene" 5
           Samples.log_three); reflexivity.
Defined.

Section QueryDirectory.
Import Py text_search.

Lemma replace_char_length (old new : ascii) (s : string) :
  String.length (replace_char old new s) = String.length s.
Proof. induction s as [|c s IH]; simpl; [reflexivity | now rewrite IH]. Qed.

Lemma replace_char_absent (old new : ascii) (s : string) :
  has_char old s = false -> replace_char old new s = s.
Proof.
  induction s as [|c s IH]; simpl; [reflexivity|].
  destruct (Ascii.eqb c old); [discriminate|]. intros H. now rewrite IH.
Qed.

(** X14: the directory name made from a query has the length of the query
    and holds no space, no slash and no backslash; a query without these
    three characters is its own directory name, and cleaning a cleaned
    name changes nothing. *)
Theorem sanitize_removes_separators (text_query : string) :
  String.length (sanitize text_query) = String.length text_query
  /\ has_char " "%char (sanitize text_query) = false
  /\ has_char "/"%char (sanitize text_query) = false
  /\ has_char "\"%char (sanitize text_query) = false
  /\ sanitize (sanitize text_query) = sanitize text_query
  /\ (has_char " "%char text_query = false ->
      has_char "/"%char text_query = false ->
      has_char "\"%char text_query = false ->
      sanitize text_query = text_query).
Proof.
  assert (Hsp : has_char " "%char (sanitize text_query) = false).
  { unfold sanitize. do 2 (apply replace_char_keeps_absent; [discriminate|]).
    apply replace_char_no_old. discriminate. }
  assert (Hsl : has_char "/"%char (sanitize text_query) = false).
  { unfold sanitize. apply replace_char_keeps_absent; [discriminate|].
    apply replace_char_no_old. discriminate. }
  assert (Hbs : has_char "\"%char (sanitize text_query) = false).
  { unfold sanitize. apply replace_char_no_old. discriminate. }
  assert (Hid : forall q,
             has_char " "%char q = false -> has_char "/"%char q = false ->
             has_char "\"%char q = false -> sanitize q = q).
  { intros q H1 H2 H3. unfold sanitize.
    rewrite (replace_char_absent " " "_" q H1).
    rewrite (replace_char_absent "/" "_" q H2).
    apply replace_char_absent. exact H3. }
  split; [unfold sanitize; now rewrite !replace_char_length|].
  repeat split; try assumption.
  - apply Hid; assumption.
  - apply Hid.
Qed.

End QueryDirectory.

(** A query with a space and a slash. *)
Lemma sanitize_removes_separators_witness :
  text_search.sanitize "two men/talking" = "two_men_talking"
  /\ text_search.sanitize "kitchen" = "kitchen".
Proof.
  split; [reflexivity|].
  apply (sanitize_removes_separators "kitchen"); reflexivity.
Defined.

Section FileNames.
Import Py text_search.

Lemma uint_not_own_tail (d : uint) : d <> D0 d.
Proof.
  induction d; try discriminate. intros H. injection H as H. exact (IHd H).
Qed.

(** A numeral of a positive number does not start with 0. *)
Lemma zero_padded_is_no_numeral (n m : Z) :
  0 <= n -> 0 < m -> ("0" ++ str_int n)%string = str_int m -> False.
Proof.
  intros Hn Hm H. unfold str_int in H.
  destruct m as [|p|p]; try lia. cbn [Z.to_int NilZero.string_of_int] in H.
  assert (Hp : NilZero.uint_of_string (NilZero.string_of_uint (Pos.to_uint p))
               = Some (Pos.to_uint p))
    by (apply NilZero.usu, DecimalPos.Unsigned.to_uint_nonnil).
  destruct n as [|q|q]; try lia; cbn [Z.to_int NilZero.string_of_int] in H.
  - rewrite <- H in Hp. cbn in Hp. injection Hp as Hp.
    pose proof (DecimalPos.Unsigned.of_to p) as Hof.
    rewrite <- Hp in Hof. discriminate Hof.
  - assert (Hq : ("0" ++ NilZero.string_of_uint (Pos.to_uint q))%string
                 = NilZero.string_of_uint (D0 (Pos.to_uint q))).
    { pose proof (DecimalPos.Unsigned.to_uint_nonnil q) as Hnn.
      destruct (Pos.to_uint q); [contradiction|reflexivity..]. }
    rewrite Hq in H. rewrite <- H in Hp.
    rewrite NilZero.usu in Hp by discriminate. injection Hp as Hp.
    pose proof (DecimalPos.Unsigned.of_to p) as Hof.
    pose proof (DecimalPos.Unsigned.of_to q) as Hoq.
    rewrite <- Hp in Hof. cbn [Pos.of_uint] in Hof.
    rewrite Hoq in Hof. injection Hof as ->.
    exact (uint_not_own_tail (Pos.to_uint p) (eq_sym Hp)).
Qed.

Lemma fmt_02d_inj (n m : Z) :
  0 < n -> 0 < m -> fmt_02d n = fmt_02d m -> n = m.
Proof.
  intros Hn Hm. unfold fmt_02d.
  destruct ((0 <=? n) && (n <? 10)) eqn:En;
    destruct ((0 <=? m) && (m <? 10)) eqn:Em; intros H.
  - injection H as H. now apply str_int_inj.
  - exfalso. apply (zero_padded_is_no_numeral n m); [lia | lia | exact H].
  - exfalso. apply (zero_padded_is_no_numeral m n); [lia | lia | now symmetry].
  - now apply str_int_inj.
Qed.

Lemma fmt_02d_no_separator (n : Z) : has_char "_"%char (fmt_02d n) = false.
Proof.
  unfold fmt_02d.
  pose proof (str_int_no_separator "_"%char n (or_introl eq_refl)) as H.
  destruct ((0 <=? n) && (n <? 10)); [exact H | exact H].
Qed.

(** X15: the name of an image starts with its rank, so two results of one
    search never share a file name, whatever their ids and distances. *)
Theorem filenames_differ_by_rank (i j : Z) (id1 id2 : string) (d1 d2 : float) :
  0 <= i -> 0 <= j ->
  filename i id1 d1 = filename j id2 d2 -> i = j.
Proof.
  intros Hi Hj H. unfold filename, fstring in H. cbn [fold_right render] in H.
  change ("_" ++ ?x)%string with (String "_" x) in H.
  apply split_at_separator in H; try apply fmt_02d_no_separator.
  destruct H as [H _]. apply fmt_02d_inj in H; lia.
Qed.

End FileNames.

(** The name of the fourth result. *)
Lemma filenames_differ_by_rank_witness :
  text_search.filename 3 "scene_0_frame_0_sample_0" 0.25%float
  = "04_scene_0_frame_0_sample_0_similarity_0.750.jpg"
  /\ 3 = 3.
Proof.
  split; [reflexivity|].
  apply (filenames_differ_by_rank 3 3 "scene_0_frame_0_sample_0"
           "scene_0_frame_0_sample_0" 0.25%float 0.25%float);
    [lia | lia | reflexivity].
Defined.

(* ================================================================= *)
(** * Further properties of main.py *)

Section MainMore.
Import Py External clip_embeddings chromadb_manager main.
Context {DB Frame : Type} (env : VideoEnv Frame) (st : Store DB).
Context (db_path collection_name : string).





End MainMore.


Section DirectoryListing.
Import Py main_rest.



End DirectoryListing.


(* ================================================================= *)
(** * Properties of the listings of query_chromadb.py *)

Section Grouping.
Import Py query_chromadb.
Context {X V : Type} (key : X -> string) (val : X -> V).








End Grouping.

Section Listings.
Import Py External clip_embeddings chromadb_manager chromadb_manager_rest.
Import query_chromadb.





Context {DB : Type} (st : StoreWithGet DB) (self : ChromaDBManager).


(** X22: asked for the scenes of one video, [list_scenes] never lists a
    scene, whatever the store answers: it prints no listing, or an empty
    one. *)
Theorem list_scenes_of_a_video_lists_nothing (name : string) (db : DB) :
  name <> "" ->
  exists d,
    list_scenes st self (Some name) db = (Returned None, d)
    \/ list_scenes st self (Some name) db = (Returned (Some []), d).
Proof.
  intros Hname.
  unfold list_scenes, try_except, list_scenes_try.
  assert (Hg : given (Some name) = Some name).
  { unfold given. destruct (String.eqb name "") eqn:E; [|reflexivity].
    apply String.eqb_eq in E. contradiction. }
  rewrite Hg. unfold bind.
  destruct (search_by_metadata (base st) self [("video_name", VStr name)] 10 db)
    as [[[res|]|e] d]; try (exists d; now left).
  destruct (ids res) as [|i0 rest] eqn:Hids; cbn [truthy_list negb];
    [exists d; now left|].
  unfold lift, frames_of_query, enumerate.
  destruct (metadatas res) as [|m0 ms]; cbn [enumerate_from ofor_each].
  - exists d. right. reflexivity.
  - rewrite Hids. exists d. left. reflexivity.
Qed.


End Listings.


(** The same collection, asked for the scenes of a.mp4. *)
Lemma list_scenes_of_a_video_lists_nothing_witness :
  exists d,
    query_chromadb.list_scenes MoreSamples.store_with_get Samples.manager
      (Some "a.mp4") MoreSamples.log_mixed = (Py.Returned None, d)
    \/ query_chromadb.list_scenes MoreSamples.store_with_get Samples.manager
         (Some "a.mp4") MoreSamples.log_mixed = (Py.Returned (Some []), d).
Proof.
  apply (list_scenes_of_a_video_lists_nothing MoreSamples.store_with_get
           Samples.manager "a.mp4" MoreSamples.log_mixed).
  discriminate.
Defined.


(* ================================================================= *)
(** * Where the stored embeddings come from *)

Section Provenance.
Import Py External clip_embeddings chromadb_manager main indexer.
Context {DB Frame : Type} (env : VideoEnv Frame) (st : Store DB).

Lemma embed_frame_encoded (video_path : string) (si fi sample : Z)
    (acc acc' : list FrameRecord) :
  Forall (encoded_from env video_path) acc ->
  embed_frame env video_path si acc (fi, sample) = Returned acc' ->
  Forall (encoded_from env video_path) acc'.
Proof.
  intros Hacc Hrun. unfold embed_frame in Hrun.
  destruct (cap_read env video_path sample) as [[frame|]|e] eqn:Hr;
    cbn [obind] in Hrun; [| |discriminate Hrun].
  2:{ now injection Hrun as <-. }
  destruct (get_clip_embeddings env frame) as [emb|e] eqn:He;
    cbn [obind] in Hrun; [|discriminate Hrun].
  injection Hrun as <-. apply Forall_app. split; [exact Hacc|].
  constructor; [|constructor]. exists frame. now split.
Qed.

(** X24: every record the indexer returns holds the embedding that the
    encoder returned for the frame read at the record's frame number: no
    record is made of a frame that did not decode or that the encoder
    failed on. *)
Theorem embeddings_come_from_the_encoder (video_path : string)
    (recs : list FrameRecord) :
  process_video_embeddings env video_path = Returned recs ->
  Forall (encoded_from env video_path) recs.
Proof.
  unfold process_video_embeddings.
  destruct (negb (path_exists env video_path));
    [intros H; injection H as <-; constructor|].
  destruct (negb (cap_isOpened env video_path));
    [intros H; injection H as <-; constructor|].
  destruct (detect_with_fallback env video_path) as [[sfs|]|e];
    cbn [obind]; [| |discriminate].
  2:{ intros H; injection H as <-; constructor. }
  unfold embed_scenes, enumerate. intros Hrun.
  pose proof (ofor_each_enumerate_inv
                (fun (_ : Z) acc => Forall (encoded_from env video_path) acc)
                (embed_scene env video_path)) as Hinv.
  refine (Hinv _ sfs 0 [] recs _ Hrun); [|constructor].
  intros si acc samples acc' Hacc Hs. unfold embed_scene, enumerate in Hs.
  pose proof (ofor_each_enumerate_inv
                (fun (_ : Z) acc => Forall (encoded_from env video_path) acc)
                (embed_frame env video_path si)) as Hinv2.
  refine (Hinv2 _ samples 0 acc acc' Hacc Hs).
  intros fi a s a' Ha Hf. exact (embed_frame_encoded _ _ _ _ _ _ Ha Hf).
Qed.

End Provenance.

(** The records of the first sample video. *)
Lemma embeddings_come_from_the_encoder_witness :
  exists recs,
    clip_embeddings.process_video_embeddings Samples.env_two_videos
      Samples.video_a = Py.Returned recs
    /\ List.length recs = 3%nat
    /\ Forall (indexer.encoded_from Samples.env_two_videos Samples.video_a) recs.
Proof.
  eexists. split; [vm_compute; reflexivity|]. split; [reflexivity|].
  apply (embeddings_come_from_the_encoder Samples.env_two_videos
           Samples.video_a). vm_compute. reflexivity.
Defined.


(* ================================================================= *)
(** * main.py on a console that may refuse a line *)

Section ConsoleOutput.
Import Py External clip_embeddings chromadb_manager main main_console.
Context {DB Out Frame : Type} (con : Console Out) (env : VideoEnv Frame)
        (st : Store DB).

(** A line printed inside the call: the console moves on, the store and
    [result] stay. *)
Lemma outside_say (text : string) (c : @Call DB Out) :
  outside (say con text) c
  = (fst (print con text (snd (fst c))),
     ((fst (fst c), snd (print con text (snd (fst c)))), snd c)).
Proof.
  unfold outside, say. destruct (print con text (snd (fst c))); reflexivity.
Qed.

Lemma outside_silently {A} (m : M DB A) (c : @Call DB Out) :
  outside (silently m) c
  = (fst (m (fst (fst c))),
     ((snd (m (fst (fst c))), snd (fst c)), snd c)).
Proof.
  unfold outside, silently. destruct (m (fst (fst c))); reflexivity.
Qed.

Lemma unexpected_error_text (e : exn) :
  fstring [Lit "Unexpected error: "; FStr (str_exn e)]
  = ("Unexpected error: " ++ str_exn e)%string.
Proof. unfold fstring. cbn [fold_right render]. now rewrite append_empty_r. Qed.

(** The handler: the error is recorded in [result] before its line is
    printed. *)
Lemma handler_run (e : exn) (w : DB * Out) (result : dict) :
  process_video_except con e (w, result)
  = (match fst (print con (error_line e) (snd w)) with
     | Returned _ =>
         Returned (dict_set "error"
                     (VStr ("Unexpected error: " ++ str_exn e)%string) result)
     | Raised e' => Raised e'
     end,
     ((fst w, snd (print con (error_line e) (snd w))),
      dict_set "error" (VStr ("Unexpected error: " ++ str_exn e)%string)
        result)).
Proof.
  unfold process_video_except, bind, result_set_error, return_result.
  rewrite unexpected_error_text, outside_say. cbn [fst snd].
  destruct (print con (error_line e) (snd w)) as [[[]|e'] o]; reflexivity.
Qed.

(** How the [try] block ends: with an early return, whose result is a
    failure; with an exception before [result.update], which leaves
    [result] as it was at the start; or after [result.update], with the
    result of a success, returned or left behind by an exception of one of
    the two lines printed after it. *)
Lemma try_block_ends (video_path db_path collection_name : string)
    (w : DB * Out) (r : outcome dict * @Call DB Out) :
  process_video_try con env st video_path db_path collection_name
    (w, initial_result video_path) = r ->
  (exists msg w',
      r = (Returned (failure_result video_path msg),
           (w', failure_result video_path msg)))
  \/ (exists e w', r = (Raised e, (w', initial_result video_path)))
  \/ (exists data info w',
        stored env st video_path db_path collection_name (fst w) data info
          (fst w')
        /\ (r = (Returned (success_result video_path (len data) info),
                 (w', success_result video_path (len data) info))
            \/ exists e out line,
                 r = (Raised e, (w', success_result video_path (len data) info))
                 /\ (line = saved_line (len data) \/ line = total_line info)
                 /\ print con line out = (Raised e, snd w'))).
Proof.
  intros Hr. unfold process_video_try in Hr.
  destruct (path_exists env video_path) eqn:Hex; cbn [negb] in Hr.
  2:{ subst r. left. do 2 eexists. reflexivity. }
  destruct w as [db out].
  unfold bind at 1 in Hr. rewrite outside_say in Hr. cbn [fst snd] in Hr.
  destruct (print con _ out) as [[[]|e] o1]; cbn [fst snd] in Hr;
    [|subst r; right; left; do 2 eexists; reflexivity].
  unfold bind at 1 in Hr. rewrite outside_say in Hr. cbn [fst snd] in Hr.
  destruct (print con _ o1) as [[[]|e] o2]; cbn [fst snd] in Hr;
    [|subst r; right; left; do 2 eexists; reflexivity].
  unfold bind at 1 in Hr. rewrite outside_silently in Hr. cbn [fst snd] in Hr.
  destruct (__init__ st db_path collection_name db) as [[self|e] d1] eqn:Hinit;
    cbn [fst snd] in Hr;
    [|subst r; right; left; do 2 eexists; reflexivity].
  unfold bind at 1 in Hr. rewrite outside_say in Hr. cbn [fst snd] in Hr.
  destruct (print con _ o2) as [[[]|e] o3]; cbn [fst snd] in Hr;
    [|subst r; right; left; do 2 eexists; reflexivity].
  unfold bind at 1, lift at 1 in Hr.
  destruct (process_video_embeddings env video_path) as [data|e] eqn:Hdata;
    [|subst r; right; left; do 2 eexists; reflexivity].
  destruct data as [|rec data]; cbn [truthy_list negb] in Hr.
  { subst r. left. do 2 eexists. reflexivity. }
  unfold bind at 1 in Hr. rewrite outside_say in Hr. cbn [fst snd] in Hr.
  destruct (print con _ o3) as [[[]|e] o4]; cbn [fst snd] in Hr;
    [|subst r; right; left; do 2 eexists; reflexivity].
  unfold bind at 1 in Hr. rewrite outside_say in Hr. cbn [fst snd] in Hr.
  destruct (print con _ o4) as [[[]|e] o5]; cbn [fst snd] in Hr;
    [|subst r; right; left; do 2 eexists; reflexivity].
  unfold bind at 1 in Hr. rewrite outside_silently in Hr. cbn [fst snd] in Hr.
  destruct (save_embeddings st self (rec :: data) d1) as [[[|]|e] d2] eqn:Hsave;
    cbn [fst snd negb] in Hr;
    [| subst r; left; do 2 eexists; reflexivity
     | subst r; right; left; do 2 eexists; reflexivity].
  unfold bind at 1 in Hr. rewrite outside_silently in Hr. cbn [fst snd] in Hr.
  destruct (get_collection_info st self d2) as [[info|e] d3] eqn:Hinfo;
    cbn [fst snd] in Hr;
    [|subst r; right; left; do 2 eexists; reflexivity].
  assert (Hstored : stored env st video_path db_path collection_name
                      db (rec :: data) info d3).
  { exists self, d1, d2. repeat split; try assumption. discriminate. }
  unfold bind at 1, result_update at 1 in Hr. cbn [fst snd] in Hr.
  unfold bind at 1 in Hr. rewrite outside_say in Hr. cbn [fst snd] in Hr.
  destruct (print con (saved_line (len (rec :: data))) o5)
    as [[[]|e] o6] eqn:Hp6; cbn [fst snd] in Hr.
  2:{ subst r. right. right. exists (rec :: data), info, (d3, o6).
      split; [exact Hstored|]. right. exists e, o5, (saved_line (len (rec :: data))).
      split; [reflexivity|]. split; [now left | exact Hp6]. }
  unfold bind at 1 in Hr. rewrite outside_say in Hr. cbn [fst snd] in Hr.
  destruct (print con (total_line info) o6) as [[[]|e] o7] eqn:Hp7;
    cbn [fst snd] in Hr.
  2:{ subst r. right. right. exists (rec :: data), info, (d3, o7).
      split; [exact Hstored|]. right. exists e, o6, (total_line info).
      split; [reflexivity|]. split; [now right | exact Hp7]. }
  subst r. right. right. exists (rec :: data), info, (d3, o7).
  split; [exact Hstored|]. left. reflexivity.
Qed.

(** X17: what [process_video_to_chromadb] does on a console that may
    refuse a line, whatever the video, the store and the console.  It
    raises only when its [try] block raised and the line its handler prints
    for that exception, on the console as the [try] block left it, is
    refused in turn: it then raises what this [print] raised.  What it
    returns is the result of a failure (success [False], a count of 0, a
    message), or, after the records were stored, the result of a success,
    which carries the message of an unexpected error instead of [None]
    exactly when one of the two lines printed after [result.update] was
    refused and the line of the handler was printed after it. *)
Theorem process_video_outcomes_on_a_console
    (video_path db_path collection_name : string) (w : DB * Out) :
  match process_video_to_chromadb con env st video_path db_path
          collection_name w with
  | (Raised e, w') =>
      exists e0 c1,
        process_video_try con env st video_path db_path collection_name
          (w, initial_result video_path) = (Raised e0, c1)
        /\ print con (error_line e0) (snd (fst c1)) = (Raised e, snd w')
        /\ fst w' = fst (fst c1)
  | (Returned r, w') =>
      (exists msg, r = failure_result video_path msg)
      \/ (exists data info,
            stored env st video_path db_path collection_name (fst w)
              data info (fst w')
            /\ (r = success_result video_path (len data) info
                \/ exists e out line,
                     r = success_with_error video_path (len data) info
                           ("Unexpected error: " ++ str_exn e)%string
                     /\ (line = saved_line (len data)
                         \/ line = total_line info)
                     /\ fst (print con line out) = Raised e
                     /\ print con (error_line e) (snd (print con line out))
                        = (Returned tt, snd w')))
  end.
Proof.
  unfold process_video_to_chromadb, try_except.
  destruct (process_video_try con env st video_path db_path collection_name
              (w, initial_result video_path)) as [[r|e0] c1] eqn:Htry.
  - destruct (try_block_ends video_path db_path collection_name w _ Htry)
      as [(msg & w1 & Heq)|[(e & w1 & Heq)|(data & info & w1 & Hst & Hr)]].
    + injection Heq as -> ->. left. now exists msg.
    + discriminate Heq.
    + destruct Hr as [Heq|(e & out & line & Heq & _)]; [|discriminate Heq].
      injection Heq as -> ->. right. exists data, info.
      split; [exact Hst | now left].
  - destruct (try_block_ends video_path db_path collection_name w _ Htry)
      as [(msg & w1 & Heq)|[(e & w1 & Heq)|(data & info & w1 & Hst & Hr)]].
    + discriminate Heq.
    + injection Heq as -> ->. rewrite handler_run. cbn [fst snd].
      destruct (print con (error_line e) (snd w1)) as [[[]|e'] o] eqn:Hp;
        cbn [fst snd].
      * left. eexists. reflexivity.
      * exists e, (w1, initial_result video_path).
        split; [reflexivity|]. split; [exact Hp | reflexivity].
    + destruct Hr as [Heq|(e & out & line & Heq & Hline & Hrefused)];
        [discriminate Heq|].
      injection Heq as -> ->. rewrite handler_run. cbn [fst snd].
      destruct (print con (error_line e) (snd w1)) as [[[]|e'] o] eqn:Hp;
        cbn [fst snd].
      * right. exists data, info. split; [exact Hst|]. right.
        exists e, out, line. split; [reflexivity|]. split; [exact Hline|].
        rewrite Hrefused. cbn [fst snd]. split; [reflexivity | exact Hp].
      * exists e, (w1, success_result video_path (len data) info).
        split; [reflexivity|]. split; [exact Hp | reflexivity].
Qed.

(** [save_embeddings] returns [True] only for records, and after the count,
    the add and the second count returned in turn. *)
Lemma save_embeddings_true_steps (self : ChromaDBManager)
    (data : list FrameRecord) (db db' : DB) :
  save_embeddings st self data db = (Returned true, db') ->
  exists c d1 d2 c2,
    collection_count st self db = (Returned c, d1)
    /\ collection_add st self (map id data) (map embedding data)
         (map metadata data) d1 = (Returned tt, d2)
    /\ collection_count st self d2 = (Returned c2, db').
Proof.
  unfold save_embeddings. destruct data as [|r data]; [discriminate|].
  cbn [truthy_list negb]. unfold try_except, save_embeddings_try, bind, ret.
  destruct (collection_count st self db) as [[c|e] d1]; [|discriminate].
  destruct (collection_add st self _ _ _ d1) as [[[]|e] d2] eqn:Hadd;
    [|discriminate].
  destruct (collection_count st self d2) as [[c2|e] d3] eqn:Hc2;
    [|discriminate].
  intros H. injection H as <-. exists c, d1, d2, c2. now repeat split.
Qed.

Lemma init_returns_its_arguments (db_path collection_name : string)
    (db d1 : DB) (self : ChromaDBManager) :
  __init__ st db_path collection_name db = (Returned self, d1) ->
  self = {| chromadb_manager.db_path := db_path;
            chromadb_manager.collection_name := collection_name |}.
Proof.
  unfold __init__, bind, ret.
  destruct (persistent_client st db_path db) as [[[]|e] d0]; [|discriminate].
  destruct (_get_or_create_collection st _ d0) as [[[]|e] d2]; [|discriminate].
  intros H. now injection H as <-.
Qed.

(** X25: a result that says success counts what the store was given in
    this very call: the manager was built for the path and the collection
    name of the call, the indexer returned records for the video of the
    call, and [collection.add] returned for the ids, the embeddings and the
    metadata of exactly these records, as many as the reported count and
    with pairwise distinct ids.  This holds on every console, also when the
    result carries an error. *)
Theorem success_counts_the_added_ids
    (video_path db_path collection_name : string) (w w' : DB * Out)
    (r : dict) :
  process_video_to_chromadb con env st video_path db_path collection_name w
  = (Returned r, w') ->
  succeeded r = true ->
  exists data d0 c d1 d2,
    let self := {| chromadb_manager.db_path := db_path;
                   chromadb_manager.collection_name := collection_name |} in
    process_video_embeddings env video_path = Returned data
    /\ __init__ st db_path collection_name (fst w) = (Returned self, d0)
    /\ collection_count st self d0 = (Returned c, d1)
    /\ collection_add st self (map id data) (map embedding data)
         (map metadata data) d1 = (Returned tt, d2)
    /\ embeddings_count_of r = len data
    /\ NoDup (map id data).
Proof.
  intros Hrun Hok.
  assert (Hst : exists data info d3,
            stored env st video_path db_path collection_name (fst w)
              data info d3
            /\ embeddings_count_of r = len data).
  { unfold process_video_to_chromadb, try_except in Hrun.
    destruct (try_block_ends video_path db_path collection_name w _ eq_refl)
      as [(msg & w1 & Heq)|[(e & w1 & Heq)|(data & info & w1 & Hst & Hr)]].
    - rewrite Heq in Hrun. injection Hrun as <- _. discriminate Hok.
    - rewrite Heq, handler_run in Hrun.
      destruct (fst (print con (error_line e) (snd w1)));
        [|discriminate Hrun].
      injection Hrun as <- _. discriminate Hok.
    - exists data, info, (fst w1). split; [exact Hst|].
      destruct Hr as [Heq|(e & out & line & Heq & _)].
      + rewrite Heq in Hrun. injection Hrun as <- _. reflexivity.
      + rewrite Heq, handler_run in Hrun.
        destruct (fst (print con (error_line e) (snd w1)));
          [|discriminate Hrun].
        injection Hrun as <- _. reflexivity. }
  destruct Hst as (data & info & d3 & (self & d0 & d2 & Hex & Hinit & Hdata
                                       & Hne & Hsave & Hinfo) & Hcount).
  pose proof (init_returns_its_arguments _ _ _ _ _ Hinit) as Hself.
  subst self.
  destruct (save_embeddings_true_steps _ data d0 d2 Hsave)
    as (c & d1 & d2' & c2 & Hc & Hadd & _).
  destruct (records_tagged_and_distinct env video_path data Hdata) as [_ Hnd].
  exists data, d0, c, d1, d2'. cbv zeta. repeat split; assumption.
Qed.

(** On a console that takes every line [process_video_to_chromadb] returns
    what it returns without its console output, and leaves the store in the
    same state. *)
Lemma printing_is_silent_on_a_willing_console
    (video_path db_path collection_name : string) (w : DB * Out) :
  (forall text out, fst (print con text out) = Returned tt) ->
  exists out',
    process_video_to_chromadb con env st video_path db_path collection_name w
    = (fst (main.process_video_to_chromadb env st video_path db_path
              collection_name (fst w)),
       (snd (main.process_video_to_chromadb env st video_path db_path
               collection_name (fst w)), out')).
Proof.
  intros Hwilling.
  assert (Hsay : forall text (c : @Call DB Out),
            outside (say con text) c
            = (Returned tt,
               ((fst (fst c), snd (print con text (snd (fst c)))), snd c))).
  { intros text c. rewrite outside_say. now rewrite Hwilling. }
  assert (Hhandler : forall e (w1 : DB * Out),
            process_video_except con e (w1, initial_result video_path)
            = (Returned (dict_set "error"
                           (VStr (fstring [Lit "Unexpected error: ";
                                           FStr (str_exn e)]))
                           (initial_result video_path)),
               ((fst w1, snd (print con (error_line e) (snd w1))),
                dict_set "error"
                  (VStr ("Unexpected error: " ++ str_exn e)%string)
                  (initial_result video_path)))).
  { intros e w1. rewrite handler_run, Hwilling, unexpected_error_text.
    reflexivity. }
  destruct w as [db out]. cbn [fst].
  remember (main.process_video_to_chromadb env st video_path db_path
              collection_name db) as S eqn:HS.
  unfold main.process_video_to_chromadb, try_except, main.process_video_try
    in HS.
  unfold process_video_to_chromadb, try_except, process_video_try.
  destruct (path_exists env video_path); cbn [negb] in *;
    [|subst S; eexists; reflexivity].
  unfold bind at 1. rewrite Hsay. cbn [fst snd].
  unfold bind at 1. rewrite Hsay. cbn [fst snd].
  unfold bind at 1. rewrite outside_silently. cbn [fst snd].
  unfold bind at 1 in HS.
  destruct (__init__ st db_path collection_name db) as [[self|e] d1];
    cbn [fst snd] in *.
  2:{ rewrite Hhandler. subst S. eexists. reflexivity. }
  unfold bind at 1. rewrite Hsay. cbn [fst snd].
  unfold bind at 1, lift at 1. unfold bind at 1, lift at 1 in HS.
  destruct (process_video_embeddings env video_path) as [data|e].
  2:{ rewrite Hhandler. subst S. eexists. reflexivity. }
  destruct data as [|rec data]; cbn [truthy_list negb] in *;
    [subst S; eexists; reflexivity|].
  unfold bind at 1. rewrite Hsay. cbn [fst snd].
  unfold bind at 1. rewrite Hsay. cbn [fst snd].
  unfold bind at 1. rewrite outside_silently. cbn [fst snd].
  unfold bind at 1 in HS.
  destruct (save_embeddings st self (rec :: data) d1) as [[[|]|e] d2];
    cbn [fst snd negb] in *.
  3:{ rewrite Hhandler. subst S. eexists. reflexivity. }
  2:{ subst S. eexists. reflexivity. }
  unfold bind at 1. rewrite outside_silently. cbn [fst snd].
  unfold bind at 1 in HS.
  destruct (get_collection_info st self d2) as [[info|e] d3];
    cbn [fst snd] in *.
  2:{ rewrite Hhandler. subst S. eexists. reflexivity. }
  unfold bind at 1, result_update at 1. cbn [fst snd].
  unfold bind at 1. rewrite Hsay. cbn [fst snd].
  unfold bind at 1. rewrite Hsay. cbn [fst snd].
  subst S. eexists. reflexivity.
Qed.

(** X26: on a console that takes every line [process_video_to_chromadb]
    returns, whatever the video and the store do, a dict with exactly the
    five keys success, video_path, embeddings_count, error and
    collection_info, in which either success is [True], error is [None] and
    the count is positive, or success is [False], error holds a message and
    the count is 0. *)
Theorem result_invariant_on_a_willing_console
    (video_path db_path collection_name : string) (w : DB * Out) :
  (forall text out, fst (print con text out) = Returned tt) ->
  exists r w',
    process_video_to_chromadb con env st video_path db_path collection_name w
    = (Returned r, w')
    /\ keys r = ["success"; "video_path"; "embeddings_count"; "error";
                 "collection_info"]
    /\ dict_lookup "video_path" r = Some (VStr video_path)
    /\ exists (success : bool) (count : Z) (error : value) (info : dict),
         dict_lookup "success" r = Some (VBool success)
         /\ dict_lookup "embeddings_count" r = Some (VInt count)
         /\ dict_lookup "error" r = Some error
         /\ dict_lookup "collection_info" r = Some (VDict info)
         /\ ((success = true /\ error = VNone /\ 0 < count)
             \/ (success = false /\ (exists msg, error = VStr msg)
                 /\ count = 0)).
Proof.
  intros Hwilling.
  destruct (printing_is_silent_on_a_willing_console video_path db_path
              collection_name w Hwilling) as [out' Hrun].
  destruct (silent_result_invariant env st video_path db_path collection_name
              (fst w)) as (r & db' & Hsilent & Hinv).
  rewrite Hsilent in Hrun. exists r, (db', out'). split; [exact Hrun|].
  exact Hinv.
Qed.

End ConsoleOutput.

Section SearchOnConsole.
Import Py External chromadb_manager text_search main_console.
Context {DB FS Out Frame : Type} (con : Console Out) (env : VideoEnv Frame)
        (st : Store DB) (disk : Disk FS Frame).

(** A printed line leaves the store and the disk alone. *)
Lemma say_run (text : string) (w : World DB FS * Out) :
  say con text w
  = (fst (print con text (snd w)), (fst w, snd (print con text (snd w)))).
Proof. unfold say. destruct (print con text (snd w)); reflexivity. Qed.

Lemma say_keeps (text : string) (w : World DB FS * Out) :
  fst (snd (say con text w)) = fst w.
Proof. now rewrite say_run. Qed.

Lemma bind_keeps {A B} (m : M (World DB FS * Out) A)
    (k : A -> M (World DB FS * Out) B) :
  (forall w, fst (snd (m w)) = fst w) ->
  (forall a w, fst (snd (k a w)) = fst w) ->
  forall w, fst (snd (bind m k w)) = fst w.
Proof.
  intros Hm Hk w. unfold bind. specialize (Hm w).
  destruct (m w) as [[a|e] w1]; cbn [fst snd] in *; [|exact Hm].
  now rewrite Hk.
Qed.

Lemma for_each_keeps {A X} (body : A -> X -> M (World DB FS * Out) A)
    (xs : list X) :
  (forall acc x w, fst (snd (body acc x w)) = fst w) ->
  forall acc w, fst (snd (for_each xs body acc w)) = fst w.
Proof.
  intros Hbody. induction xs as [|x xs IH]; intros acc w;
    cbn [for_each]; [reflexivity|].
  apply bind_keeps; [apply Hbody | exact IH].
Qed.

Lemma report_result_keeps (res : QueryResult) (u : unit)
    (x : Z * (string * float)) (w : World DB FS * Out) :
  fst (snd (report_result con res u x w)) = fst w.
Proof.
  destruct x as [i [frame_id distance]]. unfold report_result.
  repeat (apply bind_keeps; [try (intros; reflexivity);
                             try (intros; apply say_keeps) | intros]).
  apply say_keeps.
Qed.

(** The report of lines 180 to 189 leaves the store and the disk alone. *)
Lemma report_results_keeps (results : option QueryResult)
    (w : World DB FS * Out) :
  fst (snd (report_results con results w)) = fst w.
Proof.
  unfold report_results. destruct results as [res|]; [|apply say_keeps].
  destruct (truthy_list (ids res)); [|apply say_keeps].
  repeat (apply bind_keeps; [try (intros; reflexivity);
                             try (intros; apply say_keeps) | intros]).
  apply for_each_keeps. intros. apply report_result_keeps.
Qed.

(** [search_videos_by_text] returns what its [try] block returns; when
    the block raises, the handler prints its line on the console as the
    block left it, and returns [None] unless this [print] raises. *)
Lemma search_handler_run (text_query : string) (n_results : Z)
    (save_images : bool) (w : World DB FS * Out) :
  search_videos_by_text con env st disk text_query n_results save_images w
  = match search_videos_try con env st disk text_query n_results
            save_images w with
    | (Returned r, w1) => (Returned r, w1)
    | (Raised e0, w1) =>
        (match fst (print con (search_error_line e0) (snd w1)) with
         | Returned _ => Returned None
         | Raised e => Raised e
         end,
         (fst w1, snd (print con (search_error_line e0) (snd w1))))
    end.
Proof.
  unfold search_videos_by_text, try_except.
  destruct (search_videos_try con env st disk text_query n_results
              save_images w) as [[r|e0] w1]; [reflexivity|].
  unfold search_videos_except, bind. rewrite say_run. cbn [fst snd].
  destruct (print con (search_error_line e0) (snd w1)) as [[[]|e] o];
    reflexivity.
Qed.

(** What the [try] block returns is what the callee of its branch
    returned, called on the store and the disk of the start. *)
Lemma search_try_returns (text_query : string) (n_results : Z)
    (save_images : bool) (w w1 : World DB FS * Out)
    (r : option QueryResult) :
  search_videos_try con env st disk text_query n_results save_images w
  = (Returned r, w1) ->
  if save_images
  then fst (save_matched_frames env st disk text_query n_results (fst w))
       = Returned r
  else fst (search_frames_by_text env st text_query n_results (fst (fst w)))
       = Returned r.
Proof.
  unfold search_videos_try. unfold bind at 1. rewrite say_run.
  cbn [fst snd].
  destruct (print con _ (snd w)) as [[[]|e] o1]; cbn [fst snd];
    [|discriminate].
  destruct save_images.
  - unfold silently. cbn [fst snd].
    destruct (save_matched_frames env st disk text_query n_results (fst w))
      as [[r0|e] w0]; [|discriminate].
    intros H. now injection H as <- _.
  - unfold bind at 1. unfold silently, on_db. cbn [fst snd].
    destruct (search_frames_by_text env st text_query n_results (fst (fst w)))
      as [[r0|e] d1]; cbn [fst snd]; [|discriminate].
    unfold bind, ret.
    destruct (report_results con r0 _) as [[[]|e] w2]; [|discriminate].
    intros H. now injection H as <- _.
Qed.

(** Without saving, the [try] block leaves the disk as it was, however it
    ends. *)
Lemma search_try_keeps_disk (text_query : string) (n_results : Z)
    (w : World DB FS * Out) :
  snd (fst (snd (search_videos_try con env st disk text_query n_results
                   false w)))
  = snd (fst w).
Proof.
  unfold search_videos_try. unfold bind at 1. rewrite say_run.
  cbn [fst snd].
  destruct (print con _ (snd w)) as [[[]|e] o1]; cbn [fst snd];
    [|reflexivity].
  unfold bind at 1. unfold silently, on_db. cbn [fst snd].
  destruct (search_frames_by_text env st text_query n_results (fst (fst w)))
    as [[r0|e] d1]; cbn [fst snd]; [|reflexivity].
  unfold bind, ret.
  pose proof (report_results_keeps r0 (d1, snd (fst w), o1)) as Hkeep.
  destruct (report_results con r0 _) as [[[]|e] w2]; cbn [fst snd] in *;
    now rewrite Hkeep.
Qed.

(** X20: what [search_videos_by_text] does on a console that may refuse a
    line, whatever the query, the store, the disk and the console.  It
    raises only when its [try] block raised and the line its handler prints
    for that exception, on the console as the [try] block left it, is
    refused in turn: it then raises what this [print] raised.  What it
    returns is [None] or what the callee of its branch returned
    ([save_matched_frames] with [save_images], [search_frames_by_text]
    without), called on the store and the disk of the start.  Without
    [save_images] the disk is at the end what it was at the start, however
    the call ends.  On a console that takes every line the call returns. *)
Theorem search_outcomes_on_a_console (text_query : string) (n_results : Z)
    (save_images : bool) (w : World DB FS * Out) :
  let run :=
    search_videos_by_text con env st disk text_query n_results save_images w
  in
  match run with
  | (Raised e, w') =>
      exists e0 w1,
        search_videos_try con env st disk text_query n_results save_images w
        = (Raised e0, w1)
        /\ print con (search_error_line e0) (snd w1) = (Raised e, snd w')
        /\ fst w' = fst w1
  | (Returned r, w') =>
      r = None
      \/ (if save_images
          then fst (save_matched_frames env st disk text_query n_results
                      (fst w)) = Returned r
          else fst (search_frames_by_text env st text_query n_results
                      (fst (fst w))) = Returned r)
  end
  /\ (save_images = false -> snd (fst (snd run)) = snd (fst w))
  /\ ((forall text out, fst (print con text out) = Returned tt) ->
      exists r w', run = (Returned r, w')).
Proof.
  cbv zeta. rewrite search_handler_run.
  pose proof (search_try_returns text_query n_results save_images w) as Hret.
  pose proof (search_try_keeps_disk text_query n_results w) as Hdisk.
  destruct (search_videos_try con env st disk text_query n_results
              save_images w) as [[r|e0] w1] eqn:Htry.
  - split; [right; exact (Hret _ _ eq_refl)|]. split.
    + intros ->. rewrite Htry in Hdisk. exact Hdisk.
    + intros _. now exists r, w1.
  - destruct (print con (search_error_line e0) (snd w1)) as [[[]|e] o] eqn:Hp;
      cbn [fst snd].
    + split; [now left|]. split.
      * intros ->. rewrite Htry in Hdisk. exact Hdisk.
      * intros _. do 2 eexists. reflexivity.
    + split; [exists e0, w1; now repeat split|]. split.
      * intros ->. rewrite Htry in Hdisk. exact Hdisk.
      * intros Hwilling. specialize (Hwilling (search_error_line e0) (snd w1)).
        rewrite Hp in Hwilling. discriminate Hwilling.
Qed.

End SearchOnConsole.

(** A search without saving on the console that shows every line, next to
    one image written earlier: the call returns and the image is all there
    is on the disk. *)
Lemma search_outcomes_on_a_console_witness :
  exists r w',
    main_console.search_videos_by_text MoreSamples.console_log
      Samples.env_two_videos MoreSamples.store_default_only
      MoreSamples.disk_log "kitchen scene" 5 false
      ((Samples.log_three,
        {| MoreSamples.dirs := []; MoreSamples.images := [("old.jpg", 7)] |}),
       [])
    = (Py.Returned r, w')
    /\ snd (fst w')
       = {| MoreSamples.dirs := []; MoreSamples.images := [("old.jpg", 7)] |}.
Proof.
  pose proof (search_outcomes_on_a_console MoreSamples.console_log
                Samples.env_two_videos MoreSamples.store_default_only
                MoreSamples.disk_log "kitchen scene" 5 false
                ((Samples.log_three,
                  {| MoreSamples.dirs := [];
                     MoreSamples.images := [("old.jpg", 7)] |}),
                 [])) as H.
  cbv zeta in H. destruct H as (_ & Hdisk & Hreturns).
  destruct (Hreturns (fun text out => eq_refl)) as (r & w' & Hrun).
  exists r, w'. split; [exact Hrun|].
  specialize (Hdisk eq_refl). rewrite Hrun in Hdisk. exact Hdisk.
Defined.

(** The first sample video on the console that shows every line. *)
Lemma result_invariant_on_a_willing_console_witness :
  exists w',
    main_console.process_video_to_chromadb MoreSamples.console_log
      Samples.env_two_videos Samples.store_log Samples.video_a
      "./chroma_db" "video_embeddings" ([], [])
    = (Py.Returned
         (main.success_result Samples.video_a 3
            [("collection_name", Py.VStr "video_embeddings");
             ("total_embeddings", Py.VInt 3);
             ("db_path", Py.VStr "./chroma_db")]),
       w').
Proof.
  destruct (result_invariant_on_a_willing_console MoreSamples.console_log
              Samples.env_two_videos Samples.store_log Samples.video_a
              "./chroma_db" "video_embeddings" ([], []))
    as (r & w' & Hrun & _).
  - intros text out. reflexivity.
  - exists w'. rewrite Hrun. vm_compute in Hrun. now injection Hrun as <- _.
Defined.

(** The same call: the ids handed to the store. *)
Lemma success_counts_the_added_ids_witness :
  exists data d0 c d1 d2,
    clip_embeddings.process_video_embeddings Samples.env_two_videos
      Samples.video_a = Py.Returned data
    /\ chromadb_manager.__init__ Samples.store_log "./chroma_db"
         "video_embeddings" [] = (Py.Returned Samples.manager, d0)
    /\ chromadb_manager.collection_count Samples.store_log Samples.manager d0
       = (Py.Returned c, d1)
    /\ chromadb_manager.collection_add Samples.store_log Samples.manager
         (map clip_embeddings.id data) (map clip_embeddings.embedding data)
         (map clip_embeddings.metadata data) d1 = (Py.Returned tt, d2)
    /\ 3 = Py.len data
    /\ NoDup (map clip_embeddings.id data).
Proof.
  pose proof (success_counts_the_added_ids MoreSamples.console_log
                Samples.env_two_videos Samples.store_log Samples.video_a
                "./chroma_db" "video_embeddings" ([], [])) as H.
  specialize (H _ _ eq_refl eq_refl). exact H.
Defined.

(** C10: on a console whose encoding lacks the marks of the progress lines
    (ASCII here; cp1252 has neither of them), processing the first sample
    video into the empty logging store raises.  The records are stored and
    [result.update] has run when the line of line 76 is refused; the
    handler records the error and its own line, which starts with another
    such mark, is refused in turn, and this second exception leaves the
    function.  The lines shown are those of [process_video_to_chromadb]
    itself; the calls in between print ASCII only for this video.  On the
    console that takes every line the same call returns the result of a
    success. *)
Theorem refused_print_escapes_the_handler :
  let run :=
    main_console.process_video_to_chromadb MoreSamples.console_ascii
      Samples.env_two_videos Samples.store_log Samples.video_a
      "./chroma_db" "video_embeddings" ([], []) in
  fst run
  = Py.Raised
      (Py.Exception
         "'ascii' codec can't encode character '\u274c' in position 0: ordinal not in range(128)")
  /\ map fst (Samples.log_of Samples.manager (fst (snd run)))
     = ["scene_0_frame_0_sample_0"; "scene_0_frame_1_sample_30";
        "scene_0_frame_2_sample_60"]
  /\ snd (snd run)
     = ["Processing video: a.mp4"; "Full path: videos/a.mp4";
        "Generating CLIP embeddings..."; "Generated 3 embeddings";
        "Saving embeddings to ChromaDB..."]
  /\ fst (External.print MoreSamples.console_ascii (main_console.saved_line 3)
            (snd (snd run)))
     = Py.Raised
         (Py.Exception
            "'ascii' codec can't encode character '\u2705' in position 0: ordinal not in range(128)")
  /\ fst (main_console.process_video_to_chromadb MoreSamples.console_log
            Samples.env_two_videos Samples.store_log Samples.video_a
            "./chroma_db" "video_embeddings" ([], []))
     = Py.Returned
         (main.success_result Samples.video_a 3
            [("collection_name", Py.VStr "video_embeddings");
             ("total_embeddings", Py.VInt 3);
             ("db_path", Py.VStr "./chroma_db")]).
Proof.
  cbv zeta. repeat split; vm_compute; reflexivity.
Qed.
